(** * SSDLite detection assembly of edgeai-torchvision: model and properties

    The development follows the Python sources
    [torchvision/models/detection/ssdlite.py] and
    [torchvision/datasets/datalist.py], and the box geometry, suppression,
    box coding and anchor generation components the specification describes.

    Python integers are [Z]; box coordinates and scores are exact rationals
    [Q], and real numbers [R] where the box coding takes logarithms;
    dictionaries keyed by strings are [gmap string _]; a Python function
    that may raise lives in the monad [M], which collects the trace of
    warnings and external calls and returns either an exception or a value. *)

From Stdlib Require Import QArith Qminmax Qabs Lqa.
From Stdlib Require Import Reals Lra.
From Equations Require Import Equations.
From stdpp Require Import gmap strings list fin_maps sorting pretty.

Set Default Proof Using "Type".
Set Warnings "-register-all".
Local Open Scope Z_scope.

(* ===================================================================== *)
(** * Python values, exceptions and the call protocol                     *)
(* ===================================================================== *)

Module Py.

(** The values that reach the modelled functions.  A function object is
    identified by its qualified name; [PyObj] is any other object (a
    module of the network, a [functools.partial], a tensor), opaque. *)
Inductive pyval : Type :=
| PyNone
| PyBool (b : bool)
| PyInt (n : Z)
| PyStr (s : string)
| PyTuple (items : list pyval)
| PyList (items : list pyval)
| PyDict (items : list (string * pyval))
| PyFunc (qualname : string)
| PyObj (id : positive).

#[export] Instance pyval_inhabited : Inhabited pyval := populate PyNone.

Inductive exn_class : Type :=
| TypeError | ValueError | KeyError | IndexError | AssertionError
| NameError | UnboundLocalError | FileNotFoundError | OSError
| OtherError (name : string).

(** [exn_msg] is the message, a format template when [exn_args] is not
    empty (the arguments of [str.format]). *)
Record exn : Type := Raise {
  exn_cls : exn_class;
  exn_msg : string;
  exn_args : list pyval
}.

(** What a call leaves behind: warnings, and calls into code outside the
    modelled files, with the arguments they received. *)
Inductive event : Type :=
| EvWarn (msg : string)
| EvCall (callee : string) (args : list pyval) (kwargs : gmap string pyval).

Definition trace : Type := list event.

(** A computation: the events it leaves, in order, and an exception or a
    value. *)
Definition M (A : Type) : Type := (trace * (exn + A))%type.

Definition ret {A} (a : A) : M A := ([], inr a).
Definition bind {A B} (m : M A) (k : A -> M B) : M B :=
  match m with
  | (t, inl e) => (t, inl e)
  | (t, inr a) => (t ++ (k a).1, (k a).2)
  end.
Definition raise {A} (e : exn) : M A := ([], inl e).
Definition emit (ev : event) : M unit := ([ev], inr tt).
Definition warn (msg : string) : M unit := emit (EvWarn msg).
Definition lift {A} (r : exn + A) : M A := ([], r).

(** [try: body except: handler] with a bare [except]. *)
Definition try_except {A} (body handler : M A) : M A :=
  match body with
  | (t, inl _) => (t ++ handler.1, handler.2)
  | r => r
  end.

(** [assert c] *)
Definition py_assert (c : bool) : M unit :=
  if c then ret tt else raise (Raise AssertionError "" []).

Definition outcome {A} (m : M A) : exn + A := m.2.
Definition events {A} (m : M A) : trace := m.1.

(** Truth value of an object ([if x:]); an opaque object and a function
    are true, as objects are unless they define otherwise. *)
Definition truthy (v : pyval) : bool :=
  match v with
  | PyNone => false
  | PyBool b => b
  | PyInt n => negb (n =? 0)
  | PyStr s => negb (String.eqb s "")
  | PyTuple l | PyList l => negb (Nat.eqb (length l) 0)
  | PyDict l => negb (Nat.eqb (length l) 0)
  | PyFunc _ | PyObj _ => true
  end.

(** [a or b] *)
Definition py_or (a b : pyval) : pyval := if truthy a then a else b.

(** [x is None], [x is True], [isinstance(x, str)] *)
Definition is_None (v : pyval) : bool :=
  match v with PyNone => true | _ => false end.
Definition is_True (v : pyval) : bool :=
  match v with PyBool true => true | _ => false end.
Definition is_str (v : pyval) : bool :=
  match v with PyStr _ => true | _ => false end.

(** The first part of an object that has no hash: a list or a dictionary,
    or the first one inside a tuple, whose hash is computed from the hashes
    of its items in order.  An opaque object and a function have a hash,
    as objects do unless they define otherwise. *)
Fixpoint unhashable (v : pyval) : option pyval :=
  match v with
  | PyList _ | PyDict _ => Some v
  | PyTuple items =>
      (fix first (l : list pyval) : option pyval :=
         match l with
         | [] => None
         | x :: l' =>
             match unhashable x with
             | Some u => Some u
             | None => first l'
             end
         end) items
  | _ => None
  end.

(** [d.get(key, None)] on a dictionary whose keys are strings: the key is
    hashed first, and a key with an unhashable part raises [TypeError]
    for that part; a key that is not a string is equal to none of the
    keys. *)
Definition dict_get (d : gmap string pyval) (key : pyval) : exn + pyval :=
  match unhashable key with
  | Some u => inl (Raise TypeError "unhashable type" [u])
  | None =>
      inr (match key with
           | PyStr s => default PyNone (d !! s)
           | _ => PyNone
           end)
  end.

(** [f(k1=v1, ..., **kwargs)]: the keywords written at the call site and
    the unpacked dictionary must not share a name. *)
Definition merge_keywords (fname : string) (explicit : list (string * pyval))
    (star : gmap string pyval) : exn + gmap string pyval :=
  match List.find (fun kv => bool_decide (is_Some (star !! kv.1))) explicit with
  | Some kv =>
      inl (Raise TypeError "{}() got multiple values for keyword argument '{}'"
             [PyStr fname; PyStr kv.1])
  | None => inr (list_to_map explicit ∪ star)
  end.

(** Binding of a call of [f] with positional arguments [args] and keywords
    [kw] to [def f(p1=d1, ..., pn=dn, **kwargs)]: the positional arguments fill the first parameters, a
    keyword names a parameter not yet filled or goes to [kwargs], and an
    empty parameter takes its default.  Result: the local frame and
    [kwargs].  A keyword for a parameter that a positional argument has
    filled is reported before a surplus of positional arguments.  Both
    failures are [TypeError]s.  When several keywords name filled
    parameters, the interpreter reports the one written first at the call
    site; the keywords are a finite map here, which keeps no such order,
    and the exception names the first of them in the order of the
    parameters: only the class of a binding failure is to be relied on. *)
Definition bind_params (fname : string) (params : list (string * pyval))
    (args : list pyval) (kw : gmap string pyval)
  : exn + (gmap string pyval * gmap string pyval) :=
  match List.find (fun p => bool_decide (is_Some (kw !! p.1)))
                  (take (length args) params) with
  | Some p =>
      inl (Raise TypeError "{}() got multiple values for argument '{}'"
             [PyStr fname; PyStr p.1])
  | None =>
      if bool_decide (length params < length args)%nat then
        inl (Raise TypeError "{}() takes from 0 to {} positional arguments but {} were given"
               [PyStr fname; PyInt (Z.of_nat (length params)); PyInt (Z.of_nat (length args))])
      else
        let positional := zip (params.*1) args in
        let rest := drop (length args) params in
        let named := (fun p => (p.1, default p.2 (kw !! p.1))) <$> rest in
        inr (list_to_map (positional ++ named),
             foldr (fun p m => delete p.1 m) kw params)
  end.

End Py.

Export Py.

Declare Scope py_scope.
Delimit Scope py_scope with py.
Notation "x <- m ;; k" := (Py.bind m (fun x => k))
  (at level 100, m at next level, right associativity) : py_scope.
Notation "m ;;; k" := (Py.bind m (fun _ => k))
  (at level 100, right associativity) : py_scope.

(** [l[i]] with Python's negative indices. *)
Definition py_index {A} (l : list A) (i : Z) : exn + A :=
  let j := if i <? 0 then i + Z.of_nat (length l) else i in
  if j <? 0 then inl (Raise IndexError "list index out of range" [])
  else match l !! Z.to_nat j with
       | Some a => inr a
       | None => inl (Raise IndexError "list index out of range" [])
       end.

(** [l[:n]] *)
Definition py_slice_to {A} (l : list A) (n : Z) : list A :=
  let j := if n <? 0 then n + Z.of_nat (length l) else n in
  take (Z.to_nat j) l.

(** A comprehension [[f(a) for a in l]] whose element expression may
    raise: the first exception ends it. *)
Fixpoint map_exn {A B} (f : A -> exn + B) (l : list A) : exn + list B :=
  match l with
  | [] => inr []
  | a :: l' =>
      match f a with
      | inl e => inl e
      | inr b =>
          match map_exn f l' with
          | inl e => inl e
          | inr bs => inr (b :: bs)
          end
      end
  end.

(** A value used where an integer is needed ([bool] is a subclass of
    [int]). *)
Definition as_int (v : pyval) : option Z :=
  match v with
  | PyInt n => Some n
  | PyBool b => Some (if b then 1 else 0)
  | _ => None
  end.

(* ===================================================================== *)
(** * torchvision/models/detection/ssdlite.py                             *)
(* ===================================================================== *)

Module Ssdlite.

Local Open Scope py_scope.

(** ** Layers, by their shape parameters *)

Record ConvNormActivation : Type := {
  cna_in_channels : Z;
  cna_out_channels : Z;
  cna_kernel_size : Z;
  cna_stride : Z;
  cna_groups : Z;
  cna_norm_layer : pyval;
  cna_activation_layer : string
}.

Record Conv2d : Type := {
  conv_in_channels : Z;
  conv_out_channels : Z;
  conv_kernel_size : Z
}.

(** [nn.Sequential(ConvNormActivation(...), nn.Conv2d(...))] *)
Record PredictionBlock : Type := {
  pb_depthwise : ConvNormActivation;
  pb_projection : Conv2d
}.

Definition _prediction_block (in_channels out_channels kernel_size : Z)
    (norm_layer : pyval) : PredictionBlock :=
  {| pb_depthwise :=
       {| cna_in_channels := in_channels; cna_out_channels := in_channels;
          cna_kernel_size := kernel_size; cna_stride := 1;
          cna_groups := in_channels; cna_norm_layer := norm_layer;
          cna_activation_layer := "ReLU6" |};
     pb_projection :=
       {| conv_in_channels := in_channels; conv_out_channels := out_channels;
          conv_kernel_size := 1 |} |}.

(** The channels a block reads and writes. *)
Definition block_in_channels (b : PredictionBlock) : Z :=
  cna_in_channels (pb_depthwise b).
Definition block_out_channels (b : PredictionBlock) : Z :=
  conv_out_channels (pb_projection b).

(** [SSDScoringHead]: the base class keeps the branches and the number of
    columns of a prediction. *)
Record SSDScoringHead : Type := {
  module_list : list PredictionBlock;
  num_columns : Z
}.

(** [SSDLiteClassificationHead.__init__]: the loop appends one block per
    pair of [zip(in_channels, num_anchors)].  ([_normal_init] sets weights
    only.) *)
Definition SSDLiteClassificationHead (in_channels num_anchors : list Z)
    (num_classes : Z) (norm_layer : pyval) : SSDScoringHead :=
  let cls_logits :=
    fold_left
      (fun cls_logits ca =>
         cls_logits ++ [_prediction_block ca.1 (num_classes * ca.2) 3 norm_layer])
      (zip in_channels num_anchors) [] in
  {| module_list := cls_logits; num_columns := num_classes |}.

(** [SSDLiteRegressionHead.__init__] *)
Definition SSDLiteRegressionHead (in_channels num_anchors : list Z)
    (norm_layer : pyval) : SSDScoringHead :=
  let bbox_reg :=
    fold_left
      (fun bbox_reg ca =>
         bbox_reg ++ [_prediction_block ca.1 (4 * ca.2) 3 norm_layer])
      (zip in_channels num_anchors) [] in
  {| module_list := bbox_reg; num_columns := 4 |}.

Record SSDLiteHead : Type := {
  classification_head : SSDScoringHead;
  regression_head : SSDScoringHead;
  num_classes : Z
}.

(** [SSDLiteHead.__init__] *)
Definition new_SSDLiteHead (in_channels num_anchors : list Z) (num_classes : Z)
    (norm_layer : pyval) : SSDLiteHead :=
  {| classification_head :=
       SSDLiteClassificationHead in_channels num_anchors num_classes norm_layer;
     regression_head := SSDLiteRegressionHead in_channels num_anchors norm_layer;
     num_classes := num_classes |}.

(** A feature map [(N, C, H, W)]. *)
Record Shape : Type := { sh_N : Z; sh_C : Z; sh_H : Z; sh_W : Z }.

(** A prediction block on a feature map: the 3x3 depthwise convolution
    with stride 1 and padding 1 keeps the map, the 1x1 projection sets the
    channels; the input must have the channels the block was built for. *)
Definition block_forward (b : PredictionBlock) (x : Shape) : option Shape :=
  if sh_C x =? block_in_channels b then
    Some {| sh_N := sh_N x; sh_C := block_out_channels b;
            sh_H := sh_H x; sh_W := sh_W x |}
  else None.

(** Modelled from the spec: [SSDScoringHead.forward] ([ssd.py] is not among
    the sources).  The head produces per-level raw outputs: branch [i] is
    applied to feature map [i], in the order of the feature maps. *)
Fixpoint scoring_head_levels (branches : list PredictionBlock) (x : list Shape)
    {struct x} : option (list Shape) :=
  match x, branches with
  | [], _ => Some []
  | _ :: _, [] => None
  | f :: x', b :: branches' =>
      match block_forward b f, scoring_head_levels branches' x' with
      | Some r, Some rs => Some (r :: rs)
      | _, _ => None
      end
  end.

(** [SSDLiteHead.forward]: the dictionary with the entries
    ['bbox_regression'] and ['cls_logits'], here by level. *)
Record HeadOutput : Type := {
  bbox_regression : list Shape;
  cls_logits : list Shape
}.

Definition SSDLiteHead_forward (h : SSDLiteHead) (x : list Shape)
  : option HeadOutput :=
  match scoring_head_levels (module_list (regression_head h)) x,
        scoring_head_levels (module_list (classification_head h)) x with
  | Some r, Some c => Some {| bbox_regression := r; cls_logits := c |}
  | _, _ => None
  end.

(** The head of the default model, and feature maps for it. *)
Definition demo_head : SSDLiteHead :=
  new_SSDLiteHead [672; 480; 512; 256; 256; 128] [3; 3; 3; 3; 3; 3] 91 PyNone.

Definition demo_features : list Shape :=
  (fun cs => {| sh_N := 1; sh_C := cs.1; sh_H := cs.2; sh_W := cs.2 |})
    <$> [(672, 20); (480, 10); (512, 5); (256, 3); (256, 2); (128, 1)].

(** ** Model construction *)

(** [model_urls] *)
Definition model_urls : gmap string pyval :=
  {[ "ssdlite320_mobilenet_v3_large_coco" :=
       PyStr "https://download.pytorch.org/models/ssdlite320_mobilenet_v3_large_coco-a79551df.pth" ]}.

(** A block of the backbone's [features]: what [_mobilenet_extractor] and
    the feature extractor read and write.  [blk_is_cn] is
    [getattr(b, "_is_cn", False)]; [blk_use_res_connect] is [None] for a
    block without that attribute. *)
Record Block : Type := {
  blk_id : positive;
  blk_is_cn : bool;
  blk_use_res_connect : option bool;
  blk_requires_grad : bool
}.

(** The code outside this file that the constructors call: each function
    answers with a value or raises. *)
Record Env : Type := {
  (** [backbone_utils._validate_trainable_layers] *)
  validate_trainable_layers : pyval -> pyval -> Z -> Z -> exn + Z;
  (** [mobilenet.__dict__]: each entry called with keywords, giving the
      [features] of the network *)
  mobilenet_dict : gmap string (gmap string pyval -> exn + list Block);
  (** the layers [SSDLiteFeatureExtractorMobileNet.__init__] builds from
      the backbone, once its assertion has passed *)
  extractor_layers : list Block -> Z -> pyval -> gmap string pyval -> exn + pyval;
  (** [det_utils.retrieve_out_channels] *)
  retrieve_out_channels : pyval -> pyval -> exn + list Z;
  (** [DefaultBoxGenerator(aspect_ratios, ...).num_anchors_per_location()] *)
  num_anchors_per_location : list (list Z) -> list Z;
  (** [SSD(backbone, anchor_generator, size, num_classes, head=..., **kwargs)] *)
  new_SSD : pyval -> pyval -> pyval -> SSDLiteHead -> gmap string pyval -> exn + pyval;
  (** [xnn.utils.is_url] *)
  is_url : pyval -> bool;
  (** [load_state_dict_from_url(url, progress=progress)] *)
  load_state_dict_from_url : pyval -> pyval -> exn + pyval;
  (** [torch.load] *)
  torch_load : pyval -> exn + pyval;
  (** [model.load_state_dict(state_dict, strict=...)] *)
  load_state_dict : pyval -> pyval -> bool -> exn + unit
}.

Section WithEnv.

Context (env : Env).

(** A call into [env], recorded in the trace. *)
Definition call {A} (callee : string) (args : list pyval)
    (kwargs : gmap string pyval) (r : exn + A) : M A :=
  emit (EvCall callee args kwargs) ;;; lift r.

(** [SSDLiteFeatureExtractorMobileNet.__init__(self, backbone, c4_pos,
    norm_layer, width_mult=1.0, min_depth=16, **kwargs)] *)
Definition SSDLiteFeatureExtractorMobileNet (backbone : list Block) (c4_pos : Z)
    (norm_layer : pyval) (kwargs : gmap string pyval) : M pyval :=
  _ <- lift (bind_params "__init__"
               [("backbone", PyNone); ("c4_pos", PyNone); ("norm_layer", PyNone);
                ("width_mult", PyNone); ("min_depth", PyInt 16)]
               [PyNone; PyInt c4_pos; norm_layer] kwargs) ;;
  (* assert not backbone[c4_pos].use_res_connect *)
  c4 <- lift (py_index backbone c4_pos) ;;
  match blk_use_res_connect c4 with
  | None => raise (Raise (OtherError "AttributeError") "use_res_connect" [])
  | Some u =>
      py_assert (negb u) ;;;
      call "SSDLiteFeatureExtractorMobileNet" [PyInt c4_pos; norm_layer] kwargs
           (extractor_layers env backbone c4_pos norm_layer kwargs)
  end.

(** The indices [i] of [enumerate(backbone)] with [_is_cn] set. *)
Definition cn_indices (backbone : list Block) : list Z :=
  omap (fun ib => if blk_is_cn ib.2 then Some (Z.of_nat ib.1) else None)
       (imap (fun i b => (i, b)) backbone).

Definition freeze (b : Block) : Block :=
  {| blk_id := blk_id b; blk_is_cn := blk_is_cn b;
     blk_use_res_connect := blk_use_res_connect b; blk_requires_grad := false |}.

(** [_mobilenet_extractor(backbone_name, progress, pretrained,
    trainable_layers, norm_layer, **kwargs)] *)
Definition _mobilenet_extractor (backbone_name progress pretrained : pyval)
    (trainable_layers : Z) (norm_layer : pyval) (kw : gmap string pyval)
  : M pyval :=
  fk <- lift (bind_params "_mobilenet_extractor"
                [("backbone_name", PyNone); ("progress", PyNone);
                 ("pretrained", PyNone); ("trainable_layers", PyNone);
                 ("norm_layer", PyNone)]
                [backbone_name; progress; pretrained; PyInt trainable_layers;
                 norm_layer] kw) ;;
  let kwargs := fk.2 in
  (* mobilenet.__dict__[backbone_name](pretrained=..., progress=...,
     norm_layer=..., **kwargs).features *)
  ctor <- lift (match unhashable backbone_name with
                | Some u => inl (Raise TypeError "unhashable type" [u])
                | None =>
                    match backbone_name with
                    | PyStr s =>
                        match mobilenet_dict env !! s with
                        | Some c => inr c
                        | None => inl (Raise KeyError "" [backbone_name])
                        end
                    | _ => inl (Raise KeyError "" [backbone_name])
                    end
                end) ;;
  ckw <- lift (merge_keywords "mobilenet"
                 [("pretrained", pretrained); ("progress", progress);
                  ("norm_layer", norm_layer)] kwargs) ;;
  backbone <- call "mobilenet" [backbone_name] ckw (ctor ckw) ;;
  (* if not pretrained: _normal_init(backbone) changes weights only *)
  let stage_indices :=
    [0] ++ cn_indices backbone ++ [Z.of_nat (length backbone) - 1] in
  let num_stages := Z.of_nat (length stage_indices) in
  py_assert ((0 <=? trainable_layers) && (trainable_layers <=? num_stages)) ;;;
  freeze_before <-
    (if trainable_layers =? 0 then ret (Z.of_nat (length backbone))
     else lift (py_index stage_indices (num_stages - trainable_layers))) ;;
  let frozen := length (py_slice_to backbone freeze_before) in
  let backbone := (freeze <$> take frozen backbone) ++ drop frozen backbone in
  c4_pos <- lift (py_index stage_indices (-2)) ;;
  SSDLiteFeatureExtractorMobileNet backbone c4_pos norm_layer kwargs.

(** [d['k'] if 'k' in d else d], for a string [k]: a dictionary is looked
    up; a string or a sequence that contains [k] cannot be indexed by it;
    any other object is not a container. *)
Definition unwrap_key (k : string) (d : pyval) : M pyval :=
  match d with
  | PyDict items =>
      match List.find (fun kv => String.eqb kv.1 k) items with
      | Some kv => ret kv.2
      | None => ret d
      end
  | PyStr s =>
      match String.index 0 k s with
      | Some _ => raise (Raise TypeError "string indices must be integers" [])
      | None => ret d
      end
  | PyTuple items | PyList items =>
      if existsb (fun v => match v with PyStr s => String.eqb s k | _ => false end) items
      then raise (Raise TypeError "indices must be integers or slices" [])
      else ret d
  | _ => raise (Raise TypeError "argument is not iterable" [d])
  end.

(** [_load_state_dict(model, state_dict)] *)
Definition _load_state_dict (model state_dict : pyval) : M unit :=
  state_dict <- unwrap_key "model" state_dict ;;
  state_dict <- unwrap_key "state_dict" state_dict ;;
  try_except
    (call "load_state_dict" [model; state_dict] ∅
          (load_state_dict env model state_dict true))
    (call "load_state_dict" [model; state_dict] {[ "strict" := PyBool false ]}
          (load_state_dict env model state_dict false)).

(** The aspect ratios of the anchor generator, [[[2, 3] for _ in range(6)]]. *)
Definition aspect_ratios : list (list Z) := replicate 6 [2; 3].

(** The first part of the body of [ssdlite320_mobilenet_v3_large], up to
    the construction of the [SSD] model.  The floating-point defaults and
    the objects built on the way ([partial(nn.BatchNorm2d, ...)], the
    thresholds, the mean and standard deviation lists, the head passed by
    keyword) are opaque objects with fixed identifiers. *)
Definition build_model
    (pretrained progress num_classes pretrained_backbone
     trainable_backbone_layers norm_layer size backbone_name reduce_tail
     : pyval) (kwargs : gmap string pyval) : M pyval :=
  size <- (if is_None size then
             warn "The size of the model is not provided; using default." ;;;
             ret (PyTuple [PyInt 320; PyInt 320])
           else ret size) ;;
  trainable_backbone_layers <-
    call "_validate_trainable_layers"
         [py_or pretrained pretrained_backbone; trainable_backbone_layers;
          PyInt 6; PyInt 6] ∅
         (validate_trainable_layers env (py_or pretrained pretrained_backbone)
            trainable_backbone_layers 6 6) ;;
  let pretrained_backbone :=
    if truthy pretrained then PyBool false else pretrained_backbone in
  let norm_layer := if is_None norm_layer then PyObj 1 else norm_layer in
  ekw <- lift (merge_keywords "_mobilenet_extractor"
                 [("reduced_tail", reduce_tail)] kwargs) ;;
  backbone <- _mobilenet_extractor backbone_name progress pretrained_backbone
                trainable_backbone_layers norm_layer ekw ;;
  out_channels <- call "retrieve_out_channels" [backbone; size] ∅
                       (retrieve_out_channels env backbone size) ;;
  let num_anchors := num_anchors_per_location env aspect_ratios in
  py_assert (Nat.eqb (length out_channels) (length aspect_ratios)) ;;;
  let defaults : list (string * pyval) :=
    [("score_thresh", PyObj 2); ("nms_thresh", PyObj 3);
     ("detections_per_img", PyInt 300); ("topk_candidates", PyInt 300);
     ("image_mean", default (PyObj 4) (kwargs !! "image_mean"));
     ("image_std", default (PyObj 4) (kwargs !! "image_std"))] in
  let kwargs := delete "image_std" (delete "image_mean" kwargs) in
  (* {**defaults, **kwargs}: the entries of kwargs win *)
  let kwargs := kwargs ∪ list_to_map defaults in
  head <- match as_int num_classes with
          | Some n => ret (new_SSDLiteHead out_channels num_anchors n norm_layer)
          | None => raise (Raise TypeError "num_classes" [num_classes])
          end ;;
  skw <- lift (merge_keywords "SSD" [("head", PyObj 5)] kwargs) ;;
  call "SSD" [backbone; size; num_classes] skw
       (new_SSD env backbone size num_classes head kwargs).

(** The exception of the branch without a checkpoint. *)
Definition no_checkpoint (weights_name : pyval) : exn :=
  Raise ValueError "No checkpoint is available for model {}" [weights_name].

(** The last part of the body: the weights are loaded as [pretrained]
    says. *)
Definition load_pretrained (model pretrained progress weights_name : pyval)
  : M unit :=
  if is_True pretrained then
    url <- lift (dict_get model_urls weights_name) ;;
    if is_None url then raise (no_checkpoint weights_name)
    else
      (* model_urls[weights_name] *)
      state_dict <- call "load_state_dict_from_url" [url]
                         {[ "progress" := progress ]}
                         (load_state_dict_from_url env url progress) ;;
      call "load_state_dict" [model; state_dict] ∅
           (load_state_dict env model state_dict true)
  else if is_url env pretrained then
    state_dict <- call "load_state_dict_from_url" [pretrained]
                       {[ "progress" := progress ]}
                       (load_state_dict_from_url env pretrained progress) ;;
    _load_state_dict model state_dict
  else if is_str pretrained then
    state_dict <- call "torch.load" [pretrained] ∅ (torch_load env pretrained) ;;
    _load_state_dict model state_dict
  else ret tt.

(** The body of [ssdlite320_mobilenet_v3_large], its parameters bound. *)
Definition ssdlite320_body
    (pretrained progress num_classes pretrained_backbone
     trainable_backbone_layers norm_layer size backbone_name reduce_tail
     weights_name : pyval) (kwargs : gmap string pyval) : M pyval :=
  model <- build_model pretrained progress num_classes pretrained_backbone
             trainable_backbone_layers norm_layer size backbone_name
             reduce_tail kwargs ;;
  load_pretrained model pretrained progress weights_name ;;;
  ret model.

(** The parameters of [ssdlite320_mobilenet_v3_large] with their defaults. *)
Definition ssdlite320_params : list (string * pyval) :=
  [("pretrained", PyBool false); ("progress", PyBool true);
   ("num_classes", PyInt 91); ("pretrained_backbone", PyBool false);
   ("trainable_backbone_layers", PyNone); ("norm_layer", PyNone);
   ("size", PyNone); ("backbone_name", PyNone); ("reduce_tail", PyBool false);
   ("weights_name", PyStr "ssdlite320_mobilenet_v3_large_coco")].

(** [ssdlite320_mobilenet_v3_large], called with positional arguments
    [args] and keywords [kw]. *)
Definition ssdlite320_mobilenet_v3_large (args : list pyval)
    (kw : gmap string pyval) : M pyval :=
  fk <- lift (bind_params "ssdlite320_mobilenet_v3_large" ssdlite320_params
                args kw) ;;
  let frame := fk.1 in
  ssdlite320_body (frame !!! "pretrained") (frame !!! "progress")
    (frame !!! "num_classes") (frame !!! "pretrained_backbone")
    (frame !!! "trainable_backbone_layers") (frame !!! "norm_layer")
    (frame !!! "size") (frame !!! "backbone_name") (frame !!! "reduce_tail")
    (frame !!! "weights_name") fk.2.

(** [ssdlite_mobilenet_v3_large], called with positional arguments [args]
    and keywords [kw]: [backbone_name] is keyword-only, and the function
    passes itself as [weights_name]. *)
Definition ssdlite_mobilenet_v3_large (args : list pyval)
    (kw : gmap string pyval) : M pyval :=
  let backbone_name := default (PyStr "mobilenet_v3_large") (kw !! "backbone_name") in
  let kwargs := delete "backbone_name" kw in
  ckw <- lift (merge_keywords "ssdlite320_mobilenet_v3_large"
                 [("backbone_name", backbone_name);
                  ("weights_name", PyFunc "ssdlite_mobilenet_v3_large")]
                 kwargs) ;;
  ssdlite320_mobilenet_v3_large args ckw.

(** The value the call binds to [pretrained]. *)
Definition pretrained_argument (args : list pyval) (kw : gmap string pyval)
  : pyval :=
  match args with
  | v :: _ => v
  | [] => default (PyBool false) (kw !! "pretrained")
  end.

End WithEnv.

(** ** A sample environment, and predicates on the events of a call *)

(** A backbone of three blocks, the middle one strided. *)
Definition demo_backbone : list Block :=
  [ {| blk_id := 1; blk_is_cn := false; blk_use_res_connect := None;
       blk_requires_grad := true |};
    {| blk_id := 2; blk_is_cn := true; blk_use_res_connect := Some false;
       blk_requires_grad := true |};
    {| blk_id := 3; blk_is_cn := false; blk_use_res_connect := None;
       blk_requires_grad := true |} ].

(** An environment in which every external call succeeds. *)
Definition demo_env : Env :=
  {| validate_trainable_layers := fun _ _ _ _ => inr 3;
     mobilenet_dict := {[ "mobilenet_v3_large" := fun _ => inr demo_backbone ]};
     extractor_layers := fun _ _ _ _ => inr (PyObj 10);
     retrieve_out_channels := fun _ _ => inr [672; 480; 512; 256; 256; 128];
     num_anchors_per_location :=
       fun ratios => (fun r => 1 + Z.of_nat (length r)) <$> ratios;
     new_SSD := fun _ _ _ _ _ => inr (PyObj 11);
     is_url := fun _ => false;
     load_state_dict_from_url := fun _ _ => inr (PyDict []);
     torch_load := fun _ => inr (PyDict []);
     load_state_dict := fun _ _ _ => inr tt |}.

(** The part of a call of [ssdlite_mobilenet_v3_large] that precedes the
    loading of weights: the two bindings of arguments and the construction
    of the model. *)
Definition construction (env : Env) (args : list pyval)
    (kw : gmap string pyval) : M pyval :=
  let backbone_name := default (PyStr "mobilenet_v3_large") (kw !! "backbone_name") in
  let kwargs := delete "backbone_name" kw in
  ckw <- lift (merge_keywords "ssdlite320_mobilenet_v3_large"
                 [("backbone_name", backbone_name);
                  ("weights_name", PyFunc "ssdlite_mobilenet_v3_large")]
                 kwargs) ;;
  fk <- lift (bind_params "ssdlite320_mobilenet_v3_large" ssdlite320_params
                args ckw) ;;
  let frame := fk.1 in
  build_model env (frame !!! "pretrained") (frame !!! "progress")
    (frame !!! "num_classes") (frame !!! "pretrained_backbone")
    (frame !!! "trainable_backbone_layers") (frame !!! "norm_layer")
    (frame !!! "size") (frame !!! "backbone_name") (frame !!! "reduce_tail")
    fk.2.

(** The backbone is built without pretrained weights. *)
Definition backbone_untrained (ev : event) : Prop :=
  match ev with
  | EvCall callee _ ckw =>
      callee = "mobilenet" -> ckw !! "pretrained" = Some (PyBool false)
  | EvWarn _ => True
  end.

(** The input size the model is measured and built with is (320, 320). *)
Definition sized_320 (ev : event) : Prop :=
  match ev with
  | EvCall callee args _ =>
      callee = "retrieve_out_channels" \/ callee = "SSD" ->
      args !! 1%nat = Some (PyTuple [PyInt 320; PyInt 320])
  | EvWarn _ => True
  end.

End Ssdlite.

(* ===================================================================== *)
(** * torchvision/datasets/datalist.py                                    *)
(* ===================================================================== *)

Module Datalist.

Local Open Scope py_scope.

(** ** Strings of the split file (ASCII text) *)

(** The characters [str.strip()] removes from ASCII text.  On other text
    it removes further characters (U+0085, U+00A0 and the other Unicode
    white space), which a string of bytes does not show: the functions
    below are [strip] and [split] for lines of ASCII text. *)
Definition is_space (c : Ascii.ascii) : bool :=
  let n := Ascii.nat_of_ascii c in
  ((9 <=? n)%nat && (n <=? 13)%nat) || ((28 <=? n)%nat && (n <=? 32)%nat).

Fixpoint lstrip (s : string) : string :=
  match s with
  | EmptyString => EmptyString
  | String c s' => if is_space c then lstrip s' else s
  end.

Fixpoint rstrip (s : string) : string :=
  match s with
  | EmptyString => EmptyString
  | String c s' =>
      match rstrip s' with
      | EmptyString => if is_space c then EmptyString else String c EmptyString
      | r => String c r
      end
  end.

(** [s.strip()] *)
Definition py_strip (s : string) : string := rstrip (lstrip s).

(** [s.split(' ')]: the fields between single spaces. *)
Fixpoint py_split (s : string) : list string :=
  match s with
  | EmptyString => [EmptyString]
  | String c s' =>
      if Ascii.eqb c (Ascii.ascii_of_nat 32) then EmptyString :: py_split s'
      else match py_split s' with
           | f :: fs => String c f :: fs
           | [] => [String c EmptyString]
           end
  end.

(** ** The module's surroundings *)

Record Env : Type := {
  (** the module's global names ([from .folder import *], [os], [cast],
      the two classes) *)
  globals : gmap string pyval;
  (** [os.path.expanduser] *)
  expanduser : pyval -> exn + pyval;
  (** a call of an object with positional arguments *)
  call_object : pyval -> list pyval -> exn + pyval;
  (** [with open(path) as f: f.readlines()] *)
  open_readlines : pyval -> exn + list string;
  (** the two comprehensions of [make_dataset] over a value: the fields of
      each line, and the lines a predicate accepts *)
  split_each : pyval -> exn + pyval;
  filter_valid : pyval -> pyval -> exn + pyval;
  (** [VisionDataset.__init__(self, root, transform=, target_transform=)] *)
  vision_dataset_init : pyval -> pyval -> pyval -> pyval -> exn + unit
}.

(** The attributes [__init__] sets. *)
Record DataListClassification : Type := {
  loader : pyval;
  extensions : pyval;
  classes : pyval;
  class_to_idx : pyval;
  samples : pyval;
  targets : pyval
}.

Section WithEnv.

Context (env : Env).

(** A read of a local variable: a name the function assigns somewhere is
    local in the whole body, and unbound until assigned. *)
Definition load_fast (frame : gmap string pyval) (name : string) : M pyval :=
  match frame !! name with
  | Some v => ret v
  | None =>
      raise (Raise UnboundLocalError
               "local variable '{}' referenced before assignment" [PyStr name])
  end.

(** A read of a name the function never assigns: a global. *)
Definition load_global (name : string) : M pyval :=
  match globals env !! name with
  | Some v => ret v
  | None => raise (Raise NameError "name '{}' is not defined" [PyStr name])
  end.

Definition call (callee : string) {A} (args : list pyval) (r : exn + A) : M A :=
  emit (EvCall callee args ∅) ;;; lift r.

(** [find_classes(self, files_path, split_file)].  [max(split_labels)] is
    one of the labels, a string, so [max(split_labels)+1] raises and the
    statements after it are not reached. *)
Definition find_classes (self files_path split_file : pyval)
  : M (pyval * pyval) :=
  split_lines <- call "open" [split_file] (open_readlines env split_file) ;;
  let split_lines := (fun split_line => py_split (py_strip split_line))
                       <$> split_lines in
  split_labels <- lift (map_exn (fun split_line => py_index split_line 1)
                             split_lines) ;;
  match split_labels with
  | [] => raise (Raise ValueError "max() arg is an empty sequence" [])
  | _ :: _ => raise (Raise TypeError "can only concatenate str (not 'int') to str" [])
  end.

(** The statements of [make_dataset] after the first, from the frame the
    first statement leaves. *)
Definition make_dataset_from (frame : gmap string pyval) : M pyval :=
  (* if class_to_idx is None: ... elif not class_to_idx: raise *)
  c <- load_fast frame "class_to_idx" ;;
  frame <-
    (if is_None c then
       f <- load_global "find_classes" ;;
       d <- load_fast frame "directory" ;;
       r <- call "find_classes" [d] (call_object env f [d]) ;;
       match r with
       | PyTuple [a; b] | PyList [a; b] =>
           ret (<["class_to_idx" := b]> (<["_" := a]> frame))
       | _ => raise (Raise ValueError "not two values to unpack" [r])
       end
     else if negb (truthy c) then
       raise (Raise ValueError
                "'class_to_index' must have at least one entry to collect any samples."
                [])
     else ret frame) ;;
  (* both_none, both_something *)
  e <- load_fast frame "extensions" ;;
  v <- load_fast frame "is_valid_file" ;;
  let both_none := is_None e && is_None v in
  let both_something := negb (is_None e) && negb (is_None v) in
  let frame := <["both_something" := PyBool both_something]>
                 (<["both_none" := PyBool both_none]> frame) in
  (if both_none || both_something then
     raise (Raise ValueError
              "Both extensions and is_valid_file cannot be None or not None at the same time"
              [])
   else ret tt) ;;;
  (* if extensions is not None: def is_valid_file(x): ...; the cast *)
  let frame :=
    if negb (is_None e) then
      <["is_valid_file" := PyFunc "make_dataset.<locals>.is_valid_file"]> frame
    else frame in
  (* with open(split_file) as sfp: *)
  s <- load_fast frame "split_file" ;;
  instances <- call "open" [s] (open_readlines env s) ;;
  let frame := <["instances" := PyList (PyStr <$> instances)]> frame in
  split_lines <- load_global "split_lines" ;;
  instances <- call "split_each" [split_lines] (split_each env split_lines) ;;
  let frame := <["instances" := instances]> frame in
  split_lines <- load_global "split_lines" ;;
  v <- load_fast frame "is_valid_file" ;;
  instances <- call "filter_valid" [v; split_lines]
                    (filter_valid env v split_lines) ;;
  (* return split_lines *)
  load_global "split_lines".

(** [make_dataset(self, files_path, split_file, class_to_idx, extensions,
    is_valid_file)]: the frame holds the parameters; the first statement is
    [directory = os.path.expanduser(directory)]. *)
Definition make_dataset
    (self files_path split_file class_to_idx extensions is_valid_file : pyval)
  : M pyval :=
  let frame : gmap string pyval :=
    list_to_map [("self", self); ("files_path", files_path);
                 ("split_file", split_file); ("class_to_idx", class_to_idx);
                 ("extensions", extensions); ("is_valid_file", is_valid_file)] in
  d <- load_fast frame "directory" ;;
  d <- call "os.path.expanduser" [d] (expanduser env d) ;;
  make_dataset_from (<["directory" := d]> frame).

(** [s[1] for s in samples] *)
Definition second_of_each (samples : pyval) : M pyval :=
  match samples with
  | PyList items =>
      r <- lift (map_exn (fun s => match s with
                                | PyList l | PyTuple l => py_index l 1
                                | _ => inl (Raise TypeError "not subscriptable" [s])
                                end) items) ;;
      ret (PyList r)
  | _ => raise (Raise TypeError "not iterable" [samples])
  end.

(** [DataListClassification.__init__(self, files_path, split_file, loader,
    extensions, transform, target_transform, is_valid_file)] *)
Definition __init__
    (self files_path split_file loader extensions transform target_transform
     is_valid_file : pyval) : M DataListClassification :=
  call "VisionDataset.__init__" [self; files_path; transform; target_transform]
       (vision_dataset_init env self files_path transform target_transform) ;;;
  cc <- find_classes self files_path split_file ;;
  samples <- make_dataset self files_path split_file cc.2 extensions
               is_valid_file ;;
  targets <- second_of_each samples ;;
  ret {| loader := loader; extensions := extensions; classes := cc.1;
         class_to_idx := cc.2; samples := samples; targets := targets |}.

End WithEnv.

(** Surroundings in which every external call succeeds; [split_lines] is
    no global name. *)
Definition demo_env : Env :=
  {| globals := {[ "find_classes" := PyFunc "find_classes";
                   "cast" := PyFunc "cast"; "os" := PyObj 1 ]};
     expanduser := fun path => inr path;
     call_object := fun _ _ => inr (PyTuple [PyList []; PyDict []]);
     open_readlines := fun _ => inr ["images/cat_01.jpg 3"; "images/dog_07.jpg 5"];
     split_each := fun v => inr v;
     filter_valid := fun _ v => inr v;
     vision_dataset_init := fun _ _ _ _ => inr tt |}.

(** The exception of the first statement of [make_dataset]. *)
Definition directory_unbound : exn :=
  Raise UnboundLocalError "local variable '{}' referenced before assignment"
        [PyStr "directory"].

End Datalist.

(* ===================================================================== *)
(** * Box geometry (specification, section 4.1)                           *)
(* ===================================================================== *)

Module Boxes.

Local Open Scope Q_scope.

(** A box in corner form, with exact rational coordinates. *)
Record Box : Type := { x_min : Q; y_min : Q; x_max : Q; y_max : Q }.

Definition width (b : Box) : Q := x_max b - x_min b.
Definition height (b : Box) : Q := y_max b - y_min b.


Definition well_formedb (b : Box) : bool :=
  Qle_bool (x_min b) (x_max b) && Qle_bool (y_min b) (y_max b).


(** Modelled from the spec: [area(box)] ([ops/boxes.py] is not among the
    sources), [(x_max-x_min) * (y_max-y_min)]. *)
Definition area (b : Box) : Q := width b * height b.

(** The sides of the intersection, zero when the boxes are apart. *)
Definition overlap_width (a b : Box) : Q :=
  Qmax 0 (Qmin (x_max a) (x_max b) - Qmax (x_min a) (x_min b)).
Definition overlap_height (a b : Box) : Q :=
  Qmax 0 (Qmin (y_max a) (y_max b) - Qmax (y_min a) (y_min b)).

Definition intersection (a b : Box) : Q := overlap_width a b * overlap_height a b.

Definition union (a b : Box) : Q := area a + area b - intersection a b.


(** Modelled from the spec: [iou(box_a, box_b)] ([ops/boxes.py] is not
    among the sources), intersection area divided by union area.  The
    quotient of rationals by zero is zero: for two boxes of no area, where
    the floating-point quotient is 0/0, [iou] is 0, and [iou_value] below
    tells the two apart.  The comparison [IoU > tau] is false for both
    when [tau] is not negative.  The value for a box of negative
    dimensions is not specified. *)
Definition iou (a b : Box) : Q := intersection a b / union a b.

(** Modelled from the spec: the value of [iou(box_a, box_b)] as the
    quotient the spec types it, a floating-point number.  Where the union
    has no area the quotient is 0/0, which is not a number: there is no
    value.  Where it has an area, the value is [iou]. *)
Definition iou_value (a b : Box) : option Q :=
  if Qeq_bool (union a b) 0 then None else Some (iou a b).


(** The boxes of the suppression example of the specification. *)
Definition box_0_10 : Box :=
  {| x_min := 0; y_min := 0; x_max := 10; y_max := 10 |}.
Definition box_1_11 : Box :=
  {| x_min := 1; y_min := 1; x_max := 11; y_max := 11 |}.
Definition box_50_60 : Box :=
  {| x_min := 50; y_min := 50; x_max := 60; y_max := 60 |}.

End Boxes.

(* ===================================================================== *)
(** * Suppression (specification, section 4.4)                            *)
(* ===================================================================== *)

Module Nms.

Import Boxes.
Local Open Scope Q_scope.

(** A box with its confidence. *)
Record Candidate : Type := { box : Box; score : Q }.

(** [IoU > tau] *)
Definition exceeds (tau : Q) (a b : Box) : bool := negb (Qle_bool (iou a b) tau).

(** Insertion before the first candidate that does not score higher: with
    [sort_desc] folding from the right, candidates of equal score keep
    their order. *)
Fixpoint insert_desc (c : Candidate) (l : list Candidate) : list Candidate :=
  match l with
  | [] => [c]
  | d :: l' =>
      if Qle_bool (score d) (score c) then c :: l else d :: insert_desc c l'
  end.

(** The stable sort by descending score. *)
Definition sort_desc (l : list Candidate) : list Candidate :=
  foldr insert_desc [] l.

(** The candidates that survive the acceptance of [c]. *)
Definition survivors (tau : Q) (c : Candidate) (rest : list Candidate)
  : list Candidate :=
  List.filter (fun d => negb (exceeds tau (box c) (box d))) rest.

Lemma survivors_length tau c rest :
  (length (survivors tau c rest) <= length rest)%nat.
Proof. apply List.filter_length_le. Qed.

(** The greedy loop over the sorted candidates: accept the first, discard
    the remaining ones that overlap it by more than [tau], repeat until
    none remains or [k] are accepted. *)
Equations? greedy (tau : Q) (k : option nat) (cands : list Candidate)
  : list Candidate by wf (length cands) lt :=
  greedy tau (Some O) _ := [];
  greedy tau k [] := [];
  greedy tau k (c :: rest) :=
    c :: greedy tau (Nat.pred <$> k) (survivors tau c rest).
Proof. all: pose proof (survivors_length tau c rest); simpl; lia. Qed.

(** Modelled from the spec: [nms] ([ops/boxes.py] and the operator it
    calls are not among the sources), for the candidates of one class, a
    threshold and an optional maximum count. *)
Definition nms (cands : list Candidate) (tau : Q) (k : option nat)
  : list Candidate :=
  greedy tau k (sort_desc cands).

(** The order of the output: no later candidate scores higher. *)
Definition desc (a b : Candidate) : Prop := score b <= score a.

(** Two candidates that may stand together in the output. *)
Definition compatible (tau : Q) (a b : Candidate) : Prop :=
  iou (box a) (box b) <= tau.

(** The candidates of the example of the specification. *)
Definition example_candidates : list Candidate :=
  [ {| box := box_0_10; score := 9 # 10 |};
    {| box := box_1_11; score := 8 # 10 |};
    {| box := box_50_60; score := 7 # 10 |} ].





End Nms.

(* ===================================================================== *)
(** * Anchor generation (specification, section 4.2)                      *)
(* ===================================================================== *)

Module Anchors.

Local Open Scope nat_scope.

(** A default box: its feature level, its cell, and its size relative to
    the image. *)
Record Anchor : Type := {
  level : nat;
  row : nat;
  col : nat;
  anchor_w : Q;
  anchor_h : Q
}.

(** The parameters: per level the size (rows, columns) of the feature map
    and the aspect ratios, and the bounds of the scale. *)
Record Config : Type := {
  feature_sizes : list (nat * nat);
  aspect_ratios : list (list Q);
  min_ratio : Q;
  max_ratio : Q
}.

(** The levels the generator visits, in order. *)
Definition levels (cfg : Config) : list ((nat * nat) * list Q) :=
  zip (feature_sizes cfg) (aspect_ratios cfg).

(** The scale of a level, interpolated linearly between the bounds. *)
Definition scale (cfg : Config) (l : nat) : Q :=
  (min_ratio cfg
   + (max_ratio cfg - min_ratio cfg) * inject_Z (Z.of_nat l)
     / inject_Z (Z.of_nat (length (feature_sizes cfg)) - 1))%Q.

(** Anchors at each location of a level: the square one and one per
    aspect ratio. *)
Definition num_anchors_per_location (cfg : Config) : list nat :=
  (fun ratios => 1 + length ratios) <$> aspect_ratios cfg.

Section Generator.

(** The square root, on the aspect ratios in use. *)
Variable sqrt : Q -> Q.

Definition square (l i j : nat) (s : Q) : Anchor :=
  {| level := l; row := i; col := j; anchor_w := s; anchor_h := s |}.

Definition rectangle (l i j : nat) (s ar : Q) : Anchor :=
  {| level := l; row := i; col := j;
     anchor_w := (s * sqrt ar)%Q; anchor_h := (s / sqrt ar)%Q |}.

(** The anchors of one cell. *)
Definition cell_anchors (l i j : nat) (s : Q) (ratios : list Q) : list Anchor :=
  foldl (fun acc ar => acc ++ [rectangle l i j s ar]) [square l i j s] ratios.

(** The anchors of one level: for each row, for each column, the cell. *)
Definition level_anchors (l : nat) (size : nat * nat) (s : Q) (ratios : list Q)
  : list Anchor :=
  foldl (fun acc i =>
           foldl (fun acc j => acc ++ cell_anchors l i j s ratios)
                 acc (seq 0 size.2))
        [] (seq 0 size.1).

(** Modelled from the spec: the anchor generator ([anchor_utils.py] is not
    among the sources): for each level, for each spatial cell, one square
    anchor at the level's scale and one rectangular anchor per aspect
    ratio. *)
Definition anchors (cfg : Config) : list Anchor :=
  foldl (fun acc lv =>
           acc ++ level_anchors lv.1 lv.2.1 (scale cfg lv.1) lv.2.2)
        [] (imap (fun l lv => (l, lv)) (levels cfg)).

End Generator.

(** The number of anchors of a level, and of the levels before a level. *)
Definition level_count (lv : (nat * nat) * list Q) : nat :=
  lv.1.1 * lv.1.2 * (1 + length lv.2).

Definition offset (cfg : Config) (l : nat) : nat :=
  sum_list (level_count <$> take l (levels cfg)).

(** The anchors of one row of cells of a level. *)
Definition row_anchors sqrt (l : nat) (size : nat * nat) (s : Q)
    (ratios : list Q) (i : nat) : list Anchor :=
  concat ((fun j => cell_anchors sqrt l i j s ratios) <$> seq 0 size.2).

(** The example of the specification: two levels, one aspect ratio. *)
Definition example_config : Config :=
  {| feature_sizes := [(2, 2); (1, 1)];
     aspect_ratios := [[1%Q]; [1%Q]];
     min_ratio := 2 # 10;
     max_ratio := 9 # 10 |}.

(** A square root for the aspect ratio of the example, 1. *)
Definition sqrt_at_one (q : Q) : Q := q.

End Anchors.

(* ===================================================================== *)
(** * Box coding in exact arithmetic (specification, section 4.3)          *)
(* ===================================================================== *)

(** The formulas of the coder over the real numbers.  The coder of the
    specification computes in floating point, where each operation, the
    logarithm and the exponential round their result; this module is the
    coder without rounding, and what holds here says how far the formulas
    themselves invert each other, not how far the rounded results do. *)

Module BoxCoder.

Local Open Scope R_scope.

(** A box in corner form over the real numbers: the logarithm and the
    exponential of the coding are the real ones, and arithmetic is exact. *)
Record Box : Type := { x_min : R; y_min : R; x_max : R; y_max : R }.

Definition width (b : Box) : R := x_max b - x_min b.
Definition height (b : Box) : R := y_max b - y_min b.
Definition center_x (b : Box) : R := (x_min b + x_max b) / 2.
Definition center_y (b : Box) : R := (y_min b + y_max b) / 2.

(** The boxes the coding is meant for: positive width and height. *)
Definition positive (b : Box) : Prop := 0 < width b /\ 0 < height b.

Record Offsets : Type := { dx : R; dy : R; dw : R; dh : R }.

(** Modelled from the spec: the formulas of
    [encode(ground_truth_box, anchor_box)] ([_utils.py] is not among the
    sources), without rounding. *)
Definition encode (gt a : Box) : Offsets :=
  {| dx := (center_x gt - center_x a) / width a;
     dy := (center_y gt - center_y a) / height a;
     dw := ln (width gt / width a);
     dh := ln (height gt / height a) |}.

(** The clamp to the range from [lo] to [hi]. *)
Definition clamp (lo hi x : R) : R := Rmax lo (Rmin hi x).

(** Modelled from the spec: the formulas of [decode(offsets, anchor_box)],
    without rounding: the inverse transform with [dw] and [dh] clamped to
    a bounded range before the exponential; the specification leaves the
    range open, so it is a parameter. *)
Definition decode (lo hi : R) (o : Offsets) (a : Box) : Box :=
  let cx := dx o * width a + center_x a in
  let cy := dy o * height a + center_y a in
  let w := exp (clamp lo hi (dw o)) * width a in
  let h := exp (clamp lo hi (dh o)) * height a in
  {| x_min := cx - w / 2; y_min := cy - h / 2;
     x_max := cx + w / 2; y_max := cy + h / 2 |}.

(** Equality within the relative tolerance 1e-5. *)
Definition close (x y : R) : Prop := Rabs (x - y) <= / 100000 * Rabs y.

Definition approx (b' b : Box) : Prop :=
  close (x_min b') (x_min b) /\ close (y_min b') (y_min b)
  /\ close (x_max b') (x_max b) /\ close (y_max b') (y_max b).

(** An anchor, and a ground-truth box of the same size elsewhere. *)
Definition unit_box : Box :=
  {| x_min := 0; y_min := 0; x_max := 1; y_max := 1 |}.

Definition shifted_box : Box :=
  {| x_min := 3; y_min := 2; x_max := 4; y_max := 3 |}.

(** A box twice as wide as the clamp allows, against the unit anchor. *)
Definition wide_box (lo hi : R) : Box :=
  {| x_min := 0; y_min := 0; x_max := 2 * exp (Rmax lo hi); y_max := 1 |}.

End BoxCoder.

(* ===================================================================== *)
(** * ssdlite.py: the extra blocks, the feature extractor, the backbone   *)
(* ===================================================================== *)

Module Extractor.

Import Ssdlite.

(** [ConvNormActivation(in_channels, out_channels, kernel_size=...,
    stride=..., groups=..., norm_layer=..., activation_layer=...)], with
    the defaults [stride=1] and [groups=1] where the call leaves them
    out. *)
Definition conv_norm_activation (in_channels out_channels kernel_size stride
    groups : Z) (norm_layer : pyval) : ConvNormActivation :=
  {| cna_in_channels := in_channels; cna_out_channels := out_channels;
     cna_kernel_size := kernel_size; cna_stride := stride;
     cna_groups := groups; cna_norm_layer := norm_layer;
     cna_activation_layer := "ReLU6" |}.

(** [_extra_block(in_channels, out_channels, norm_layer)]: the layers of
    the [nn.Sequential], in order. *)
Definition _extra_block (in_channels out_channels : Z) (norm_layer : pyval)
  : list ConvNormActivation :=
  let intermediate_channels := out_channels `div` 2 in
  [ conv_norm_activation in_channels intermediate_channels 1 1 1 norm_layer;
    conv_norm_activation intermediate_channels intermediate_channels 3 2
      intermediate_channels norm_layer;
    conv_norm_activation intermediate_channels out_channels 1 1 1 norm_layer ].

Section Extra.

(** [int(d * width_mult)], the one place where the floating-point
    [width_mult] enters; and [min_depth]. *)
Variable scaled : Z -> Z.
Variable min_depth : Z.

(** [get_depth = lambda d: max(min_depth, int(d * width_mult))] *)
Definition get_depth (d : Z) : Z := Z.max min_depth (scaled d).

(** The list [extra] of [SSDLiteFeatureExtractorMobileNet.__init__], for
    the output channels of the last block of the backbone. *)
Definition extra_blocks (backbone_out_channels : Z) (norm_layer : pyval)
  : list (list ConvNormActivation) :=
  [ _extra_block backbone_out_channels (get_depth 512) norm_layer;
    _extra_block (get_depth 512) (get_depth 256) norm_layer;
    _extra_block (get_depth 256) (get_depth 256) norm_layer;
    _extra_block (get_depth 256) (get_depth 128) norm_layer ].

End Extra.

(** A sequence of layers in which each layer reads the channels the layer
    before it writes. *)
Fixpoint chained (layers : list ConvNormActivation) : Prop :=
  match layers with
  | a :: (b :: _) as rest => cna_out_channels a = cna_in_channels b /\ chained rest
  | _ => True
  end.

Section Forward.

(** Tensors, and blocks as the functions that [block(x)] calls; a block
    may raise. *)
Context {T : Type}.

(** One loop of [forward]: [for block in blocks: x = block(x);
    output.append(x)]. *)
Fixpoint run_blocks (blocks : list (T -> exn + T)) (x : T) (output : list T)
  : exn + (T * list T) :=
  match blocks with
  | [] => inr (x, output)
  | block :: blocks' =>
      match block x with
      | inl e => inl e
      | inr x' => run_blocks blocks' x' (output ++ [x'])
      end
  end.

(** [SSDLiteFeatureExtractorMobileNet.forward]: the outputs of the blocks
    of [features] and then of [extra], as the ordered dictionary
    [OrderedDict([(str(i), v) for i, v in enumerate(output)])]. *)
Definition forward (features extra : list (T -> exn + T)) (x : T)
  : exn + list (string * T) :=
  match run_blocks features x [] with
  | inl e => inl e
  | inr (x, output) =>
      match run_blocks extra x output with
      | inl e => inl e
      | inr (_, output) => inr (imap (fun i v => (pretty i, v)) output)
      end
  end.

(** The blocks applied one after the other. *)
Fixpoint compose_blocks (blocks : list (T -> exn + T)) (x : T) : exn + T :=
  match blocks with
  | [] => inr x
  | block :: blocks' =>
      match block x with
      | inl e => inl e
      | inr x' => compose_blocks blocks' x'
      end
  end.

End Forward.

(** ** The stages of the backbone, as [_mobilenet_extractor] computes them *)

(** [[0] + [i for i, b in enumerate(backbone) if getattr(b, "_is_cn",
    False)] + [len(backbone) - 1]] *)
Definition stage_indices (backbone : list Block) : list Z :=
  [0] ++ cn_indices backbone ++ [Z.of_nat (length backbone) - 1].

(** [len(backbone) if trainable_layers == 0 else
    stage_indices[num_stages - trainable_layers]] *)
Definition freeze_before (backbone : list Block) (trainable_layers : Z)
  : exn + Z :=
  let num_stages := Z.of_nat (length (stage_indices backbone)) in
  if trainable_layers =? 0 then inr (Z.of_nat (length backbone))
  else py_index (stage_indices backbone) (num_stages - trainable_layers).

(** The backbone after [for b in backbone[:freeze_before]: ...
    parameter.requires_grad_(False)]. *)
Definition freeze_prefix (backbone : list Block) (freeze_before : Z)
  : list Block :=
  let frozen := length (py_slice_to backbone freeze_before) in
  (freeze <$> take frozen backbone) ++ drop frozen backbone.

(** [stage_indices[-2]] *)
Definition c4_position (backbone : list Block) : exn + Z :=
  py_index (stage_indices backbone) (-2).

(** The test of the comprehension in [stage_indices], on a pair of
    [enumerate(backbone)]. *)
Definition cn_entry (ib : nat * Block) : option Z :=
  if blk_is_cn ib.2 then Some (Z.of_nat ib.1) else None.

(** The names of the parameters of [_mobilenet_extractor]. *)
Definition extractor_params : list string :=
  ["backbone_name"; "progress"; "pretrained"; "trainable_layers"; "norm_layer"].

(** The keywords [_mobilenet_extractor] calls the backbone constructor
    with: [pretrained=..., progress=..., norm_layer=..., **kwargs]. *)
Definition backbone_keywords (progress pretrained norm_layer : pyval)
    (kwargs : gmap string pyval) : gmap string pyval :=
  list_to_map [("pretrained", pretrained); ("progress", progress);
               ("norm_layer", norm_layer)] ∪ kwargs.

(** Only [_validate_trainable_layers] is called. *)
Definition validation_only (ev : event) : Prop :=
  match ev with
  | EvCall callee _ _ => callee = "_validate_trainable_layers"
  | EvWarn _ => True
  end.

(** The keys of the [defaults] dictionary of the [SSD] keywords. *)
Definition ssd_default_keys : list string :=
  ["score_thresh"; "nms_thresh"; "detections_per_img"; "topk_candidates";
   "image_mean"; "image_std"].

(** [k in d] for a dictionary [d]. *)
Definition has_key (k : string) (items : list (string * pyval)) : bool :=
  bool_decide (is_Some (List.find (fun kv => String.eqb kv.1 k) items)).

(** The calls that build the backbone and the feature extractor receive
    the keywords [kw]. *)
Definition receives_keywords (kw : gmap string pyval) (ev : event) : Prop :=
  match ev with
  | EvCall callee _ ckw =>
      callee = "mobilenet" \/ callee = "SSDLiteFeatureExtractorMobileNet" ->
      forall k v, kw !! k = Some v -> ckw !! k = Some v
  | EvWarn _ => True
  end.

(** A backbone with two strided blocks. *)
Definition five_blocks : list Block :=
  (fun ic : positive * bool =>
     {| blk_id := ic.1; blk_is_cn := ic.2; blk_use_res_connect := Some false;
        blk_requires_grad := true |})
    <$> [(1%positive, false); (2%positive, true); (3%positive, false);
         (4%positive, true); (5%positive, false)].

End Extractor.

(* ===================================================================== *)
(** * The lines of a split file, and the two stages of the features     *)
(* ===================================================================== *)

Module SplitFile.

Import Datalist.

(** [' ' in s] *)
Fixpoint has_space (s : string) : bool :=
  match s with
  | EmptyString => false
  | String c s' => Ascii.eqb c (Ascii.ascii_of_nat 32) || has_space s'
  end.

(** A line of ASCII text: every character is below 128. *)
Fixpoint is_ascii (s : string) : bool :=
  match s with
  | EmptyString => true
  | String c s' => (Ascii.nat_of_ascii c <? 128)%nat && is_ascii s'
  end.

(** A line with a second field: [line.strip().split(' ')[1]] exists. *)
Definition has_label (line : string) : bool := has_space (py_strip line).

(** The class of the exception [find_classes] ends with, by the lines of
    the split file: [max] of no labels, [split_line[1]] on a line with one
    field, or [max(split_labels)+1] on a string. *)
Definition find_classes_error (lines : list string) : exn_class :=
  if forallb has_label lines then
    match lines with [] => ValueError | _ :: _ => TypeError end
  else IndexError.

End SplitFile.

Module Features.

(** [l[n:]] *)
Definition py_slice_from {A} (l : list A) (n : Z) : list A :=
  let j := if n <? 0 then n + Z.of_nat (length l) else n in
  drop (Z.to_nat j) l.

Section Split.

(** Layers; a block of the backbone is the sequence [block] of its
    layers, and a child of an [nn.Sequential] is the sequence of layers it
    applies. *)
Context {L : Type}.

(** The two children of [self.features]: the [nn.Sequential] of
    [*backbone[:c4_pos]] and [backbone[c4_pos].block[0]], and the
    [nn.Sequential] of [backbone[c4_pos].block[1:]] and
    [*backbone[c4_pos + 1:]], after [backbone[c4_pos]] has been read for
    the assertion. *)
Definition split_features (backbone : list (list L)) (c4_pos : Z)
  : exn + (list (list L) * list (list L)) :=
  match py_index backbone c4_pos with
  | inl e => inl e
  | inr c4 =>
      match py_index c4 0 with
      | inl e => inl e
      | inr first =>
          inr (py_slice_to backbone c4_pos ++ [[first]],
               drop 1 c4 :: py_slice_from backbone (c4_pos + 1))
      end
  end.

End Split.

End Features.

(* ===================================================================== *)
(** * Properties                                                          *)
(* ===================================================================== *)

(** ** The detection head *)

Module SsdliteHeadFacts.

Import Ssdlite.

(** The append loop of the head constructors is a map over the zipped
    lists. *)
Lemma append_loop_map {A B} (f : A -> B) (l : list A) (acc : list B) :
  fold_left (fun acc a => acc ++ [f a]) l acc = acc ++ (f <$> l).
Proof.
  revert acc. induction l as [|a l IH]; intros acc; simpl.
  - by rewrite app_nil_r.
  - rewrite IH. by rewrite <- app_assoc.
Qed.

Lemma zip_snd_take {A B} (l : list A) (k : list B) :
  (zip l k).*2 = take (length l) k.
Proof.
  revert k. induction l as [|a l IH]; intros [|b k]; simpl; try done.
  by rewrite IH.
Qed.

Lemma zip_fst_take {A B} (l : list A) (k : list B) :
  (zip l k).*1 = take (length k) l.
Proof.
  revert k. induction l as [|a l IH]; intros [|b k]; simpl; try done.
  by rewrite IH.
Qed.

Lemma classification_out_channels in_channels num_anchors num_classes norm_layer :
  block_out_channels <$>
    module_list (SSDLiteClassificationHead in_channels num_anchors num_classes norm_layer)
  = (fun a => a * num_classes) <$> take (length in_channels) num_anchors.
Proof.
  unfold SSDLiteClassificationHead; simpl.
  rewrite (append_loop_map
             (fun ca => _prediction_block ca.1 (num_classes * ca.2) 3 norm_layer)).
  simpl. rewrite <- zip_snd_take, <- !list_fmap_compose.
  apply list_fmap_ext. intros i [c a] _. simpl.
  unfold block_out_channels; simpl. lia.
Qed.

Lemma regression_out_channels in_channels num_anchors norm_layer :
  block_out_channels <$>
    module_list (SSDLiteRegressionHead in_channels num_anchors norm_layer)
  = (fun a => a * 4) <$> take (length in_channels) num_anchors.
Proof.
  unfold SSDLiteRegressionHead; simpl.
  rewrite (append_loop_map
             (fun ca => _prediction_block ca.1 (4 * ca.2) 3 norm_layer)).
  simpl. rewrite <- zip_snd_take, <- !list_fmap_compose.
  apply list_fmap_ext. intros i [c a] _. simpl.
  unfold block_out_channels; simpl. lia.
Qed.

(** The outputs of a scoring head have, level by level, the output
    channels of its branches. *)
Lemma scoring_head_levels_channels branches x out :
  scoring_head_levels branches x = Some out ->
  sh_C <$> out = take (length x) (block_out_channels <$> branches).
Proof.
  revert branches out. induction x as [|f x IH]; intros branches out; simpl.
  - intros ?; by simplify_eq.
  - destruct branches as [|b branches]; [done|].
    unfold block_forward.
    destruct (sh_C f =? block_in_channels b); [|done].
    destruct (scoring_head_levels branches x) as [rs|] eqn:Hrs; [|done].
    intros ?; simplify_eq. simpl. f_equal. by apply IH.
Qed.

(** C1.  The classification branch of level [i] has
    [num_anchors[i] * num_classes] output channels and the regression
    branch [num_anchors[i] * 4], for every level the constructors build
    (one per pair of [zip(in_channels, num_anchors)]); the branches stand in
    the order of [num_anchors], the per-level list of the anchor generator,
    and the forward pass emits its per-level outputs in that same order. *)
Theorem head_channels_per_level
    (in_channels num_anchors : list Z) (num_classes : Z) (norm_layer : pyval) :
  let head := new_SSDLiteHead in_channels num_anchors num_classes norm_layer in
  let levels := take (length in_channels) num_anchors in
  block_out_channels <$> module_list (classification_head head)
    = (fun a => a * num_classes) <$> levels
  /\ block_out_channels <$> module_list (regression_head head)
    = (fun a => a * 4) <$> levels
  /\ forall x out, SSDLiteHead_forward head x = Some out ->
       sh_C <$> cls_logits out
         = (fun a => a * num_classes) <$> take (length x) levels
       /\ sh_C <$> bbox_regression out
         = (fun a => a * 4) <$> take (length x) levels.
Proof.
  intros head levels. subst head levels. simpl.
  split; [apply classification_out_channels|].
  split; [apply regression_out_channels|].
  intros x out. unfold SSDLiteHead_forward.
  change (regression_head (new_SSDLiteHead in_channels num_anchors num_classes norm_layer))
    with (SSDLiteRegressionHead in_channels num_anchors norm_layer).
  change (classification_head (new_SSDLiteHead in_channels num_anchors num_classes norm_layer))
    with (SSDLiteClassificationHead in_channels num_anchors num_classes norm_layer).
  destruct (scoring_head_levels
              (module_list (SSDLiteRegressionHead in_channels num_anchors norm_layer)) x)
    as [r|] eqn:Hr; [|done].
  destruct (scoring_head_levels
              (module_list (SSDLiteClassificationHead in_channels num_anchors
                              num_classes norm_layer)) x)
    as [c|] eqn:Hc; [|done].
  intros ?; simplify_eq; simpl.
  apply scoring_head_levels_channels in Hr, Hc.
  rewrite Hc, Hr, classification_out_channels, regression_out_channels.
  by rewrite !fmap_take.
Qed.

(** The head of the default model on six feature maps: three anchors per
    location and 91 classes. *)
Lemma head_channels_per_level_witness :
  exists out,
    SSDLiteHead_forward demo_head demo_features = Some out
    /\ sh_C <$> cls_logits out = [273; 273; 273; 273; 273; 273]
    /\ sh_C <$> bbox_regression out = [12; 12; 12; 12; 12; 12].
Proof.
  destruct (SSDLiteHead_forward demo_head demo_features) as [out|] eqn:Hout;
    [|discriminate Hout].
  exists out. split; [reflexivity|].
  destruct (head_channels_per_level [672; 480; 512; 256; 256; 128]
              [3; 3; 3; 3; 3; 3] 91 PyNone) as (_ & _ & Hforward).
  apply (Hforward demo_features out Hout).
Defined.

End SsdliteHeadFacts.

(** ** Binding of arguments *)

Module CallFacts.

(** A successful binding gives every parameter its positional argument, or
    else its keyword, or else its default. *)
Lemma bind_params_frame fname params args kw frame extra :
  NoDup (params.*1) ->
  bind_params fname params args kw = inr (frame, extra) ->
  forall i name d, params !! i = Some (name, d) ->
    frame !! name
    = Some (match args !! i with
            | Some v => v
            | None => default d (kw !! name)
            end).
Proof.
  intros Hnd Hb i name d Hi. unfold bind_params in Hb.
  destruct (find _ _); [done|].
  case_bool_decide as Hlen; [done|]. simplify_eq.
  apply elem_of_list_to_map_1.
  - rewrite fmap_app, SsdliteHeadFacts.zip_fst_take, <- list_fmap_compose.
    replace ((fst ∘ (fun p : string * pyval => (p.1, default p.2 (kw !! p.1))))
               <$> drop (length args) params)
      with (drop (length args) (params.*1)).
    + by rewrite take_drop.
    + rewrite <- fmap_drop. by apply list_fmap_ext.
  - apply elem_of_app. destruct (args !! i) as [v|] eqn:Hv.
    + left. apply list_elem_of_lookup. exists i.
      apply lookup_zip_with_Some. exists name, v. split; [done|].
      split; [|done]. by rewrite list_lookup_fmap, Hi.
    + right. apply lookup_ge_None in Hv.
      apply list_elem_of_fmap. exists (name, d). split; [done|].
      apply list_elem_of_lookup. exists (i - length args)%nat.
      rewrite lookup_drop. rewrite <- Hi. f_equal. lia.
Qed.

(** A successful binding had no keyword for a parameter filled by
    position. *)
Lemma bind_params_no_clash fname params args kw fk :
  bind_params fname params args kw = inr fk ->
  forall i name d v, params !! i = Some (name, d) -> args !! i = Some v ->
    kw !! name = None.
Proof.
  intros Hb i name d v Hi Hv. unfold bind_params in Hb.
  destruct (find _ _) eqn:Hfind; [done|].
  case_bool_decide as Hlen; [done|].
  pose proof (find_none _ _ Hfind (name, d)) as Hn.
  simpl in Hn. apply bool_decide_eq_false in Hn.
  - by apply eq_None_not_Some.
  - apply list_elem_of_In, list_elem_of_lookup. exists i.
    rewrite lookup_take_lt; [done|]. by apply lookup_lt_Some in Hv.
Qed.

End CallFacts.

(** ** The model constructors *)

Module SsdliteFacts.

Import Ssdlite.
Local Open Scope py_scope.

(** *** The monad *)

Lemma outcome_bind {A B} (m : M A) (k : A -> M B) :
  outcome (Py.bind m k)
  = match outcome m with inl e => inl e | inr a => outcome (k a) end.
Proof. by destruct m as [t [e|a]]. Qed.

Lemma events_bind {A B} (m : M A) (k : A -> M B) :
  events (Py.bind m k)
  = events m ++ match outcome m with inl _ => [] | inr a => events (k a) end.
Proof. destruct m as [t [e|a]]; simpl; [|done]. by rewrite app_nil_r. Qed.

Lemma Forall_events_bind {A B} (P : event -> Prop) (m : M A) (k : A -> M B) :
  Forall P (events m) ->
  (forall a, outcome m = inr a -> Forall P (events (k a))) ->
  Forall P (events (Py.bind m k)).
Proof.
  intros Hm Hk. rewrite events_bind. apply Forall_app. split; [done|].
  destruct (outcome m) as [e|a]; [constructor | by apply Hk].
Qed.

Lemma Forall_events_try {A} (P : event -> Prop) (body handler : M A) :
  Forall P (events body) -> Forall P (events handler) ->
  Forall P (events (try_except body handler)).
Proof.
  destruct body as [t [e|a]]; simpl; [|done].
  intros. by apply Forall_app.
Qed.

Lemma events_call {A} callee args kwargs (r : exn + A) :
  events (call callee args kwargs r) = [EvCall callee args kwargs].
Proof. by destruct r. Qed.

Lemma outcome_call {A} callee args kwargs (r : exn + A) :
  outcome (call callee args kwargs r) = r.
Proof. reflexivity. Qed.

Lemma events_assert c : events (py_assert c) = [].
Proof. by destruct c. Qed.

Lemma outcome_lift {A} (r : exn + A) : outcome (lift r) = r.
Proof. reflexivity. Qed.

Lemma lift_bind {A B} (r : exn + A) (k : A -> M B) :
  Py.bind (lift r) k = match r with inl e => ([], inl e) | inr a => k a end.
Proof. destruct r as [e|a]; simpl; [done|]. by destruct (k a). Qed.

(** A sequence that returns: its first part returned, and the events are
    those of the two parts. *)
Lemma bind_inr {A B} (m : M A) (k : A -> M B) (b : B) :
  outcome (Py.bind m k) = inr b ->
  exists a, outcome m = inr a /\ outcome (k a) = inr b
            /\ events (Py.bind m k) = events m ++ events (k a).
Proof. destruct m as [t [e|a]]; simpl; [done|]. eauto. Qed.

(** *** Keywords *)

Lemma merge_keywords_inr fname explicit star m :
  merge_keywords fname explicit star = inr m ->
  m = list_to_map explicit ∪ star
  /\ forall k v, (k, v) ∈ explicit -> star !! k = None.
Proof.
  unfold merge_keywords. destruct (find _ _) eqn:Hf; [done|].
  intros ?; simplify_eq. split; [done|]. intros k v Hin.
  pose proof (find_none _ _ Hf (k, v)) as Hn. simpl in Hn.
  apply eq_None_not_Some. eapply bool_decide_eq_false_1, Hn.
  by apply list_elem_of_In.
Qed.

Lemma ssdlite320_params_NoDup : NoDup (ssdlite320_params.*1).
Proof. compute_done. Qed.

(** *** The call with [pretrained=True] *)

(** A function object is no key of [model_urls]. *)
Lemma model_urls_get_function name :
  dict_get model_urls (PyFunc name) = inr PyNone.
Proof. reflexivity. Qed.

(** With [pretrained is True] and a function as [weights_name], loading
    raises. *)
Lemma load_pretrained_function env model progress name :
  outcome (load_pretrained env model (PyBool true) progress (PyFunc name))
  = inl (no_checkpoint (PyFunc name)).
Proof. reflexivity. Qed.

(** What the wrapper's keywords bind in [ssdlite320_mobilenet_v3_large]. *)
Lemma wrapper_frame args kw ckw fk :
  merge_keywords "ssdlite320_mobilenet_v3_large"
    [("backbone_name", default (PyStr "mobilenet_v3_large") (kw !! "backbone_name"));
     ("weights_name", PyFunc "ssdlite_mobilenet_v3_large")]
    (delete "backbone_name" kw) = inr ckw ->
  bind_params "ssdlite320_mobilenet_v3_large" ssdlite320_params args ckw = inr fk ->
  fk.1 !!! "pretrained" = pretrained_argument args kw
  /\ fk.1 !!! "weights_name" = PyFunc "ssdlite_mobilenet_v3_large".
Proof.
  intros Hm Hb. apply merge_keywords_inr in Hm as [-> _].
  destruct fk as [frame extra]. simpl.
  pose proof (CallFacts.bind_params_frame _ _ _ _ _ _ ssdlite320_params_NoDup Hb)
    as Hframe.
  split.
  - rewrite lookup_total_alt, (Hframe 0%nat _ _ eq_refl). simpl.
    destruct args as [|v args]; simpl; [|done].
    by rewrite lookup_union_r, lookup_delete_ne.
  - rewrite lookup_total_alt, (Hframe 9%nat _ _ eq_refl). simpl.
    match goal with
    | |- context [(?m ∪ ?k) !! "weights_name"] =>
        assert ((m ∪ k) !! "weights_name"
                = Some (PyFunc "ssdlite_mobilenet_v3_large")) as Hw
          by (by apply lookup_union_Some_l)
    end.
    destruct (args !! 9%nat) as [v|] eqn:Hv.
    + pose proof (CallFacts.bind_params_no_clash _ _ _ _ _ Hb 9%nat _ _ _
                    eq_refl Hv) as Hc.
      simpl in Hc. congruence.
    + by rewrite Hw.
Qed.

(** C8, as amended.  A call of [ssdlite_mobilenet_v3_large] with
    [pretrained=True] never returns a model: when the binding of the
    arguments or the construction of the model raises, the call raises that
    exception; otherwise the lookup of the function object in [model_urls]
    finds nothing and the call raises the [ValueError] of the branch
    without a checkpoint. *)
Theorem pretrained_True_never_returns env args kw :
  pretrained_argument args kw = PyBool true ->
  outcome (ssdlite_mobilenet_v3_large env args kw)
  = match outcome (construction env args kw) with
    | inl e => inl e
    | inr _ => inl (no_checkpoint (PyFunc "ssdlite_mobilenet_v3_large"))
    end.
Proof.
  intros Hpre. unfold ssdlite_mobilenet_v3_large, construction.
  cbv zeta. rewrite !outcome_bind.
  destruct (outcome (lift (merge_keywords _ _ _))) as [e|ckw] eqn:Hm; [done|].
  unfold ssdlite320_mobilenet_v3_large. rewrite !outcome_bind.
  destruct (outcome (lift (bind_params _ _ _ _))) as [e|fk] eqn:Hb; [done|].
  destruct (wrapper_frame args kw ckw fk Hm Hb) as [Hp Hw].
  cbv zeta. unfold ssdlite320_body. rewrite outcome_bind.
  destruct (outcome (build_model _ _ _ _ _ _ _ _ _ _ _)) as [e|model]; [done|].
  rewrite outcome_bind, Hp, Hw, Hpre.
  by rewrite load_pretrained_function.
Qed.

(** The call [ssdlite_mobilenet_v3_large(True)] builds the model in
    [demo_env] and then raises. *)
Lemma pretrained_True_never_returns_witness :
  outcome (construction demo_env [PyBool true] ∅) = inr (PyObj 11)
  /\ outcome (ssdlite_mobilenet_v3_large demo_env [PyBool true] ∅)
     = inl (no_checkpoint (PyFunc "ssdlite_mobilenet_v3_large")).
Proof.
  split; [vm_compute; reflexivity|].
  etrans.
  - apply (pretrained_True_never_returns demo_env [PyBool true] ∅). reflexivity.
  - vm_compute. reflexivity.
Defined.

(** C8, as stated, fails: with a keyword [weights_name] the call
    [ssdlite_mobilenet_v3_large(pretrained=True, weights_name=...)] raises
    [TypeError], since the wrapper passes that keyword twice. *)
Lemma pretrained_True_TypeError :
  let kw : gmap string pyval :=
    {[ "pretrained" := PyBool true;
       "weights_name" := PyStr "ssdlite320_mobilenet_v3_large_coco" ]} in
  pretrained_argument [] kw = PyBool true
  /\ outcome (ssdlite_mobilenet_v3_large demo_env [] kw)
    = inl (Raise TypeError "{}() got multiple values for keyword argument '{}'"
             [PyStr "ssdlite320_mobilenet_v3_large"; PyStr "weights_name"]).
Proof. split; vm_compute; reflexivity. Qed.

(** *** The events of the construction *)

(** One step through a computation whose events all satisfy a property. *)
Ltac trace_step :=
  first
    [ apply Forall_nil_2
    | rewrite events_assert; apply Forall_nil_2
    | rewrite events_call; apply Forall_cons_2; [|apply Forall_nil_2]
    | apply Forall_cons_2; [|apply Forall_nil_2]
    | apply Forall_events_try
    | apply Forall_events_bind; [|intros ? ?] ].

Ltac trace_event :=
  simpl; intros; try done; destruct_or?; by simplify_eq.

Lemma extractor_events (P : event -> Prop) env backbone_name progress pretrained
    trainable_layers norm_layer kw :
  (forall args ckw, ckw !! "pretrained" = Some pretrained ->
                    P (EvCall "mobilenet" args ckw)) ->
  (forall args ckw, P (EvCall "SSDLiteFeatureExtractorMobileNet" args ckw)) ->
  Forall P (events (_mobilenet_extractor env backbone_name progress pretrained
                      trainable_layers norm_layer kw)).
Proof.
  intros Hmob Hext. unfold _mobilenet_extractor.
  trace_step; [trace_step|]. cbv zeta.
  trace_step; [trace_step|].
  trace_step; [trace_step|].
  trace_step.
  { trace_step. apply Hmob.
    match goal with
    | H : outcome (lift (merge_keywords _ _ _)) = inr _ |- _ =>
        apply merge_keywords_inr in H as [-> _]
    end.
    by apply lookup_union_Some_l. }
  trace_step; [trace_step|].
  trace_step; [by destruct (trainable_layers =? 0)|].
  trace_step; [trace_step|].
  unfold SSDLiteFeatureExtractorMobileNet.
  trace_step; [trace_step|].
  trace_step; [trace_step|].
  destruct (blk_use_res_connect _); [|trace_step].
  trace_step; [trace_step|]. trace_step. apply Hext.
Qed.

Lemma unwrap_key_events k d : events (unwrap_key k d) = [].
Proof.
  destruct d; simpl; try done; by case_match.
Qed.

Lemma load_events (P : event -> Prop) env model pretrained progress weights_name :
  (forall args ckw, P (EvCall "load_state_dict_from_url" args ckw)) ->
  (forall args ckw, P (EvCall "load_state_dict" args ckw)) ->
  (forall args ckw, P (EvCall "torch.load" args ckw)) ->
  Forall P (events (load_pretrained env model pretrained progress weights_name)).
Proof.
  intros H1 H2 H3.
  assert (forall sd, Forall P (events (_load_state_dict env model sd))) as Hl.
  { intros sd. unfold _load_state_dict.
    trace_step; [by rewrite unwrap_key_events|].
    trace_step; [by rewrite unwrap_key_events|].
    trace_step; trace_step; done. }
  unfold load_pretrained.
  destruct (is_True pretrained).
  { trace_step; [trace_step|].
    destruct (is_None _); [trace_step|].
    trace_step; trace_step; done. }
  destruct (is_url env pretrained).
  { trace_step; [trace_step; done|]. apply Hl. }
  destruct (is_str pretrained); [|trace_step].
  trace_step; [trace_step; done|]. apply Hl.
Qed.

Lemma build_model_untrained env pretrained progress num_classes
    pretrained_backbone trainable_backbone_layers norm_layer size
    backbone_name reduce_tail kwargs :
  truthy pretrained = true ->
  Forall backbone_untrained
    (events (build_model env pretrained progress num_classes pretrained_backbone
               trainable_backbone_layers norm_layer size backbone_name
               reduce_tail kwargs)).
Proof.
  intros Hpre. unfold build_model. rewrite Hpre.
  trace_step; [destruct (is_None size); repeat trace_step; trace_event|].
  trace_step; [trace_step; trace_event|].
  trace_step; [trace_step|].
  trace_step; [apply extractor_events; trace_event|].
  trace_step; [trace_step; trace_event|].
  trace_step; [trace_step|].
  trace_step; [destruct (as_int num_classes); trace_step|].
  trace_step; [trace_step|].
  trace_step; trace_event.
Qed.

Lemma build_model_sized env pretrained progress num_classes
    pretrained_backbone trainable_backbone_layers norm_layer
    backbone_name reduce_tail kwargs :
  Forall sized_320
    (events (build_model env pretrained progress num_classes pretrained_backbone
               trainable_backbone_layers norm_layer PyNone backbone_name
               reduce_tail kwargs)).
Proof.
  unfold build_model. simpl is_None. cbv iota.
  trace_step; [repeat trace_step; trace_event|].
  match goal with H : outcome _ = inr _ |- _ => cbv in H; simplify_eq end.
  trace_step; [trace_step; trace_event|].
  trace_step; [trace_step|].
  trace_step; [apply extractor_events; trace_event|].
  trace_step; [trace_step; trace_event|].
  trace_step; [trace_step|].
  trace_step; [destruct (as_int num_classes); trace_step|].
  trace_step; [trace_step|].
  trace_step; trace_event.
Qed.

(** *** The calls of a construction that returns *)

(** When [_mobilenet_extractor] returns, its first event is the call of
    the backbone constructor, with the [pretrained] it was given. *)
Lemma extractor_returns_trace env backbone_name progress pretrained
    trainable_layers norm_layer kw backbone :
  outcome (_mobilenet_extractor env backbone_name progress pretrained
             trainable_layers norm_layer kw) = inr backbone ->
  exists ckw rest,
    events (_mobilenet_extractor env backbone_name progress pretrained
              trainable_layers norm_layer kw)
    = EvCall "mobilenet" [backbone_name] ckw :: rest
    /\ ckw !! "pretrained" = Some pretrained.
Proof.
  unfold _mobilenet_extractor. rewrite lift_bind.
  destruct (bind_params _ _ _ _) as [e|fk]; [done|]. cbv zeta.
  rewrite lift_bind.
  destruct (match unhashable backbone_name with Some _ => _ | None => _ end)
    as [e|ctor]; [done|].
  rewrite lift_bind.
  destruct (merge_keywords _ _ _) as [e|ckw] eqn:Hm; [done|].
  apply merge_keywords_inr in Hm as [-> _].
  intros H. apply bind_inr in H as (b & _ & _ & ->).
  rewrite events_call. simpl. eexists _, _. split; [reflexivity|].
  by apply lookup_union_Some_l.
Qed.

(** When the construction returns, the backbone constructor was called
    with the [pretrained] the body settled on, and the channels were
    measured and the model made with the size the body settled on. *)
Lemma build_model_returns_trace env pretrained progress num_classes
    pretrained_backbone trainable_backbone_layers norm_layer size
    backbone_name reduce_tail kwargs model :
  let m := build_model env pretrained progress num_classes pretrained_backbone
             trainable_backbone_layers norm_layer size backbone_name
             reduce_tail kwargs in
  let size' := if is_None size then PyTuple [PyInt 320; PyInt 320] else size in
  outcome m = inr model ->
  exists ckw backbone skw,
    EvCall "mobilenet" [backbone_name] ckw ∈ events m
    /\ ckw !! "pretrained"
       = Some (if truthy pretrained then PyBool false else pretrained_backbone)
    /\ EvCall "retrieve_out_channels" [backbone; size'] ∅ ∈ events m
    /\ EvCall "SSD" [backbone; size'; num_classes] skw ∈ events m.
Proof.
  intros m size' H. subst m size'. unfold build_model in *.
  apply bind_inr in H as (size0 & Hsize & H & ->).
  assert (size0 = if is_None size then PyTuple [PyInt 320; PyInt 320] else size)
    as -> by (destruct (is_None size); simpl in Hsize; by simplify_eq).
  apply bind_inr in H as (tl & _ & H & ->). cbv zeta in *.
  apply bind_inr in H as (ekw & _ & H & ->).
  apply bind_inr in H as (backbone & Hbb & H & ->).
  apply extractor_returns_trace in Hbb as (ckw & rest & -> & Hpre).
  apply bind_inr in H as (oc & _ & H & ->).
  apply bind_inr in H as ([] & _ & H & ->).
  apply bind_inr in H as (head & _ & H & ->).
  apply bind_inr in H as (skw & _ & H & ->).
  rewrite !events_call.
  exists ckw, backbone, skw. rewrite !elem_of_app, !elem_of_cons.
  split; [auto 10|]. split; [done|]. split; auto 20.
Qed.

(** C10.  In the body of [ssdlite320_mobilenet_v3_large]: when [pretrained]
    is true as a condition (the value [True], a URL, a path), every call
    that builds the backbone receives [pretrained=False]; when [size] is
    [None], the first event is the warning and every use of the size
    receives [(320, 320)].  These calls are made: whenever the
    construction returns a model, the backbone constructor has been
    called, with [pretrained=False] when [pretrained] is true as a
    condition and with [pretrained_backbone] otherwise, and
    [retrieve_out_channels] and [SSD] have been called with the size,
    [(320, 320)] when [size] is [None]. *)
Theorem pretrained_forces_untrained_backbone env pretrained progress num_classes
    pretrained_backbone trainable_backbone_layers norm_layer size
    backbone_name reduce_tail weights_name kwargs :
  let tr :=
    events (ssdlite320_body env pretrained progress num_classes
              pretrained_backbone trainable_backbone_layers norm_layer size
              backbone_name reduce_tail weights_name kwargs) in
  let size' := if is_None size then PyTuple [PyInt 320; PyInt 320] else size in
  (truthy pretrained = true -> Forall backbone_untrained tr)
  /\ (size = PyNone ->
      (exists rest,
         tr = EvWarn "The size of the model is not provided; using default."
              :: rest)
      /\ Forall sized_320 tr)
  /\ (forall model,
        outcome (build_model env pretrained progress num_classes
                   pretrained_backbone trainable_backbone_layers norm_layer
                   size backbone_name reduce_tail kwargs) = inr model ->
        exists ckw backbone skw,
          EvCall "mobilenet" [backbone_name] ckw ∈ tr
          /\ ckw !! "pretrained"
             = Some (if truthy pretrained then PyBool false
                     else pretrained_backbone)
          /\ EvCall "retrieve_out_channels" [backbone; size'] ∅ ∈ tr
          /\ EvCall "SSD" [backbone; size'; num_classes] skw ∈ tr).
Proof.
  intros tr size'. subst tr size'. unfold ssdlite320_body.
  split; [|split].
  - intros Hpre.
    trace_step; [by apply build_model_untrained|].
    trace_step; [apply load_events; trace_event|trace_step].
  - intros ->. split.
    + rewrite events_bind. unfold build_model at 1. simpl is_None. cbv iota.
      rewrite events_bind. simpl. eauto.
    + trace_step; [by apply build_model_sized|].
      trace_step; [apply load_events; trace_event|trace_step].
  - intros model Hm.
    destruct (build_model_returns_trace _ _ _ _ _ _ _ _ _ _ _ _ Hm)
      as (ckw & backbone & skw & H1 & H2 & H3 & H4).
    exists ckw, backbone, skw. rewrite events_bind, !elem_of_app. auto 10.
Qed.

(** The call with a checkpoint path and no size, in [demo_env]: the
    backbone is built, with [pretrained=False] although
    [pretrained_backbone=True] was passed, and the model is made for
    (320, 320). *)
Lemma pretrained_forces_untrained_backbone_witness :
  let tr :=
    events (ssdlite320_body demo_env (PyStr "model.pth") (PyBool true) (PyInt 91)
              (PyBool true) PyNone PyNone PyNone (PyStr "mobilenet_v3_large")
              (PyBool false) (PyStr "ssdlite320_mobilenet_v3_large_coco") ∅) in
  Forall backbone_untrained tr
  /\ (exists rest,
        tr = EvWarn "The size of the model is not provided; using default."
             :: rest)
  /\ Forall sized_320 tr
  /\ exists ckw backbone skw,
       EvCall "mobilenet" [PyStr "mobilenet_v3_large"] ckw ∈ tr
       /\ ckw !! "pretrained" = Some (PyBool false)
       /\ EvCall "retrieve_out_channels"
            [backbone; PyTuple [PyInt 320; PyInt 320]] ∅ ∈ tr
       /\ EvCall "SSD" [backbone; PyTuple [PyInt 320; PyInt 320]; PyInt 91] skw
          ∈ tr.
Proof.
  intros tr.
  destruct (pretrained_forces_untrained_backbone demo_env (PyStr "model.pth")
              (PyBool true) (PyInt 91) (PyBool true) PyNone PyNone PyNone
              (PyStr "mobilenet_v3_large") (PyBool false)
              (PyStr "ssdlite320_mobilenet_v3_large_coco") ∅) as (H1 & H2 & H3).
  split; [apply H1; reflexivity|].
  split; [apply H2; reflexivity|]. split; [apply H2; reflexivity|].
  apply (H3 (PyObj 11)). vm_compute. reflexivity.
Defined.

(** The events of that call: the backbone is asked for with
    [pretrained=False] although [pretrained_backbone=True] was passed. *)
Example demo_events :
  events (ssdlite320_body demo_env (PyStr "model.pth") (PyBool true) (PyInt 91)
            (PyBool true) PyNone PyNone PyNone (PyStr "mobilenet_v3_large")
            (PyBool false) (PyStr "ssdlite320_mobilenet_v3_large_coco") ∅)
    !! 2%nat
  = Some (EvCall "mobilenet" [PyStr "mobilenet_v3_large"]
            (list_to_map [("pretrained", PyBool false); ("progress", PyBool true);
                          ("norm_layer", PyObj 1);
                          ("reduced_tail", PyBool false)])).
Proof. vm_compute. reflexivity. Qed.

End SsdliteFacts.

(** ** The data list *)

Module DatalistFacts.

Import Datalist.
Local Open Scope py_scope.

Import SsdliteFacts.

(** No parameter of [make_dataset] is called [directory]. *)
Lemma make_dataset_first_statement env self files_path split_file class_to_idx
    extensions is_valid_file :
  make_dataset env self files_path split_file class_to_idx extensions
    is_valid_file
  = ([], inl directory_unbound).
Proof.
  unfold make_dataset. cbv zeta.
  assert (forall frame k,
            frame !! "directory" = None ->
            Py.bind (load_fast frame "directory") k
            = ([], inl directory_unbound) :> M pyval) as Hstep.
  { intros frame k Hf. unfold load_fast. by rewrite Hf. }
  apply Hstep. by simplify_map_eq.
Qed.

(** Were [directory] bound, the undefined name [split_lines] would still
    keep [make_dataset] from returning. *)
Lemma make_dataset_from_undefined_name env frame :
  globals env !! "split_lines" = None ->
  exists e, outcome (make_dataset_from env frame) = inl e.
Proof.
  intros Hg. unfold make_dataset_from.
  repeat (rewrite outcome_bind;
          match goal with
          | |- context [outcome ?m] =>
              destruct (outcome m) as [?|?] eqn:?; [by eexists|]
          end; cbv zeta).
  unfold load_global. rewrite Hg. by eexists.
Qed.

(** C9.  [make_dataset] raises on every invocation, whatever the
    arguments and the surroundings: its first statement reads the local
    variable [directory], which nothing has assigned; the statements after
    it build the result from the name [split_lines], and raise as well
    where that name is not defined; no sample list is returned, and so
    [__init__] never returns an object. *)
Theorem make_dataset_always_raises env self files_path split_file class_to_idx
    extensions is_valid_file :
  outcome (make_dataset env self files_path split_file class_to_idx extensions
             is_valid_file) = inl directory_unbound
  /\ events (make_dataset env self files_path split_file class_to_idx extensions
               is_valid_file) = []
  /\ (globals env !! "split_lines" = None ->
      forall frame, exists e, outcome (make_dataset_from env frame) = inl e)
  /\ forall loader transform target_transform,
       exists e, outcome (__init__ env self files_path split_file loader
                            extensions transform target_transform is_valid_file)
                 = inl e.
Proof.
  split; [by rewrite make_dataset_first_statement|].
  split; [by rewrite make_dataset_first_statement|].
  split; [intros Hg frame; by apply make_dataset_from_undefined_name|].
  intros loader transform target_transform. unfold __init__.
  rewrite outcome_bind.
  destruct (outcome (call _ _ _)) as [e|[]]; [by eexists|].
  rewrite outcome_bind.
  destruct (outcome (find_classes env self files_path split_file)) as [e|cc];
    [by eexists|].
  rewrite outcome_bind, make_dataset_first_statement. by eexists.
Qed.

(** In [demo_env], with the frame a bound [directory] would leave: the
    later statements run up to the read of [split_lines]. *)
Lemma make_dataset_always_raises_witness :
  outcome (make_dataset demo_env (PyObj 2) (PyStr "data") (PyStr "train.txt")
             (PyDict [("0", PyInt 0)]) (PyTuple [PyStr ".jpg"]) PyNone)
    = inl directory_unbound
  /\ exists e,
       outcome (make_dataset_from demo_env
                  (list_to_map
                     [("directory", PyStr "data"); ("split_file", PyStr "train.txt");
                      ("class_to_idx", PyDict [("0", PyInt 0)]);
                      ("extensions", PyTuple [PyStr ".jpg"]);
                      ("is_valid_file", PyNone)])) = inl e.
Proof.
  destruct (make_dataset_always_raises demo_env (PyObj 2) (PyStr "data")
              (PyStr "train.txt") (PyDict [("0", PyInt 0)])
              (PyTuple [PyStr ".jpg"]) PyNone) as (Hfirst & _ & Hname & _).
  split; [exact Hfirst|]. apply Hname. reflexivity.
Defined.

Example make_dataset_from_demo :
  make_dataset_from demo_env
    (list_to_map
       [("directory", PyStr "data"); ("split_file", PyStr "train.txt");
        ("class_to_idx", PyDict [("0", PyInt 0)]);
        ("extensions", PyTuple [PyStr ".jpg"]);
        ("is_valid_file", PyNone)])
  = ([EvCall "open" [PyStr "train.txt"] ∅],
     inl (Raise NameError "name '{}' is not defined" [PyStr "split_lines"])).
Proof. vm_compute. reflexivity. Qed.

(** [find_classes] raises on every split file as well. *)
Lemma find_classes_always_raises env self files_path split_file :
  exists e, outcome (find_classes env self files_path split_file) = inl e.
Proof.
  unfold find_classes. rewrite outcome_bind.
  destruct (outcome (call _ _ _)) as [e|lines]; [by eexists|].
  cbv zeta. rewrite outcome_bind.
  destruct (outcome (lift _)) as [e|labels]; [by eexists|].
  destruct labels; by eexists.
Qed.

Example split_line_example :
  py_split (py_strip "images/cat_01.jpg 3
") = ["images/cat_01.jpg"; "3"].
Proof. reflexivity. Qed.

End DatalistFacts.

(** ** Box geometry *)

Module BoxFacts.

Import Boxes.
Local Open Scope Q_scope.

Ltac lra := Lqa.lra.

Lemma overlap_width_comm a b : overlap_width a b == overlap_width b a.
Proof.
  unfold overlap_width.
  by rewrite (Q.min_comm (x_max a)), (Q.max_comm (x_min a)).
Qed.

Lemma overlap_height_comm a b : overlap_height a b == overlap_height b a.
Proof.
  unfold overlap_height.
  by rewrite (Q.min_comm (y_max a)), (Q.max_comm (y_min a)).
Qed.

Lemma intersection_comm a b : intersection a b == intersection b a.
Proof.
  unfold intersection. by rewrite overlap_width_comm, overlap_height_comm.
Qed.

Lemma union_comm a b : union a b == union b a.
Proof. unfold union. rewrite intersection_comm. ring. Qed.

Lemma iou_comm a b : iou a b == iou b a.
Proof. unfold iou. by rewrite intersection_comm, union_comm. Qed.









(** *** The value of the quotient *)








Example iou_overlapping : iou box_0_10 box_1_11 == 81 # 119.
Proof. reflexivity. Qed.

Example iou_disjoint : iou box_0_10 box_50_60 == 0.
Proof. reflexivity. Qed.

End BoxFacts.

(** ** Suppression *)

Module NmsFacts.

Import Boxes Nms.
Local Open Scope Q_scope.

Ltac lra := Lqa.lra.

Lemma exceeds_false tau a b : exceeds tau a b = false <-> iou a b <= tau.
Proof.
  unfold exceeds. rewrite negb_false_iff. apply Qle_bool_iff.
Qed.


(** The comparison is the comparison of the value of the IoU, with no
    value exceeding nothing, for every threshold that is not negative and
    for every pair of boxes whose union has an area. *)
Lemma exceeds_value tau a b :
  0 <= tau \/ 0 < union a b ->
  exceeds tau a b
  = match iou_value a b with
    | Some v => negb (Qle_bool v tau)
    | None => false
    end.
Proof.
  intros Hcase. unfold iou_value.
  destruct (Qeq_bool (union a b) 0) eqn:Hu; [|done].
  apply Qeq_bool_iff in Hu. destruct Hcase as [Htau|Hpos]; [|lra].
  apply exceeds_false. unfold iou, Qdiv. rewrite Hu.
  change (/ 0) with 0. lra.
Qed.

(** *** Sorting *)

Lemma insert_desc_perm c l : insert_desc c l ≡ₚ c :: l.
Proof.
  induction l as [|d l IH]; simpl; [done|].
  destruct (Qle_bool (score d) (score c)); [done|].
  rewrite IH. apply Permutation_swap.
Qed.

Lemma sort_desc_perm l : sort_desc l ≡ₚ l.
Proof.
  induction l as [|c l IH]; simpl; [done|].
  by rewrite insert_desc_perm, IH.
Qed.

Lemma insert_desc_sorted c l :
  StronglySorted desc l -> StronglySorted desc (insert_desc c l).
Proof.
  induction 1 as [|d l Hl IH Hd]; simpl.
  - repeat constructor.
  - destruct (Qle_bool (score d) (score c)) eqn:Hdc.
    + apply Qle_bool_iff in Hdc. constructor; [by constructor|].
      constructor; [done|].
      eapply Forall_impl; [exact Hd|]. unfold desc. intros e He. lra.
    + constructor; [done|].
      rewrite insert_desc_perm. constructor; [|done].
      unfold desc. apply Qlt_le_weak, Qnot_le_lt. intros Hle.
      apply Qle_bool_iff in Hle. congruence.
Qed.

Lemma sort_desc_sorted l : StronglySorted desc (sort_desc l).
Proof.
  induction l as [|c l IH]; simpl; [constructor|].
  by apply insert_desc_sorted.
Qed.

(** *** Relations on ordered pairs *)

Lemma strongly_sorted_sublist {A} (R : A -> A -> Prop) (l1 l2 : list A) :
  sublist l1 l2 -> StronglySorted R l2 -> StronglySorted R l1.
Proof.
  induction 1 as [|x l1 l2 Hs IH|x l1 l2 Hs IH]; intros Hl2;
    [done| |]; inversion_clear Hl2 as [|? ? Hl Hx].
  - constructor; [by apply IH|].
    rewrite Forall_forall in Hx. apply Forall_forall. intros y Hy.
    apply Hx. by eapply elem_of_sublist.
  - by apply IH.
Qed.

Lemma strongly_sorted_lookup {A} (R : A -> A -> Prop) (l : list A) i j a b :
  StronglySorted R l -> (i < j)%nat ->
  l !! i = Some a -> l !! j = Some b -> R a b.
Proof.
  intros Hl. revert i j. induction Hl as [|x l Hl IH Hx]; intros i j Hij Hi Hj.
  - done.
  - destruct j as [|j]; [lia|]. simpl in Hj. destruct i as [|i]; simpl in Hi.
    + simplify_eq. rewrite Forall_forall in Hx. apply Hx.
      by eapply list_elem_of_lookup_2.
    + apply (IH i j); [lia|done..].
Qed.

Lemma filter_sublist {A} (f : A -> bool) (l : list A) :
  sublist (List.filter f l) l.
Proof.
  induction l as [|x l IH]; simpl; [constructor|].
  destruct (f x); by constructor.
Qed.

(** *** The greedy loop *)

Lemma greedy_nil tau k : greedy tau k [] = [].
Proof. destruct k as [[|n]|]; by simp greedy. Qed.

Lemma greedy_cons tau k c rest :
  k <> Some O ->
  greedy tau k (c :: rest)
  = c :: greedy tau (Nat.pred <$> k) (survivors tau c rest).
Proof. destruct k as [[|n]|]; [done|by simp greedy..]. Qed.

Lemma greedy_zero tau cands : greedy tau (Some O) cands = [].
Proof. by simp greedy. Qed.

Lemma greedy_sublist tau k cands : sublist (greedy tau k cands) cands.
Proof.
  funelim (greedy tau k cands); simp greedy; try apply sublist_nil_l.
  all: constructor; etrans; [eassumption|]; apply filter_sublist.
Qed.

Lemma greedy_compatible tau k cands :
  StronglySorted (compatible tau) (greedy tau k cands).
Proof.
  funelim (greedy tau k cands); simp greedy; try (by constructor).
  all: constructor; [done|]; apply Forall_forall; intros d Hd.
  all: match type of Hd with
       | _ ∈ greedy ?t ?k ?l =>
           pose proof (elem_of_sublist _ _ _ Hd (greedy_sublist t k l)) as Hs
       end.
  all: apply list_elem_of_In, filter_In in Hs as [_ Hs].
  all: by apply negb_true_iff, exceeds_false in Hs.
Qed.

Lemma greedy_at_most tau n cands : (length (greedy tau (Some n) cands) <= n)%nat.
Proof.
  revert cands. induction n as [|n IH]; intros cands.
  - by rewrite greedy_zero.
  - destruct cands as [|c rest]; [rewrite greedy_nil; simpl; lia|].
    rewrite greedy_cons by done. simpl. specialize (IH (survivors tau c rest)).
    lia.
Qed.

(** *** The guarantees *)

Lemma compatible_sym tau a b : compatible tau a b -> compatible tau b a.
Proof. unfold compatible. by rewrite (BoxFacts.iou_comm (box b)). Qed.

(** C3.  The output of the suppression is a sub-multiset of the input, in
    descending order of score, holds no two boxes whose IoU exceeds the
    threshold, and is no longer than the input nor than the maximum count
    when one is given. *)
Theorem nms_guarantees (cands : list Candidate) (tau : Q) (k : option nat) :
  let out := nms cands tau k in
  out ⊆+ cands
  /\ StronglySorted desc out
  /\ (forall i j a b, i <> j -> out !! i = Some a -> out !! j = Some b ->
        iou (box a) (box b) <= tau)
  /\ (length out <= length cands)%nat
  /\ (forall n, k = Some n -> (length out <= n)%nat).
Proof.
  intros out. subst out. unfold nms.
  assert (greedy tau k (sort_desc cands) ⊆+ cands) as Hsub.
  { rewrite <- (sort_desc_perm cands) at 2.
    apply sublist_submseteq, greedy_sublist. }
  split; [done|]. split.
  { eapply strongly_sorted_sublist; [apply greedy_sublist|].
    apply sort_desc_sorted. }
  split.
  { intros i j a b Hij Hi Hj.
    pose proof (greedy_compatible tau k (sort_desc cands)) as Hc.
    destruct (Nat.lt_total i j) as [Hlt|[Heq|Hgt]]; [|done|].
    - apply (strongly_sorted_lookup _ _ i j a b Hc Hlt Hi Hj).
    - apply compatible_sym.
      apply (strongly_sorted_lookup _ _ j i b a Hc Hgt Hj Hi). }
  split; [by apply submseteq_length|].
  intros n ->. apply greedy_at_most.
Qed.

Lemma nms_guarantees_witness :
  nms example_candidates (1 # 2) None !! 0%nat
    = Some {| box := box_0_10; score := 9 # 10 |}
  /\ nms example_candidates (1 # 2) None !! 1%nat
    = Some {| box := box_50_60; score := 7 # 10 |}
  /\ iou box_0_10 box_50_60 <= 1 # 2.
Proof.
  split; [reflexivity|]. split; [reflexivity|].
  destruct (nms_guarantees example_candidates (1 # 2) None)
    as (_ & _ & Hpair & _).
  apply (Hpair 0%nat 1%nat {| box := box_0_10; score := 9 # 10 |}
               {| box := box_50_60; score := 7 # 10 |});
    [discriminate | reflexivity | reflexivity].
Defined.

Example nms_example :
  nms example_candidates (1 # 2) None
  = [ {| box := box_0_10; score := 9 # 10 |};
      {| box := box_50_60; score := 7 # 10 |} ].
Proof. reflexivity. Qed.

Example nms_example_unsorted :
  nms (reverse example_candidates) (1 # 2) (Some 1%nat)
  = [ {| box := box_0_10; score := 9 # 10 |} ].
Proof. reflexivity. Qed.

(** *** The edge cases *)





(** *** Candidates of which none exceeds the threshold with another *)










End NmsFacts.

(** ** Anchor generation *)

Module AnchorFacts.

Import Anchors.
Local Open Scope nat_scope.

(** *** Append loops are concatenations *)

Lemma append_loop_concat {A B} (f : A -> list B) (l : list A) (acc : list B) :
  foldl (fun acc a => acc ++ f a) acc l = acc ++ concat (f <$> l).
Proof.
  revert acc. induction l as [|a l IH]; intros acc; simpl.
  - by rewrite app_nil_r.
  - rewrite IH. by rewrite <- app_assoc.
Qed.

Lemma concat_singletons {A B} (f : A -> B) (l : list A) :
  concat ((fun a => [f a]) <$> l) = f <$> l.
Proof. induction l as [|a l IH]; simpl; [done|by f_equal]. Qed.

Lemma cell_anchors_eq sqrt l i j s ratios :
  cell_anchors sqrt l i j s ratios
  = square l i j s :: (rectangle sqrt l i j s <$> ratios).
Proof.
  unfold cell_anchors.
  rewrite (append_loop_concat (fun ar => [rectangle sqrt l i j s ar])).
  by rewrite concat_singletons.
Qed.

Lemma level_anchors_eq sqrt l size s ratios :
  level_anchors sqrt l size s ratios
  = concat (row_anchors sqrt l size s ratios <$> seq 0 size.1).
Proof.
  unfold level_anchors.
  rewrite <- (app_nil_l (concat _)). generalize (@nil Anchor).
  induction (seq 0 size.1) as [|i rows IH]; intros acc; simpl.
  - by rewrite app_nil_r.
  - rewrite IH.
    rewrite (append_loop_concat (fun j => cell_anchors sqrt l i j s ratios)).
    by rewrite <- app_assoc.
Qed.

Lemma anchors_eq sqrt cfg :
  anchors sqrt cfg
  = concat (imap (fun l lv => level_anchors sqrt l lv.1 (scale cfg l) lv.2)
                 (levels cfg)).
Proof.
  unfold anchors.
  rewrite (append_loop_concat
             (fun lv => level_anchors sqrt lv.1 lv.2.1 (scale cfg lv.1) lv.2.2)).
  simpl. f_equal. rewrite fmap_imap. done.
Qed.

(** *** Positions in a concatenation *)

Lemma lookup_concat_offset {A} (bs : list (list A)) l b s :
  bs !! l = Some b -> s < length b ->
  concat bs !! (sum_list (length <$> take l bs) + s) = b !! s.
Proof.
  revert l. induction bs as [|b0 bs IH]; intros l Hl Hs; [done|].
  destruct l as [|l]; csimpl in *.
  - simplify_eq. by rewrite lookup_app_l.
  - rewrite lookup_app_r by lia.
    rewrite <- (IH l Hl Hs). f_equal. lia.
Qed.

Lemma sum_list_uniform {A} (f : nat -> list A) n m k :
  (forall i, length (f i) = n) -> k <= m ->
  sum_list (length <$> take k (f <$> seq 0 m)) = k * n.
Proof.
  intros Hn Hk. rewrite <- fmap_take, <- list_fmap_compose.
  rewrite take_seq. replace (k `min` m) with k by lia.
  clear Hk. generalize 0.
  induction k as [|k IH]; intros start; csimpl; [done|].
  rewrite IH, Hn. done.
Qed.

Lemma lookup_concat_uniform {A} (f : nat -> list A) n m k s :
  (forall i, length (f i) = n) -> k < m -> s < n ->
  concat (f <$> seq 0 m) !! (k * n + s) = f k !! s.
Proof.
  intros Hn Hk Hs.
  rewrite <- (sum_list_uniform f n m k Hn) by lia.
  apply lookup_concat_offset; [|by rewrite Hn].
  rewrite list_lookup_fmap, lookup_seq_lt by done. done.
Qed.

Lemma length_concat_uniform {A} (f : nat -> list A) n m :
  (forall i, length (f i) = n) -> length (concat (f <$> seq 0 m)) = m * n.
Proof.
  intros Hn. generalize 0. induction m as [|m IH]; intros start; simpl; [done|].
  rewrite length_app, Hn, IH. done.
Qed.

(** *** Lengths *)

Lemma cell_anchors_length sqrt l i j s ratios :
  length (cell_anchors sqrt l i j s ratios) = 1 + length ratios.
Proof. rewrite cell_anchors_eq. simpl. by rewrite length_fmap. Qed.

Lemma row_anchors_length sqrt l size s ratios i :
  length (row_anchors sqrt l size s ratios i) = size.2 * (1 + length ratios).
Proof.
  unfold row_anchors. apply length_concat_uniform.
  intros j. apply cell_anchors_length.
Qed.

Lemma level_anchors_length sqrt l size s ratios :
  length (level_anchors sqrt l size s ratios) = level_count (size, ratios).
Proof.
  rewrite level_anchors_eq.
  rewrite (length_concat_uniform _ (size.2 * (1 + length ratios)))
    by (intros; apply row_anchors_length).
  unfold level_count. simpl. lia.
Qed.

Lemma level_lengths sqrt cfg :
  length <$> imap (fun l lv => level_anchors sqrt l lv.1 (scale cfg l) lv.2)
                  (levels cfg)
  = level_count <$> levels cfg.
Proof.
  apply list_eq. intros l.
  rewrite !list_lookup_fmap, list_lookup_imap.
  destruct (levels cfg !! l) as [[size ratios]|]; simpl; [|done].
  by rewrite level_anchors_length.
Qed.

(** *** The order of the output *)

Lemma position_bound (h w a i j s : nat) :
  i < h -> j < w -> s < a -> (i * w + j) * a + s < h * w * a.
Proof.
  intros Hi Hj Hs.
  assert (i * w + j + 1 <= h * w) as Hcell by nia.
  assert ((i * w + j + 1) * a <= h * w * a) by (by apply Nat.mul_le_mono_r).
  lia.
Qed.

(** The anchor at slot [s] of cell [(i, j)] of level [l]. *)
Lemma anchor_position sqrt cfg l size ratios i j s :
  levels cfg !! l = Some (size, ratios) ->
  i < size.1 -> j < size.2 -> s < 1 + length ratios ->
  anchors sqrt cfg
    !! (offset cfg l + (i * size.2 + j) * (1 + length ratios) + s)
  = cell_anchors sqrt l i j (scale cfg l) ratios !! s.
Proof.
  intros Hl Hi Hj Hs. rewrite anchors_eq. unfold offset.
  rewrite fmap_take, <- (level_lengths sqrt cfg), <- fmap_take.
  rewrite <- Nat.add_assoc.
  rewrite (lookup_concat_offset _ l
             (level_anchors sqrt l size (scale cfg l) ratios)).
  - rewrite level_anchors_eq.
    replace ((i * size.2 + j) * (1 + length ratios) + s)
      with (i * (size.2 * (1 + length ratios))
            + (j * (1 + length ratios) + s)) by lia.
    rewrite lookup_concat_uniform;
      [|intros; apply row_anchors_length|done|nia].
    unfold row_anchors.
    rewrite lookup_concat_uniform;
      [done|intros; apply cell_anchors_length|done..].
  - by rewrite list_lookup_imap, Hl.
  - rewrite level_anchors_length. unfold level_count.
    change (((size, ratios).1).1) with size.1.
    change (((size, ratios).1).2) with size.2.
    change ((size, ratios).2) with ratios.
    apply position_bound; done.
Qed.

(** C7.  The generator is a function of its parameters, so two calls
    with the same parameters give the same sequence; the sequence is
    ordered by level, within a level by row and then column of the cell,
    and within a cell the square anchor comes first, followed by the
    rectangular anchors in the order of the aspect ratios. *)
Theorem anchors_deterministic_order (sqrt : Q -> Q) (cfg : Config) :
  (forall cfg', cfg' = cfg -> anchors sqrt cfg' = anchors sqrt cfg)
  /\ length (anchors sqrt cfg) = offset cfg (length (levels cfg))
  /\ forall l size ratios i j,
       levels cfg !! l = Some (size, ratios) -> i < size.1 -> j < size.2 ->
       let base := offset cfg l + (i * size.2 + j) * (1 + length ratios) in
       anchors sqrt cfg !! base = Some (square l i j (scale cfg l))
       /\ forall n ar, ratios !! n = Some ar ->
            anchors sqrt cfg !! (base + 1 + n)
            = Some (rectangle sqrt l i j (scale cfg l) ar).
Proof.
  split; [by intros cfg' ->|]. split.
  { rewrite anchors_eq. unfold offset. rewrite take_ge by done.
    rewrite <- (level_lengths sqrt cfg).
    generalize (imap (fun l lv => level_anchors sqrt l lv.1 (scale cfg l) lv.2)
                     (levels cfg)).
    intros bs. induction bs as [|b bs IH]; csimpl; [done|].
    by rewrite length_app, IH. }
  intros l size ratios i j Hl Hi Hj base. subst base. split.
  - rewrite <- (Nat.add_0_r (_ + _ * _)).
    rewrite (anchor_position sqrt cfg l size ratios i j 0) by (done || lia).
    by rewrite cell_anchors_eq.
  - intros n ar Hn. rewrite <- Nat.add_assoc.
    rewrite (anchor_position sqrt cfg l size ratios i j (1 + n));
      [|done..|apply lookup_lt_Some in Hn; lia].
    rewrite cell_anchors_eq. simpl. by rewrite list_lookup_fmap, Hn.
Qed.

Lemma anchors_deterministic_order_witness :
  anchors sqrt_at_one example_config !! 7
  = Some (rectangle sqrt_at_one 0 1 1 (scale example_config 0) 1%Q).
Proof.
  destruct (anchors_deterministic_order sqrt_at_one example_config)
    as (_ & _ & H).
  destruct (H 0 (2, 2) [1%Q] 1 1) as [_ Hr];
    [reflexivity | simpl; lia | simpl; lia |].
  apply (Hr 0 1%Q). reflexivity.
Defined.

(** C6.  For two levels of sizes 2x2 and 1x1 with the single aspect ratio
    1 and the scale bounds 0.2 and 0.9: two anchors per cell, eight
    anchors for level 0 and two for level 1, ten in all, the anchors of
    level 0 before those of level 1; and a cell of a level without aspect
    ratios has the square anchor alone. *)
Theorem example_anchor_counts (sqrt : Q -> Q) :
  let level0 := level_anchors sqrt 0 (2, 2) (scale example_config 0) [1%Q] in
  let level1 := level_anchors sqrt 1 (1, 1) (scale example_config 1) [1%Q] in
  num_anchors_per_location example_config = [2; 2]
  /\ length level0 = 8
  /\ length level1 = 2
  /\ anchors sqrt example_config = level0 ++ level1
  /\ length (anchors sqrt example_config) = 10
  /\ forall l i j s, cell_anchors sqrt l i j s [] = [square l i j s].
Proof. repeat split. Qed.

Example example_scales :
  (scale example_config 0 == 2 # 10)%Q /\ (scale example_config 1 == 9 # 10)%Q.
Proof. split; reflexivity. Qed.

End AnchorFacts.

(** ** Box coding *)

Module BoxCoderFacts.

Import BoxCoder.
Local Open Scope R_scope.

Ltac lra := Lra.lra.

Lemma clamp_inside lo hi x : lo <= x <= hi -> clamp lo hi x = x.
Proof.
  intros [Hlo Hhi]. unfold clamp.
  rewrite (Rmin_right hi x) by done. by apply Rmax_right.
Qed.

Lemma clamp_upper lo hi x : clamp lo hi x <= Rmax lo hi.
Proof.
  unfold clamp. apply Rle_max_compat_l, Rmin_l.
Qed.

Lemma exp_monotone x y : x <= y -> exp x <= exp y.
Proof.
  intros [Hlt| ->]; [|lra]. left. by apply exp_increasing.
Qed.

(** Inside the range of the clamp the formulas of the decoder invert those
    of the encoder.  (The floating-point results need not agree: there
    the round trip is a matter of rounding errors, which this module does
    not have.) *)
Lemma decode_encode_inside lo hi b a :
  positive b -> positive a ->
  lo <= ln (width b / width a) <= hi ->
  lo <= ln (height b / height a) <= hi ->
  decode lo hi (encode b a) a = b.
Proof.
  intros [Hbw Hbh] [Haw Hah] Hw Hh. unfold decode, encode. simpl.
  rewrite !clamp_inside by done.
  rewrite !exp_ln by (by apply Rdiv_lt_0_compat).
  unfold center_x, center_y, width, height in *.
  destruct b as [x0 y0 x1 y1]; simpl in *. f_equal; field; lra.
Qed.

Example decode_encode_shifted :
  decode (-1) 1 (encode shifted_box unit_box) unit_box = shifted_box.
Proof.
  assert (forall x, x = 1 -> ln x = 0) as Hln by (intros x ->; apply ln_1).
  apply decode_encode_inside; unfold positive, width, height; simpl.
  - lra.
  - lra.
  - rewrite (Hln ((4 - 3) / (1 - 0))) by field. lra.
  - rewrite (Hln ((3 - 2) / (1 - 0))) by field. lra.
Qed.

(** Outside the range of the clamp the formulas themselves do not invert
    each other. *)
Lemma wide_box_not_recovered lo hi :
  positive (wide_box lo hi) /\ positive unit_box
  /\ ~ approx (decode lo hi (encode (wide_box lo hi) unit_box) unit_box)
              (wide_box lo hi).
Proof.
  pose proof (exp_pos (Rmax lo hi)) as Hpos.
  split; [unfold positive, width, height; simpl; lra|].
  split; [unfold positive, width, height; simpl; lra|].
  intros (_ & _ & Hx & _). unfold close in Hx. revert Hx.
  unfold decode, encode, center_x, width. simpl.
  set (w := exp (clamp lo hi _)).
  assert (0 < w <= exp (Rmax lo hi)) as [Hw0 Hw].
  { split; [apply exp_pos|]. apply exp_monotone, clamp_upper. }
  set (m := exp (Rmax lo hi)) in *.
  replace (((0 + 2 * m) / 2 - (0 + 1) / 2) / (1 - 0) * (1 - 0) + (0 + 1) / 2
           + w * (1 - 0) / 2 - 2 * m) with (w / 2 - m) by field.
  rewrite (Rabs_left (w / 2 - m)) by lra.
  rewrite (Rabs_right (2 * m)) by lra. lra.
Qed.

(** Whatever the range of the clamp, some box of positive width and
    height is not recovered within the tolerance, in exact arithmetic
    already. *)
Lemma decode_encode_clamp_breaks_roundtrip :
  ~ exists lo hi, forall b a, positive b -> positive a ->
      approx (decode lo hi (encode b a) a) b.
Proof.
  intros (lo & hi & Hall).
  destruct (wide_box_not_recovered lo hi) as (Hb & Ha & Hno).
  apply Hno, Hall; done.
Qed.

End BoxCoderFacts.

(** ** The extra blocks and the forward pass of the feature extractor *)

Module ExtractorFacts.

Import Ssdlite Extractor.

(** The four extra blocks form one chain from the last block of the
    backbone: inside a block and from block to block every layer reads the
    channels the layer before it writes; the chain starts at the channels
    of the backbone, and every block writes at least [min_depth]
    channels. *)
Theorem extra_blocks_chained (scaled : Z -> Z) (min_depth backbone_out : Z)
    (norm_layer : pyval) :
  let extra := extra_blocks scaled min_depth backbone_out norm_layer in
  chained (concat extra)
  /\ cna_in_channels <$> head (concat extra) = Some backbone_out
  /\ (fun block => cna_out_channels <$> last block) <$> extra
     = (fun d => Some (get_depth scaled min_depth d)) <$> [512; 256; 256; 128]
  /\ Forall (fun block =>
               forall l, last block = Some l -> min_depth <= cna_out_channels l)
            extra.
Proof.
  intros extra. subst extra. split; [simpl; by repeat split|].
  split; [done|]. split; [done|].
  repeat constructor; intros l Hl; simpl in Hl; simplify_eq; simpl;
    unfold get_depth; lia.
Qed.

(** *** The forward pass *)

Section ForwardFacts.

Context {T : Type}.
Implicit Types (blocks features extra : list (T -> exn + T)) (x : T).

Lemma compose_blocks_app blocks1 blocks2 x :
  compose_blocks (blocks1 ++ blocks2) x
  = match compose_blocks blocks1 x with
    | inl e => inl e
    | inr x' => compose_blocks blocks2 x'
    end.
Proof.
  revert x. induction blocks1 as [|b blocks1 IH]; intros x; simpl; [done|].
  destruct (b x); [done|]. apply IH.
Qed.

(** A loop that ends appends one output per block: the output of block
    [i] is the result of the blocks up to [i]. *)
Lemma run_blocks_inr blocks x output x' output' :
  run_blocks blocks x output = inr (x', output') ->
  compose_blocks blocks x = inr x'
  /\ exists new, output' = output ++ new
     /\ length new = length blocks
     /\ forall i v, new !! i = Some v ->
          compose_blocks (take (S i) blocks) x = inr v.
Proof.
  revert x output. induction blocks as [|b blocks IH]; intros x output Hrun.
  - simpl in Hrun. simplify_eq. split; [done|]. exists [].
    by rewrite app_nil_r.
  - simpl in Hrun. simpl. destruct (b x) as [e|y] eqn:Hb; [done|].
    destruct (IH _ _ Hrun) as (Hc & new & -> & Hlen & Hnew).
    split; [done|]. exists (y :: new). rewrite <- app_assoc.
    split; [done|]. split; [simpl; by rewrite Hlen|].
    intros [|i] v Hv; simpl in Hv |- *; rewrite ?Hb.
    + by simplify_eq.
    + by apply Hnew.
Qed.

Lemma run_blocks_inl blocks x output e :
  run_blocks blocks x output = inl e <-> compose_blocks blocks x = inl e.
Proof.
  revert x output. induction blocks as [|b blocks IH]; intros x output; simpl.
  - split; intros; discriminate.
  - destruct (b x); [split; intros; by simplify_eq|]. apply IH.
Qed.

Lemma enumerate_keys (output : list T) :
  (imap (fun i v => (pretty i, v)) output).*1
  = pretty <$> seq 0 (length output).
Proof.
  rewrite fmap_imap. rewrite <- (imap_seq_0 output pretty).
  by apply imap_ext.
Qed.

(** The forward pass returns one entry per block of [features] and
    [extra], in that order; entry [i] has the key [str(i)] and holds the
    result of the first [i + 1] blocks; no key occurs twice. *)
Theorem forward_outputs features extra x outs :
  forward features extra x = inr outs ->
  length outs = (length features + length extra)%nat
  /\ NoDup (outs.*1)
  /\ forall i kv, outs !! i = Some kv ->
       kv.1 = pretty i
       /\ compose_blocks (take (S i) (features ++ extra)) x = inr kv.2.
Proof.
  unfold forward. intros Hf.
  destruct (run_blocks features x []) as [e|[x1 out1]] eqn:H1; [done|].
  destruct (run_blocks extra x1 out1) as [e|[x2 out2]] eqn:H2; [done|].
  simplify_eq.
  apply run_blocks_inr in H1 as (Hc1 & new1 & -> & Hlen1 & Hnew1).
  apply run_blocks_inr in H2 as (Hc2 & new2 & -> & Hlen2 & Hnew2).
  simpl in *. split; [rewrite length_imap, length_app; lia|]. split.
  - rewrite enumerate_keys.
    apply NoDup_fmap_2; [apply _|apply NoDup_seq].
  - intros i kv Hkv. apply list_lookup_imap_Some in Hkv as (v & Hv & ->).
    split; [done|]. simpl.
    destruct (decide (i < length new1)%nat) as [Hi|Hi].
    + rewrite lookup_app_l in Hv by done.
      rewrite take_app_le by lia. by apply Hnew1.
    + rewrite lookup_app_r in Hv by lia.
      rewrite take_app_ge by lia. rewrite compose_blocks_app, Hc1.
      replace (S i - length features)%nat with (S (i - length new1)) by lia.
      by apply Hnew2.
Qed.

(** The forward pass raises exactly when one of the blocks does, with the
    exception of the first block that raises. *)
Theorem forward_raises features extra x e :
  forward features extra x = inl e
  <-> compose_blocks (features ++ extra) x = inl e.
Proof.
  unfold forward. rewrite compose_blocks_app.
  destruct (run_blocks features x []) as [e1|[x1 out1]] eqn:H1.
  - apply run_blocks_inl in H1. rewrite H1. split; intros; by simplify_eq.
  - apply run_blocks_inr in H1 as (-> & _).
    destruct (run_blocks extra x1 out1) as [e2|[x2 out2]] eqn:H2.
    + apply run_blocks_inl in H2. rewrite H2. split; intros; by simplify_eq.
    + apply run_blocks_inr in H2 as (-> & _). split; intros; discriminate.
Qed.

End ForwardFacts.

(** Blocks on integers: the second of three raises on odd inputs. *)
Lemma forward_outputs_witness :
  let double : Z -> exn + Z := fun n => inr (2 * n) in
  let succ : Z -> exn + Z := fun n => inr (n + 1) in
  forward [double; succ] [double] 5 = inr [("0", 10); ("1", 11); ("2", 22)]
  /\ compose_blocks (take 2 ([double; succ] ++ [double])) 5 = inr 11.
Proof.
  intros double succ. split; [reflexivity|].
  destruct (forward_outputs [double; succ] [double] 5
              [("0", 10); ("1", 11); ("2", 22)] eq_refl) as (_ & _ & H).
  apply (H 1%nat ("1", 11)). reflexivity.
Defined.

End ExtractorFacts.

(** ** The stages of the backbone *)

Module BackboneFacts.

Import Ssdlite Extractor.

(** *** Indexing *)

Lemma py_index_nonneg {A} (l : list A) (i : Z) (a : A) :
  0 <= i -> l !! Z.to_nat i = Some a -> py_index l i = inr a.
Proof.
  intros Hi Ha. unfold py_index.
  destruct (i <? 0) eqn:Hneg; [lia|].
  rewrite Hneg. by rewrite Ha.
Qed.

Lemma py_index_from_end {A} (l : list A) (i : Z) (a : A) :
  i < 0 -> 0 <= i + Z.of_nat (length l) ->
  l !! Z.to_nat (i + Z.of_nat (length l)) = Some a -> py_index l i = inr a.
Proof.
  intros Hi Hlen Ha. unfold py_index.
  destruct (i <? 0) eqn:Hneg; [|lia].
  destruct (i + Z.of_nat (length l) <? 0) eqn:Hneg2; [lia|].
  by rewrite Ha.
Qed.

(** *** The strided blocks *)

Lemma omap_cons_case {A B} (f : A -> option B) (x : A) (l : list A) :
  omap f (x :: l)
  = match f x with Some y => y :: omap f l | None => omap f l end.
Proof. reflexivity. Qed.

Lemma cn_indices_from (k : nat) (backbone : list Block) :
  let l := omap cn_entry (imap (fun i b => ((k + i)%nat, b)) backbone) in
  StronglySorted Z.lt l
  /\ Forall (fun z => Z.of_nat k <= z < Z.of_nat (k + length backbone)) l.
Proof.
  revert k. induction backbone as [|b backbone IH]; intros k; cbv zeta.
  - split; constructor.
  - rewrite imap_cons, omap_cons_case.
    rewrite (imap_ext _ (fun i b => ((S k + i)%nat, b)))
      by (intros; simpl; f_equal; lia).
    destruct (IH (S k)) as [Hs Hf].
    assert (Forall (fun z => Z.of_nat k < z
                             /\ Z.of_nat k <= z < Z.of_nat (k + length (b :: backbone)))
              (omap cn_entry (imap (fun i b => ((S k + i)%nat, b)) backbone)))
      as Hf'.
    { eapply Forall_impl; [exact Hf|]. simpl. intros z Hz. lia. }
    apply Forall_and in Hf' as [Hlt Hrange].
    destruct (cn_entry ((k + 0)%nat, b)) as [y|] eqn:Hy; [|by split].
    unfold cn_entry in Hy. simpl in Hy.
    destruct (blk_is_cn b); [|done]. simplify_eq.
    split.
    + constructor; [done|]. by rewrite Nat.add_0_r.
    + constructor; [simpl; lia|done].
Qed.

Lemma cn_indices_sorted backbone :
  StronglySorted Z.lt (cn_indices backbone)
  /\ Forall (fun z => 0 <= z < Z.of_nat (length backbone)) (cn_indices backbone).
Proof. apply (cn_indices_from 0 backbone). Qed.

Lemma elem_of_cn_indices backbone z :
  z ∈ cn_indices backbone
  <-> exists i b, z = Z.of_nat i /\ backbone !! i = Some b /\ blk_is_cn b = true.
Proof.
  unfold cn_indices. rewrite list_elem_of_omap. split.
  - intros ([i b] & Hin & Hz). apply elem_of_lookup_imap in Hin
      as (j & b' & Heq & Hb). simplify_eq. simpl in Hz.
    destruct (blk_is_cn b') eqn:Hcn; [|done]. simplify_eq. eauto.
  - intros (i & b & -> & Hb & Hcn). exists (i, b). split.
    + by apply (elem_of_lookup_imap_2 (fun i b => (i, b))).
    + simpl. by rewrite Hcn.
Qed.

(** *** The stage indices *)

Lemma stage_indices_length backbone :
  length (stage_indices backbone) = (2 + length (cn_indices backbone))%nat.
Proof. unfold stage_indices. simpl. rewrite length_app. simpl. lia. Qed.

(** For a backbone with a block, the stage indices do not decrease and
    are indices of blocks. *)
Lemma stage_indices_sorted backbone :
  backbone <> [] ->
  StronglySorted Z.le (stage_indices backbone)
  /\ Forall (fun z => 0 <= z < Z.of_nat (length backbone)) (stage_indices backbone).
Proof.
  intros Hne. destruct (cn_indices_sorted backbone) as [Hs Hf].
  assert (0 < length backbone)%nat as Hlen by (destruct backbone; simpl; [done|lia]).
  unfold stage_indices. split.
  - apply StronglySorted_app_2.
    + intros x1 x2 Hx1 Hx2. apply list_elem_of_singleton in Hx1 as ->.
      apply elem_of_app in Hx2 as [Hx2|Hx2].
      * rewrite Forall_forall in Hf. specialize (Hf _ Hx2). lia.
      * apply list_elem_of_singleton in Hx2 as ->. lia.
    + repeat constructor.
    + apply StronglySorted_app_2.
      * intros x1 x2 Hx1 Hx2. apply list_elem_of_singleton in Hx2 as ->.
        rewrite Forall_forall in Hf. specialize (Hf _ Hx1). lia.
      * eapply Sorted.StronglySorted_ind with (R := Z.lt) (l := cn_indices backbone);
          [constructor| |done].
        intros a l _ IH Ha. constructor; [done|].
        eapply Forall_impl; [exact Ha|]. simpl. lia.
      * repeat constructor.
  - apply Forall_app. split; [repeat constructor; lia|].
    apply Forall_app. split; [done|]. repeat constructor; lia.
Qed.

(** *** What is frozen *)

(** The blocks before [freeze_before] are frozen and the others are left
    as they are; no block is added or removed. *)
Theorem freeze_prefix_blocks backbone (fb : Z) :
  0 <= fb ->
  length (freeze_prefix backbone fb) = length backbone
  /\ forall i b, backbone !! i = Some b ->
       freeze_prefix backbone fb !! i
       = Some (if decide (Z.of_nat i < fb) then freeze b else b).
Proof.
  intros Hfb. unfold freeze_prefix, py_slice_to.
  destruct (fb <? 0) eqn:Hneg; [lia|].
  rewrite length_take. split.
  - rewrite length_app, length_fmap, length_take, length_drop. lia.
  - intros i b Hb. pose proof (lookup_lt_Some _ _ _ Hb) as Hi.
    case_decide as Hlt.
    + rewrite lookup_app_l by (rewrite length_fmap, length_take; lia).
      rewrite list_lookup_fmap, lookup_take_lt by lia. by rewrite Hb.
    + rewrite lookup_app_r by (rewrite length_fmap, length_take; lia).
      rewrite length_fmap, length_take, lookup_drop. rewrite <- Hb. f_equal. lia.
Qed.

Lemma freeze_prefix_blocks_witness :
  blk_requires_grad <$> freeze_prefix five_blocks 3
  = [false; false; false; true; true].
Proof.
  destruct (freeze_prefix_blocks five_blocks 3) as [Hlen Hlook]; [lia|].
  apply list_eq. intros i. rewrite list_lookup_fmap.
  destruct (five_blocks !! i) as [b|] eqn:Hb.
  - rewrite (Hlook i b Hb).
    do 5 (destruct i as [|i]; [simpl in Hb; simplify_eq; reflexivity|]).
    discriminate Hb.
  - apply lookup_ge_None in Hb. rewrite lookup_ge_None_2 by lia.
    by rewrite lookup_ge_None_2.
Defined.

(** With a number of trainable layers that passes the assertion, the
    index lookup of [freeze_before] does not raise: with none trainable
    every block is frozen, with all stages trainable no block is, and in
    between the first block left trainable is a stage index. *)
Theorem freeze_before_in_range backbone (trainable_layers : Z) :
  0 <= trainable_layers <= Z.of_nat (length (stage_indices backbone)) ->
  exists fb,
    freeze_before backbone trainable_layers = inr fb
    /\ (trainable_layers = 0 -> fb = Z.of_nat (length backbone))
    /\ (trainable_layers = Z.of_nat (length (stage_indices backbone)) -> fb = 0)
    /\ (0 < trainable_layers -> fb ∈ stage_indices backbone).
Proof.
  intros Hrange. unfold freeze_before.
  destruct (trainable_layers =? 0) eqn:Hz.
  - exists (Z.of_nat (length backbone)). split; [done|]. split; [done|].
    rewrite stage_indices_length in *. split; intros; lia.
  - set (n := Z.of_nat (length (stage_indices backbone))) in *.
    destruct (stage_indices backbone !! Z.to_nat (n - trainable_layers))
      as [fb|] eqn:Hfb.
    + exists fb. rewrite (py_index_nonneg _ _ fb) by (done || lia).
      split; [done|]. split; [lia|]. split.
      * intros ->. replace (n - n) with 0 in Hfb by lia.
        simpl in Hfb. by simplify_eq.
      * intros _. by eapply list_elem_of_lookup_2.
    + apply lookup_ge_None in Hfb. lia.
Qed.

Lemma freeze_before_in_range_witness :
  freeze_before five_blocks 0 = inr 5
  /\ freeze_before five_blocks 4 = inr 0
  /\ freeze_before five_blocks 2 = inr 3.
Proof.
  destruct (freeze_before_in_range five_blocks 0) as (fb0 & H0 & Hall & _);
    [vm_compute; split; discriminate|].
  destruct (freeze_before_in_range five_blocks 4) as (fb4 & H4 & _ & Hnone & _);
    [vm_compute; split; discriminate|].
  rewrite H0, H4, (Hall eq_refl), (Hnone eq_refl). repeat split.
Defined.

(** For a backbone with a block, more trainable layers never freeze more
    blocks. *)
Theorem freeze_before_monotone backbone (t1 t2 fb1 fb2 : Z) :
  backbone <> [] ->
  0 <= t1 <= t2 -> t2 <= Z.of_nat (length (stage_indices backbone)) ->
  freeze_before backbone t1 = inr fb1 ->
  freeze_before backbone t2 = inr fb2 ->
  fb2 <= fb1.
Proof.
  intros Hne Ht1 Ht2 H1 H2.
  destruct (stage_indices_sorted backbone Hne) as [Hsorted Hbound].
  assert (forall t fb, 0 < t <= Z.of_nat (length (stage_indices backbone)) ->
            freeze_before backbone t = inr fb ->
            stage_indices backbone
              !! Z.to_nat (Z.of_nat (length (stage_indices backbone)) - t) = Some fb)
    as Hlook.
  { intros t fb Ht Hfb. unfold freeze_before in Hfb.
    destruct (t =? 0) eqn:Hz; [lia|].
    set (n := Z.of_nat (length (stage_indices backbone))) in *.
    destruct (stage_indices backbone !! Z.to_nat (n - t)) as [z|] eqn:Hz';
      [|apply lookup_ge_None in Hz'; lia].
    rewrite (py_index_nonneg _ _ z) in Hfb by (done || lia). by simplify_eq. }
  destruct (decide (t2 = 0)) as [->|Hne2].
  { assert (t1 = 0) as -> by lia. rewrite H1 in H2. simplify_eq. lia. }
  apply Hlook in H2; [|lia].
  destruct (decide (t1 = 0)) as [->|Hne1].
  - unfold freeze_before in H1. simpl in H1. simplify_eq.
    rewrite Forall_forall in Hbound.
    pose proof (Hbound fb2 (list_elem_of_lookup_2 _ _ _ H2)). lia.
  - apply Hlook in H1; [|lia].
    destruct (decide (t1 = t2)) as [->|Hlt]; [simplify_eq; lia|].
    eapply (NmsFacts.strongly_sorted_lookup Z.le _ _ _ fb2 fb1 Hsorted);
      [|exact H2|exact H1]. lia.
Qed.

Lemma freeze_before_monotone_witness :
  freeze_before five_blocks 1 = inr 4
  /\ freeze_before five_blocks 3 = inr 1
  /\ 1 <= 4.
Proof.
  split; [reflexivity|]. split; [reflexivity|].
  apply (freeze_before_monotone five_blocks 1 3 4 1);
    [discriminate | lia | vm_compute; discriminate | reflexivity | reflexivity].
Defined.

(** For a backbone with a block, [stage_indices[-2]] is the index of the
    last strided block, or 0 when no block is strided; it is an index of
    the backbone, so [backbone[c4_pos]] finds a block. *)
Theorem c4_position_last_strided backbone :
  backbone <> [] ->
  exists c,
    c4_position backbone = inr c
    /\ 0 <= c < Z.of_nat (length backbone)
    /\ (forall i b, backbone !! i = Some b -> blk_is_cn b = true ->
          Z.of_nat i <= c)
    /\ (c = 0 \/ exists b, backbone !! Z.to_nat c = Some b /\ blk_is_cn b = true).
Proof.
  intros Hne. destruct (cn_indices_sorted backbone) as [Hs Hf].
  assert (0 < length backbone)%nat as Hlen by (destruct backbone; simpl; [done|lia]).
  assert (exists c, last (0 :: cn_indices backbone) = Some c) as [c Hc].
  { destruct (last (0 :: cn_indices backbone)) eqn:Hl; [eauto|].
    by apply last_None in Hl. }
  exists c.
  assert (c4_position backbone = inr c) as ->.
  { unfold c4_position. apply py_index_from_end; [lia| |].
    - rewrite stage_indices_length. lia.
    - rewrite stage_indices_length. unfold stage_indices.
      rewrite app_assoc, lookup_app_l.
      + rewrite last_lookup in Hc. rewrite <- Hc. simpl. f_equal. lia.
      + simpl. lia. }
  split; [done|].
  assert (c = 0 \/ c ∈ cn_indices backbone) as Hcase.
  { destruct (cn_indices backbone) as [|z l] eqn:Hcn using rev_ind.
    - left. simpl in Hc. by simplify_eq.
    - right. rewrite app_comm_cons, last_snoc in Hc. simplify_eq.
      apply elem_of_app. right. by apply list_elem_of_singleton. }
  split; [|split].
  - destruct Hcase as [->|Hin]; [lia|].
    rewrite Forall_forall in Hf. by apply Hf.
  - intros i b Hb Hcn.
    assert (Z.of_nat i ∈ cn_indices backbone) as Hin
      by (apply elem_of_cn_indices; eauto).
    destruct (cn_indices backbone) as [|z l] eqn:Hcn' using rev_ind;
      [by apply elem_of_nil in Hin|].
    rewrite app_comm_cons, last_snoc in Hc. simplify_eq.
    apply elem_of_app in Hin as [Hin|Hin].
    + pose proof (StronglySorted_app_1_elem_of _ _ _ _ _ Hs Hin
                    (list_elem_of_here _ _)). lia.
    + apply list_elem_of_singleton in Hin. lia.
  - destruct Hcase as [->|Hin]; [by left|]. right.
    apply elem_of_cn_indices in Hin as (i & b & -> & Hb & Hcn).
    exists b. by rewrite Nat2Z.id.
Qed.

Lemma c4_position_last_strided_witness :
  exists c,
    c4_position five_blocks = inr c
    /\ 0 <= c < Z.of_nat (length five_blocks)
    /\ (forall i b, five_blocks !! i = Some b -> blk_is_cn b = true ->
          Z.of_nat i <= c)
    /\ (c = 0 \/ exists b, five_blocks !! Z.to_nat c = Some b
                            /\ blk_is_cn b = true).
Proof. apply (c4_position_last_strided five_blocks). discriminate. Defined.

Example c4_position_five_blocks : c4_position five_blocks = inr 3.
Proof. reflexivity. Qed.

(** *** The run of [_mobilenet_extractor] *)

Lemma find_all_false {A} (f : A -> bool) (l : list A) :
  (forall x, x ∈ l -> f x = false) -> find f l = None.
Proof.
  induction l as [|x l IH]; intros Hall; simpl; [done|].
  rewrite (Hall x) by constructor. apply IH. intros y Hy. apply Hall.
  by constructor.
Qed.

Lemma delete_absent_keys (params : list (string * pyval)) (kw : gmap string pyval) :
  (forall p, p ∈ params -> kw !! p.1 = None) ->
  foldr (fun p m => delete p.1 m) kw params = kw.
Proof.
  induction params as [|p params IH]; intros Hall; simpl; [done|].
  rewrite IH by (intros q Hq; apply Hall; by constructor).
  apply delete_id, Hall. constructor.
Qed.

(** A call that fills every parameter by position, with keywords that
    name none of them, binds, and all the keywords go to [**kwargs]. *)
Lemma bind_params_positional fname params args kw :
  length args = length params ->
  (forall p, p ∈ params -> kw !! p.1 = None) ->
  bind_params fname params args kw
  = inr (list_to_map (zip (params.*1) args ++ []), kw).
Proof.
  intros Hlen Hall. unfold bind_params.
  rewrite find_all_false.
  - rewrite bool_decide_eq_false_2 by lia.
    rewrite Hlen, drop_all. simpl. by rewrite delete_absent_keys.
  - intros p Hp. apply bool_decide_eq_false_2.
    rewrite (Hall p); [by intros [? ?]|].
    by eapply subseteq_take.
Qed.

Lemma extractor_binds backbone_name progress pretrained trainable_layers
    norm_layer kw :
  (forall n, n ∈ extractor_params -> kw !! n = None) ->
  exists frame,
    bind_params "_mobilenet_extractor"
      [("backbone_name", PyNone); ("progress", PyNone); ("pretrained", PyNone);
       ("trainable_layers", PyNone); ("norm_layer", PyNone)]
      [backbone_name; progress; pretrained; PyInt trainable_layers; norm_layer]
      kw = inr (frame, kw).
Proof.
  intros Hkw. eexists. apply bind_params_positional; [done|].
  intros p Hp. apply Hkw.
  apply (list_elem_of_fmap_2 fst) in Hp. exact Hp.
Qed.

Lemma backbone_keywords_merge progress pretrained norm_layer kw :
  (forall n, n ∈ extractor_params -> kw !! n = None) ->
  merge_keywords "mobilenet"
    [("pretrained", pretrained); ("progress", progress);
     ("norm_layer", norm_layer)] kw
  = inr (backbone_keywords progress pretrained norm_layer kw).
Proof.
  intros Hkw. unfold merge_keywords. rewrite find_all_false; [done|].
  intros p Hp. apply bool_decide_eq_false_2.
  rewrite (Hkw p.1); [by intros [? ?]|].
  apply (list_elem_of_fmap_2 fst) in Hp. simpl in Hp.
  unfold extractor_params. rewrite !elem_of_cons in Hp.
  rewrite !elem_of_cons.
  destruct Hp as [Hp|[Hp|[Hp|Hp]]]; [auto 10 .. | by apply elem_of_nil in Hp].
Qed.

(** An unknown backbone name, or no name at all, raises [KeyError] before
    anything is built. *)
Theorem unknown_backbone_KeyError env backbone_name progress pretrained
    trainable_layers norm_layer kw :
  (forall n, n ∈ extractor_params -> kw !! n = None) ->
  backbone_name = PyNone
  \/ (exists s, backbone_name = PyStr s /\ mobilenet_dict env !! s = None) ->
  _mobilenet_extractor env backbone_name progress pretrained trainable_layers
    norm_layer kw
  = ([], inl (Raise KeyError "" [backbone_name])).
Proof.
  intros Hkw Hname. unfold _mobilenet_extractor.
  destruct (extractor_binds backbone_name progress pretrained trainable_layers
              norm_layer kw Hkw) as [frame ->].
  destruct Hname as [->|(s & -> & Hs)]; simpl; [done|]. by rewrite Hs.
Qed.

Lemma unknown_backbone_KeyError_witness :
  _mobilenet_extractor demo_env (PyStr "mobilenet_v4") (PyBool true)
    (PyBool false) 6 PyNone ∅
  = ([], inl (Raise KeyError "" [PyStr "mobilenet_v4"])).
Proof.
  apply (unknown_backbone_KeyError demo_env (PyStr "mobilenet_v4")).
  - intros n _. apply lookup_empty.
  - right. exists "mobilenet_v4". split; reflexivity.
Defined.

(** The steps of [_mobilenet_extractor] up to the call of the
    constructor. *)
Lemma extractor_prefix env s progress pretrained trainable_layers norm_layer kw
    ctor backbone :
  (forall n, n ∈ extractor_params -> kw !! n = None) ->
  mobilenet_dict env !! s = Some ctor ->
  ctor (backbone_keywords progress pretrained norm_layer kw) = inr backbone ->
  _mobilenet_extractor env (PyStr s) progress pretrained trainable_layers
    norm_layer kw
  = Py.bind
      (emit (EvCall "mobilenet" [PyStr s]
               (backbone_keywords progress pretrained norm_layer kw)))
      (fun _ =>
         Py.bind
           (py_assert ((0 <=? trainable_layers)
                       && (trainable_layers
                           <=? Z.of_nat (length (stage_indices backbone)))))
           (fun _ =>
              Py.bind (lift (freeze_before backbone trainable_layers))
                (fun fb =>
                   Py.bind (lift (c4_position backbone))
                     (fun c4 =>
                        SSDLiteFeatureExtractorMobileNet env
                          (freeze_prefix backbone fb) c4 norm_layer kw)))).
Proof.
  intros Hkw Hs Hctor. unfold _mobilenet_extractor.
  destruct (extractor_binds (PyStr s) progress pretrained trainable_layers
              norm_layer kw Hkw) as [frame ->].
  rewrite Hs. unfold Py.bind at 1 2. cbn [lift fst snd app].
  pose proof (backbone_keywords_merge progress pretrained norm_layer kw Hkw) as Hm.
  rewrite Hm.
  unfold Py.bind at 1 2 3. simpl. rewrite Hctor. simpl.
  unfold freeze_before, c4_position, freeze_prefix, stage_indices.
  destruct (0 <=? trainable_layers); simpl; [|done].
  destruct (trainable_layers <=? _); simpl; [|done].
  by destruct (trainable_layers =? 0).
Qed.

Lemma c4_position_defined backbone : exists c, c4_position backbone = inr c.
Proof.
  unfold c4_position.
  destruct (stage_indices backbone
              !! Z.to_nat (-2 + Z.of_nat (length (stage_indices backbone))))
    as [c|] eqn:Hc.
  - exists c. apply py_index_from_end; [lia| |done].
    rewrite stage_indices_length. lia.
  - apply lookup_ge_None in Hc. rewrite stage_indices_length in Hc. lia.
Qed.

Lemma freeze_before_defined backbone (trainable_layers : Z) :
  0 <= trainable_layers <= Z.of_nat (length (stage_indices backbone)) ->
  exists fb, freeze_before backbone trainable_layers = inr fb.
Proof.
  intros Hrange. unfold freeze_before.
  destruct (trainable_layers =? 0) eqn:Hz; [eauto|].
  set (n := Z.of_nat (length (stage_indices backbone))) in *.
  destruct (stage_indices backbone !! Z.to_nat (n - trainable_layers))
    as [fb|] eqn:Hfb.
  - exists fb. apply py_index_nonneg; [lia|done].
  - apply lookup_ge_None in Hfb. lia.
Qed.

(** With a known backbone name, keywords that name no parameter of
    [_mobilenet_extractor], a constructor that returns and a number of
    trainable layers between 0 and the number of stages, the call builds
    the backbone once and then is the construction of the feature
    extractor on the backbone with its first [freeze_before] blocks frozen,
    at the C4 position: neither index lookup raises. *)
Theorem extractor_on_frozen_backbone env s progress pretrained
    trainable_layers norm_layer kw ctor backbone :
  (forall n, n ∈ extractor_params -> kw !! n = None) ->
  mobilenet_dict env !! s = Some ctor ->
  ctor (backbone_keywords progress pretrained norm_layer kw) = inr backbone ->
  0 <= trainable_layers <= Z.of_nat (length (stage_indices backbone)) ->
  exists fb c4,
    freeze_before backbone trainable_layers = inr fb
    /\ c4_position backbone = inr c4
    /\ _mobilenet_extractor env (PyStr s) progress pretrained trainable_layers
         norm_layer kw
       = Py.bind
           (emit (EvCall "mobilenet" [PyStr s]
                    (backbone_keywords progress pretrained norm_layer kw)))
           (fun _ => SSDLiteFeatureExtractorMobileNet env
                       (freeze_prefix backbone fb) c4 norm_layer kw).
Proof.
  intros Hkw Hs Hctor Hrange.
  destruct (freeze_before_defined backbone trainable_layers Hrange) as [fb Hfb].
  destruct (c4_position_defined backbone) as [c4 Hc4].
  exists fb, c4. split; [done|]. split; [done|].
  rewrite (extractor_prefix env s progress pretrained trainable_layers
             norm_layer kw ctor backbone Hkw Hs Hctor).
  rewrite Hfb, Hc4.
  destruct Hrange as [H0 Hn].
  apply Z.leb_le in H0, Hn. rewrite H0, Hn. simpl.
  by destruct (SSDLiteFeatureExtractorMobileNet _ _ _ _ _) as [t [e|v]].
Qed.

Lemma extractor_on_frozen_backbone_witness :
  exists fb c4,
    freeze_before demo_backbone 3 = inr fb
    /\ c4_position demo_backbone = inr c4
    /\ _mobilenet_extractor demo_env (PyStr "mobilenet_v3_large") (PyBool true)
         (PyBool false) 3 PyNone ∅
       = Py.bind
           (emit (EvCall "mobilenet" [PyStr "mobilenet_v3_large"]
                    (backbone_keywords (PyBool true) (PyBool false) PyNone ∅)))
           (fun _ => SSDLiteFeatureExtractorMobileNet demo_env
                       (freeze_prefix demo_backbone fb) c4 PyNone ∅).
Proof.
  apply (extractor_on_frozen_backbone demo_env "mobilenet_v3_large" (PyBool true)
           (PyBool false) 3 PyNone ∅ (fun _ => inr demo_backbone)
           demo_backbone).
  - intros n _. apply lookup_empty.
  - reflexivity.
  - reflexivity.
  - simpl. lia.
Defined.

(** A number of trainable layers outside 0..[num_stages] fails the
    assertion after the backbone has been built: the only event is the
    call of its constructor, and no feature extractor is made. *)
Theorem trainable_layers_out_of_range env s progress pretrained
    trainable_layers norm_layer kw ctor backbone :
  (forall n, n ∈ extractor_params -> kw !! n = None) ->
  mobilenet_dict env !! s = Some ctor ->
  ctor (backbone_keywords progress pretrained norm_layer kw) = inr backbone ->
  trainable_layers < 0
  \/ Z.of_nat (length (stage_indices backbone)) < trainable_layers ->
  _mobilenet_extractor env (PyStr s) progress pretrained trainable_layers
    norm_layer kw
  = ([EvCall "mobilenet" [PyStr s]
        (backbone_keywords progress pretrained norm_layer kw)],
     inl (Raise AssertionError "" [])).
Proof.
  intros Hkw Hs Hctor Hrange.
  rewrite (extractor_prefix env s progress pretrained trainable_layers
             norm_layer kw ctor backbone Hkw Hs Hctor).
  assert ((0 <=? trainable_layers)
          && (trainable_layers <=? Z.of_nat (length (stage_indices backbone)))
          = false) as ->; [|done].
  apply andb_false_iff. destruct Hrange; [left|right]; by apply Z.leb_gt.
Qed.

Lemma trainable_layers_out_of_range_witness :
  _mobilenet_extractor demo_env (PyStr "mobilenet_v3_large") (PyBool true)
    (PyBool false) 6 PyNone ∅
  = ([EvCall "mobilenet" [PyStr "mobilenet_v3_large"]
        (backbone_keywords (PyBool true) (PyBool false) PyNone ∅)],
     inl (Raise AssertionError "" [])).
Proof.
  apply (trainable_layers_out_of_range demo_env "mobilenet_v3_large"
           (PyBool true) (PyBool false) 6 PyNone ∅ (fun _ => inr demo_backbone)
           demo_backbone).
  - intros n _. apply lookup_empty.
  - reflexivity.
  - reflexivity.
  - right. simpl. lia.
Defined.

End BackboneFacts.

(** ** The heads, the calls and the loading of weights *)

Module ModelFacts.

Import Ssdlite Extractor SsdliteFacts.
Local Open Scope py_scope.

(** *** The monad *)

Lemma lift_bind_ret {A B} (a : A) (k : A -> M B) :
  Py.bind (([], inr a) : M A) k = k a.
Proof. simpl. by destruct (k a). Qed.

Lemma bind_fails {A B} (P : event -> Prop) (m : M A) (k : A -> M B) :
  (exists e, outcome m = inl e) /\ Forall P (events m) ->
  (exists e, outcome (Py.bind m k) = inl e) /\ Forall P (events (Py.bind m k)).
Proof.
  intros [[e He] Hev]. destruct m as [t [e'|a]]; simpl in *; [|done]. eauto.
Qed.

(** *** The branches of the heads *)

(** Both heads have one branch per pair of [zip(in_channels, num_anchors)]:
    the longer list is cut to the shorter one without an error, and branch
    [i] is the prediction block for [in_channels[i]] with
    [num_classes * num_anchors[i]] or [4 * num_anchors[i]] outputs. *)
Theorem head_branches_zip in_channels num_anchors (n : Z) norm_layer :
  let head := new_SSDLiteHead in_channels num_anchors n norm_layer in
  let cls := module_list (classification_head head) in
  let reg := module_list (regression_head head) in
  length cls = Nat.min (length in_channels) (length num_anchors)
  /\ length reg = Nat.min (length in_channels) (length num_anchors)
  /\ forall i c a, in_channels !! i = Some c -> num_anchors !! i = Some a ->
       cls !! i = Some (_prediction_block c (n * a) 3 norm_layer)
       /\ reg !! i = Some (_prediction_block c (4 * a) 3 norm_layer).
Proof.
  simpl. unfold SSDLiteClassificationHead, SSDLiteRegressionHead. simpl.
  rewrite (SsdliteHeadFacts.append_loop_map
             (fun ca => _prediction_block ca.1 (n * ca.2) 3 norm_layer)).
  rewrite (SsdliteHeadFacts.append_loop_map
             (fun ca => _prediction_block ca.1 (4 * ca.2) 3 norm_layer)).
  simpl. rewrite !length_fmap, length_zip_with.
  split; [done|]. split; [done|].
  intros i c a Hc Ha. rewrite !list_lookup_fmap.
  assert (zip in_channels num_anchors !! i = Some (c, a)) as ->; [|done].
  apply lookup_zip_with_Some. eauto.
Qed.

(** *** Positional arguments of the wrapper *)

(** [backbone_name] is the eighth parameter of
    [ssdlite320_mobilenet_v3_large] and the wrapper always passes it by
    keyword: a call of the wrapper with eight or more positional arguments
    raises [TypeError] before anything is built. *)
Theorem wrapper_positional_limit env args kw :
  (8 <= length args)%nat ->
  exists msg a,
    ssdlite_mobilenet_v3_large env args kw = ([], inl (Raise TypeError msg a)).
Proof.
  intros Hlen. unfold ssdlite_mobilenet_v3_large. cbv zeta.
  destruct (merge_keywords _ _ _) as [e|ckw] eqn:Hm.
  { unfold merge_keywords in Hm. destruct (find _ _); simplify_eq. eauto. }
  apply merge_keywords_inr in Hm as [-> _].
  unfold Py.bind at 1. cbn [lift fst snd app].
  unfold ssdlite320_mobilenet_v3_large, bind_params.
  match goal with
  | |- context [List.find ?f ?l] => destruct (List.find f l) as [p|] eqn:Hf
  end; [simpl; eauto|].
  exfalso.
  pose proof (find_none _ _ Hf ("backbone_name", PyNone)) as Hn.
  simpl in Hn. apply bool_decide_eq_false in Hn.
  - apply Hn. eexists. by apply lookup_union_Some_l.
  - apply list_elem_of_In, elem_of_take. exists 7%nat. split; [done|lia].
Qed.

Lemma wrapper_positional_limit_witness :
  exists msg a,
    ssdlite_mobilenet_v3_large demo_env
      [PyBool false; PyBool true; PyInt 91; PyBool false; PyNone; PyNone;
       PyNone; PyStr "mobilenet_v3_large"] ∅
    = ([], inl (Raise TypeError msg a)).
Proof. apply (wrapper_positional_limit demo_env). simpl. lia. Defined.

(** *** The direct call without a backbone name *)

Lemma extractor_without_name env progress pretrained trainable_layers
    norm_layer kw :
  exists e,
    _mobilenet_extractor env PyNone progress pretrained trainable_layers
      norm_layer kw = ([], inl e).
Proof.
  unfold _mobilenet_extractor.
  destruct (bind_params _ _ _ _) as [e|fk]; simpl; eauto.
Qed.

Lemma build_model_without_name env pretrained progress num_classes
    pretrained_backbone trainable_backbone_layers norm_layer size reduce_tail
    kwargs :
  let m := build_model env pretrained progress num_classes pretrained_backbone
             trainable_backbone_layers norm_layer size PyNone reduce_tail
             kwargs in
  (exists e, outcome m = inl e) /\ Forall validation_only (events m).
Proof.
  simpl. unfold build_model. split.
  - rewrite outcome_bind.
    destruct (outcome (if is_None size then _ else _)) as [e|size']; [eauto|].
    rewrite outcome_bind, outcome_call.
    destruct (validate_trainable_layers _ _ _ _ _) as [e|tl]; [eauto|].
    cbv zeta. rewrite outcome_bind.
    destruct (outcome (lift _)) as [e|ekw]; [eauto|].
    rewrite outcome_bind.
    destruct (extractor_without_name env progress
                (if truthy pretrained then PyBool false else pretrained_backbone)
                tl (if is_None norm_layer then PyObj 1 else norm_layer) ekw)
      as [e ->].
    simpl. eauto.
  - trace_step.
    { destruct (is_None size); simpl; repeat constructor. }
    trace_step; [trace_step; done|]. cbv zeta.
    trace_step; [trace_step|].
    match goal with
    | |- context [_mobilenet_extractor env PyNone ?p ?q ?t ?n ?k] =>
        destruct (extractor_without_name env p q t n k) as [e ->]
    end.
    simpl. constructor.
Qed.

(** [backbone_name] defaults to [None], which names no backbone: a call
    of [ssdlite320_mobilenet_v3_large] that gives no backbone name never
    returns a model, and it raises before any backbone, feature extractor
    or [SSD] model is built. *)
Theorem direct_call_needs_backbone_name env args kw :
  (length args <= 7)%nat ->
  kw !! "backbone_name" = None ->
  (exists e, outcome (ssdlite320_mobilenet_v3_large env args kw) = inl e)
  /\ Forall validation_only (events (ssdlite320_mobilenet_v3_large env args kw)).
Proof.
  intros Hlen Hkw. unfold ssdlite320_mobilenet_v3_large.
  destruct (bind_params _ _ _ _) as [e|[frame extra]] eqn:Hb.
  { simpl. split; [eauto|constructor]. }
  pose proof (CallFacts.bind_params_frame _ _ _ _ _ _ ssdlite320_params_NoDup Hb
                7%nat _ _ eq_refl) as Hname.
  rewrite lookup_ge_None_2, Hkw in Hname by lia. simpl in Hname.
  assert (frame !!! "backbone_name" = PyNone) as Hn
    by (by rewrite lookup_total_alt, Hname).
  rewrite lift_bind. cbv zeta. cbn [fst snd]. rewrite Hn.
  unfold ssdlite320_body. apply bind_fails; apply build_model_without_name.
Qed.

Lemma direct_call_needs_backbone_name_witness :
  (exists e, outcome (ssdlite320_mobilenet_v3_large demo_env [] ∅) = inl e)
  /\ Forall validation_only (events (ssdlite320_mobilenet_v3_large demo_env [] ∅)).
Proof.
  apply (direct_call_needs_backbone_name demo_env [] ∅); [simpl; lia|done].
Defined.

(** *** Checkpoints *)

Lemma unwrap_key_absent k items :
  has_key k items = false -> unwrap_key k (PyDict items) = ret (PyDict items).
Proof.
  unfold has_key, unwrap_key. intros Hk.
  destruct (List.find _ items) as [kv|]; [|done].
  apply bool_decide_eq_false in Hk. destruct Hk. eauto.
Qed.

Lemma unwrap_key_first k v rest :
  unwrap_key k (PyDict ((k, v) :: rest)) = ret v.
Proof. unfold unwrap_key. simpl. by rewrite String.eqb_refl. Qed.

(** A checkpoint may hold the state dictionary itself, or hold it under
    ['model'], under ['state_dict'], or under ['state_dict'] inside
    ['model']: for a state dictionary with neither key, the four layouts
    load the same weights in the same way. *)
Theorem checkpoint_layouts env model items rest1 rest2 :
  has_key "model" items = false ->
  has_key "state_dict" items = false ->
  has_key "model" rest1 = false ->
  let sd := PyDict items in
  _load_state_dict env model (PyDict (("model", sd) :: rest2))
  = _load_state_dict env model sd
  /\ _load_state_dict env model (PyDict (("state_dict", sd) :: rest1))
     = _load_state_dict env model sd
  /\ _load_state_dict env model
       (PyDict (("model", PyDict (("state_dict", sd) :: rest1)) :: rest2))
     = _load_state_dict env model sd.
Proof.
  intros Hm Hs Hr. simpl. unfold _load_state_dict.
  rewrite !unwrap_key_first.
  rewrite (unwrap_key_absent "model" items Hm).
  assert (unwrap_key "model" (PyDict (("state_dict", PyDict items) :: rest1))
          = ret (PyDict (("state_dict", PyDict items) :: rest1))) as ->.
  { apply unwrap_key_absent. unfold has_key in *. simpl. exact Hr. }
  unfold ret. rewrite !lift_bind_ret.
  rewrite !unwrap_key_first, (unwrap_key_absent "state_dict" items Hs).
  done.
Qed.

Lemma checkpoint_layouts_witness :
  let sd := PyDict [("backbone.weight", PyObj 7)] in
  _load_state_dict demo_env (PyObj 11) (PyDict [("model", sd)])
  = _load_state_dict demo_env (PyObj 11) sd
  /\ _load_state_dict demo_env (PyObj 11)
       (PyDict [("state_dict", sd); ("epoch", PyInt 3)])
     = _load_state_dict demo_env (PyObj 11) sd
  /\ _load_state_dict demo_env (PyObj 11)
       (PyDict [("model", PyDict [("state_dict", sd); ("epoch", PyInt 3)])])
     = _load_state_dict demo_env (PyObj 11) sd.
Proof.
  apply (checkpoint_layouts demo_env (PyObj 11) [("backbone.weight", PyObj 7)]
           [("epoch", PyInt 3)] []); reflexivity.
Defined.

(** The weights are loaded strictly first.  When the strict load raises,
    whatever the exception, it is dropped and the weights are loaded again
    with [strict=False]; the result of the call is then the result of the
    second load. *)
Theorem strict_load_falls_back env model items :
  has_key "model" items = false ->
  has_key "state_dict" items = false ->
  let sd := PyDict items in
  let strict := EvCall "load_state_dict" [model; sd] ∅ in
  let loose :=
    EvCall "load_state_dict" [model; sd] {[ "strict" := PyBool false ]} in
  _load_state_dict env model sd
  = match load_state_dict env model sd true with
    | inr _ => ([strict], inr tt)
    | inl _ => ([strict; loose], load_state_dict env model sd false)
    end.
Proof.
  intros Hm Hs. simpl. unfold _load_state_dict.
  rewrite (unwrap_key_absent "model" items Hm). unfold ret.
  rewrite lift_bind_ret, (unwrap_key_absent "state_dict" items Hs).
  unfold ret. rewrite lift_bind_ret.
  unfold call, try_except, emit, lift, Py.bind. simpl.
  by destruct (load_state_dict env model (PyDict items) true) as [e|[]].
Qed.

Lemma strict_load_falls_back_witness :
  _load_state_dict demo_env (PyObj 11) (PyDict [])
  = ([EvCall "load_state_dict" [PyObj 11; PyDict []] ∅], inr tt).
Proof.
  apply (strict_load_falls_back demo_env (PyObj 11) []); reflexivity.
Defined.

(** With [pretrained=True], a [weights_name] other than the one key of
    [model_urls] raises without downloading or loading anything:
    [TypeError] when the name has an unhashable part, a list or a
    dictionary, also inside a tuple, and the [ValueError] of the branch
    without a checkpoint for every other name. *)
Theorem unknown_weights_name env model progress weights_name :
  weights_name <> PyStr "ssdlite320_mobilenet_v3_large_coco" ->
  load_pretrained env model (PyBool true) progress weights_name
  = ([], inl (match unhashable weights_name with
              | Some u => Raise TypeError "unhashable type" [u]
              | None => no_checkpoint weights_name
              end)).
Proof.
  intros Hw. unfold load_pretrained, dict_get. simpl is_True. cbv iota.
  destruct (unhashable weights_name) as [u|] eqn:Hu; [done|].
  destruct weights_name as [|b|n|s|l|l|l|f|o]; try done.
  unfold model_urls. rewrite lookup_singleton_ne by congruence. done.
Qed.

Lemma unknown_weights_name_witness :
  load_pretrained demo_env (PyObj 11) (PyBool true) (PyBool true)
    (PyStr "ssdlite320_mobilenet_v3_small_coco")
  = ([], inl (no_checkpoint (PyStr "ssdlite320_mobilenet_v3_small_coco")))
  /\ load_pretrained demo_env (PyObj 11) (PyBool true) (PyBool true)
       (PyTuple [PyInt 1; PyList [PyInt 2]])
     = ([], inl (Raise TypeError "unhashable type" [PyList [PyInt 2]])).
Proof.
  split.
  - apply (unknown_weights_name demo_env (PyObj 11) (PyBool true)
             (PyStr "ssdlite320_mobilenet_v3_small_coco")).
    discriminate.
  - apply (unknown_weights_name demo_env (PyObj 11) (PyBool true)
             (PyTuple [PyInt 1; PyList [PyInt 2]])).
    discriminate.
Defined.

(** *** The model that is returned *)

Lemma ssd_keywords_lookup (kwargs : gmap string pyval) (d1 d2 d3 d4 d5 : pyval) :
  let skw :=
    delete "image_std" (delete "image_mean" kwargs)
    ∪ list_to_map
        [("score_thresh", d1); ("nms_thresh", d2); ("detections_per_img", d3);
         ("topk_candidates", d4);
         ("image_mean", default d5 (kwargs !! "image_mean"));
         ("image_std", default d5 (kwargs !! "image_std"))] in
  (forall k v, kwargs !! k = Some v -> skw !! k = Some v)
  /\ (forall k, k ∈ ssd_default_keys -> is_Some (skw !! k)).
Proof.
  simpl. split.
  - intros k v Hk.
    destruct (decide (k = "image_mean")) as [->|Hm];
      [|destruct (decide (k = "image_std")) as [->|Hs]].
    + rewrite lookup_union_r by (by rewrite lookup_delete_ne, lookup_delete_eq).
      rewrite Hk. reflexivity.
    + rewrite lookup_union_r by apply lookup_delete_eq.
      rewrite Hk. reflexivity.
    + apply lookup_union_Some_l. by rewrite !lookup_delete_ne.
  - intros k Hk. apply lookup_union_is_Some. right.
    unfold ssd_default_keys in Hk. rewrite !elem_of_cons in Hk.
    destruct Hk as [->|[->|[->|[->|[->|[->|Hk]]]]]];
      [by eexists .. | by apply elem_of_nil in Hk].
Qed.

(** A call of the body that returns a model has passed every step: the
    trainable layers were validated, the feature extractor was built with
    [reduced_tail] added to the keywords, it gave six feature maps, and the
    model is the [SSD] made from that backbone with a head for those six
    maps and [num_classes] classes.  The keywords of [SSD] keep every
    keyword of the caller and have a value for each of the six defaults;
    the caller gave neither [head] nor [reduced_tail]. *)
Theorem returned_model_inversion env pretrained progress num_classes
    pretrained_backbone trainable_backbone_layers norm_layer size
    backbone_name reduce_tail kwargs model :
  outcome (build_model env pretrained progress num_classes pretrained_backbone
             trainable_backbone_layers norm_layer size backbone_name
             reduce_tail kwargs) = inr model ->
  let size' := if is_None size then PyTuple [PyInt 320; PyInt 320] else size in
  let norm' := if is_None norm_layer then PyObj 1 else norm_layer in
  exists tl backbone out_channels n skw,
    validate_trainable_layers env (py_or pretrained pretrained_backbone)
      trainable_backbone_layers 6 6 = inr tl
    /\ outcome (_mobilenet_extractor env backbone_name progress
                  (if truthy pretrained then PyBool false else pretrained_backbone)
                  tl norm' ({[ "reduced_tail" := reduce_tail ]} ∪ kwargs))
       = inr backbone
    /\ retrieve_out_channels env backbone size' = inr out_channels
    /\ length out_channels = 6%nat
    /\ as_int num_classes = Some n
    /\ new_SSD env backbone size' num_classes
         (new_SSDLiteHead out_channels
            (num_anchors_per_location env aspect_ratios) n norm') skw
       = inr model
    /\ (forall k v, kwargs !! k = Some v -> skw !! k = Some v)
    /\ (forall k, k ∈ ssd_default_keys -> is_Some (skw !! k))
    /\ kwargs !! "head" = None
    /\ kwargs !! "reduced_tail" = None.
Proof.
  intros H. simpl. unfold build_model in H. rewrite outcome_bind in H.
  assert (outcome (if is_None size
                   then warn "The size of the model is not provided; using default." ;;;
                        ret (PyTuple [PyInt 320; PyInt 320])
                   else ret size)
          = inr (if is_None size then PyTuple [PyInt 320; PyInt 320] else size))
    as Hsize by (by destruct (is_None size)).
  rewrite Hsize in H. clear Hsize.
  rewrite outcome_bind, outcome_call in H.
  destruct (validate_trainable_layers _ _ _ _ _) as [e|tl] eqn:Htl; [done|].
  cbv zeta in H. rewrite outcome_bind, outcome_lift in H.
  destruct (merge_keywords "_mobilenet_extractor" _ _) as [e|ekw] eqn:Hekw; [done|].
  apply merge_keywords_inr in Hekw as [-> Hrt].
  rewrite outcome_bind in H.
  destruct (outcome (_mobilenet_extractor _ _ _ _ _ _ _)) as [e|backbone] eqn:Hbb;
    [done|].
  rewrite outcome_bind, outcome_call in H.
  destruct (retrieve_out_channels _ _ _) as [e|oc] eqn:Hoc; [done|].
  rewrite outcome_bind in H.
  destruct (length oc =? length aspect_ratios)%nat eqn:Hlen; [|done].
  simpl outcome at 1 in H. cbv iota in H. rewrite outcome_bind in H.
  destruct (as_int num_classes) as [n|] eqn:Hn; [|done].
  simpl outcome at 1 in H. cbv iota in H.
  rewrite outcome_bind, outcome_lift in H.
  destruct (merge_keywords "SSD" _ _) as [e|skw] eqn:Hskw; [done|].
  apply merge_keywords_inr in Hskw as [-> Hhead].
  rewrite outcome_call in H.
  eexists tl, backbone, oc, n, _.
  split; [done|]. split; [exact Hbb|]. split; [done|].
  split; [by apply Nat.eqb_eq in Hlen|]. split; [done|]. split; [exact H|].
  pose proof (ssd_keywords_lookup kwargs (PyObj 2) (PyObj 3) (PyInt 300)
                (PyInt 300) (PyObj 4)) as [Hkeep Hdef].
  split; [exact Hkeep|]. split; [exact Hdef|]. split.
  - specialize (Hhead "head" (PyObj 5) ltac:(by constructor)).
    apply lookup_union_None in Hhead as [Hhead _].
    destruct (kwargs !! "head") as [v|] eqn:Hk; [|done].
    by rewrite lookup_delete_ne, lookup_delete_ne, Hk in Hhead.
  - apply (Hrt "reduced_tail" reduce_tail). by constructor.
Qed.

Lemma returned_model_inversion_witness :
  exists tl backbone out_channels n skw,
    validate_trainable_layers demo_env (py_or (PyBool false) (PyBool false))
      PyNone 6 6 = inr tl
    /\ outcome (_mobilenet_extractor demo_env (PyStr "mobilenet_v3_large")
                  (PyBool true) (PyBool false) tl (PyObj 1)
                  ({[ "reduced_tail" := PyBool false ]} ∪ ∅))
       = inr backbone
    /\ retrieve_out_channels demo_env backbone (PyTuple [PyInt 320; PyInt 320])
       = inr out_channels
    /\ length out_channels = 6%nat
    /\ as_int (PyInt 91) = Some n
    /\ new_SSD demo_env backbone (PyTuple [PyInt 320; PyInt 320]) (PyInt 91)
         (new_SSDLiteHead out_channels
            (num_anchors_per_location demo_env aspect_ratios) n (PyObj 1)) skw
       = inr (PyObj 11)
    /\ (forall k v, (∅ : gmap string pyval) !! k = Some v -> skw !! k = Some v)
    /\ (forall k, k ∈ ssd_default_keys -> is_Some (skw !! k))
    /\ (∅ : gmap string pyval) !! "head" = None
    /\ (∅ : gmap string pyval) !! "reduced_tail" = None.
Proof.
  apply (returned_model_inversion demo_env (PyBool false) (PyBool true)
           (PyInt 91) (PyBool false) PyNone PyNone PyNone
           (PyStr "mobilenet_v3_large") (PyBool false) ∅ (PyObj 11)).
  vm_compute. reflexivity.
Defined.

(** *** The wrapper and the direct call *)

Lemma find_ext_in {A} (f g : A -> bool) (l : list A) :
  (forall x, x ∈ l -> f x = g x) -> List.find f l = List.find g l.
Proof.
  induction l as [|x l IH]; intros Hfg; simpl; [done|].
  rewrite <- (Hfg x) by constructor.
  destruct (f x); [done|]. apply IH. intros y Hy. apply Hfg. by constructor.
Qed.

Lemma find_app_hit {A} (f : A -> bool) (l1 l2 : list A) x :
  x ∈ l1 -> f x = true -> List.find f (l1 ++ l2) = List.find f l1.
Proof.
  induction l1 as [|y l1 IH]; intros Hx Hf; [by apply elem_of_nil in Hx|].
  simpl. destruct (f y) eqn:Hy; [done|].
  apply IH; [|done]. apply elem_of_cons in Hx as [->|Hx]; [congruence|done].
Qed.

Lemma foldr_delete_lookup (params : list (string * pyval))
    (kw : gmap string pyval) k :
  foldr (fun p m => delete p.1 m) kw params !! k
  = if decide (k ∈ params.*1) then None else kw !! k.
Proof.
  induction params as [|p params IH]; csimpl.
  - destruct (decide (k ∈ [])) as [Hk|Hk]; [by apply elem_of_nil in Hk|done].
  - destruct (decide (p.1 = k)) as [<-|Hne].
    + rewrite lookup_delete_eq.
      destruct (decide (p.1 ∈ p.1 :: params.*1)) as [|Hk]; [done|].
      destruct Hk. constructor.
    + rewrite lookup_delete_ne, IH by done.
      destruct (decide (k ∈ params.*1)) as [H1|H1],
               (decide (k ∈ p.1 :: params.*1)) as [H2|H2]; try done.
      * destruct H2. by constructor.
      * apply elem_of_cons in H2 as [->|?]; done.
Qed.

(** Two sets of keywords that differ at [weights_name] only, both with
    a backbone name, bind alike: both fail or both bind, with the same
    [**kwargs]. *)
Lemma bind_params_but_weights_name args (kw1 kw2 : gmap string pyval) :
  (forall name, name <> "weights_name" -> kw1 !! name = kw2 !! name) ->
  is_Some (kw1 !! "backbone_name") ->
  match bind_params "ssdlite320_mobilenet_v3_large" ssdlite320_params args kw1,
        bind_params "ssdlite320_mobilenet_v3_large" ssdlite320_params args kw2
  with
  | inl _, inl _ => True
  | inr fk1, inr fk2 => fk1.2 = fk2.2
  | _, _ => False
  end.
Proof.
  intros Hagree Hname. unfold bind_params.
  set (f1 := fun p : string * pyval => bool_decide (is_Some (kw1 !! p.1))).
  set (f2 := fun p : string * pyval => bool_decide (is_Some (kw2 !! p.1))).
  assert (forall p : string * pyval, p.1 <> "weights_name" -> f1 p = f2 p) as Hf.
  { intros p Hp. unfold f1, f2. by rewrite Hagree. }
  assert (List.find f1 (take (length args) ssdlite320_params)
          = List.find f2 (take (length args) ssdlite320_params)) as ->.
  { destruct (decide (length args <= 9)%nat) as [Hle|Hgt].
    - apply find_ext_in. intros x Hx. apply Hf.
      apply elem_of_take in Hx as (i & Hi & Hlt).
      do 9 (destruct i as [|i]; [simpl in Hi; simplify_eq; discriminate|]).
      lia.
    - rewrite take_ge by (simpl in *; lia).
      change ssdlite320_params
        with (take 8 ssdlite320_params ++ drop 8 ssdlite320_params).
      assert (("backbone_name", PyNone) ∈ take 8 ssdlite320_params) as Hin
        by (apply elem_of_take; exists 7%nat; split; [done|lia]).
      rewrite (find_app_hit f1 _ _ _ Hin) by (by apply bool_decide_eq_true_2).
      rewrite (find_app_hit f2 _ _ _ Hin).
      + apply find_ext_in. intros x Hx. apply Hf.
        apply elem_of_take in Hx as (i & Hi & Hlt).
        do 8 (destruct i as [|i]; [simpl in Hi; simplify_eq; discriminate|]).
        lia.
      + rewrite <- Hf by discriminate. by apply bool_decide_eq_true_2. }
  destruct (List.find f2 _); [done|].
  case_bool_decide as Hlen; [done|]. cbv beta iota zeta. cbn [snd].
  apply map_eq. intros k. rewrite !foldr_delete_lookup.
  case_decide as Hk; [done|]. apply Hagree. intros ->. apply Hk. compute_done.
Qed.

Lemma body_ignores_weights_name env pretrained progress num_classes
    pretrained_backbone trainable_backbone_layers norm_layer size
    backbone_name reduce_tail w1 w2 kwargs :
  pretrained <> PyBool true ->
  ssdlite320_body env pretrained progress num_classes pretrained_backbone
    trainable_backbone_layers norm_layer size backbone_name reduce_tail w1 kwargs
  = ssdlite320_body env pretrained progress num_classes pretrained_backbone
      trainable_backbone_layers norm_layer size backbone_name reduce_tail w2
      kwargs.
Proof.
  intros Hp. unfold ssdlite320_body, load_pretrained.
  assert (is_True pretrained = false) as ->; [|done].
  by destruct pretrained as [|[]| | | | | | |].
Qed.

(** A failure to bind the arguments is a [TypeError]. *)
Lemma bind_params_TypeError fname params args kw e :
  bind_params fname params args kw = inl e ->
  exists msg a, e = Raise TypeError msg a.
Proof.
  unfold bind_params. destruct (List.find _ _); [intros ?; simplify_eq; eauto|].
  case_bool_decide; intros ?; simplify_eq. eauto.
Qed.

(** Unless [pretrained] is [True], the wrapper is the direct call with the
    backbone name filled in.  For keywords without [weights_name], compare
    a call of [ssdlite_mobilenet_v3_large] with the call of
    [ssdlite320_mobilenet_v3_large] with the same arguments and
    [backbone_name] set to the given name, or to ["mobilenet_v3_large"]:
    when the arguments of the direct call bind, the two calls have the
    same events and the same result, value or exception; when they do not
    bind, both calls raise [TypeError] before anything is built (the two
    messages are not compared). *)
Theorem wrapper_is_direct_call env args kw :
  kw !! "weights_name" = None ->
  pretrained_argument args kw <> PyBool true ->
  let direct_kw :=
    <["backbone_name" :=
        default (PyStr "mobilenet_v3_large") (kw !! "backbone_name")]> kw in
  match bind_params "ssdlite320_mobilenet_v3_large" ssdlite320_params args
          direct_kw with
  | inr _ =>
      ssdlite_mobilenet_v3_large env args kw
      = ssdlite320_mobilenet_v3_large env args direct_kw
  | inl _ =>
      exists m1 a1 m2 a2,
        ssdlite_mobilenet_v3_large env args kw
        = ([], inl (Raise TypeError m1 a1))
        /\ ssdlite320_mobilenet_v3_large env args direct_kw
           = ([], inl (Raise TypeError m2 a2))
  end.
Proof.
  intros Hw Hpre direct_kw. subst direct_kw.
  unfold ssdlite_mobilenet_v3_large. cbv zeta.
  set (bn := default (PyStr "mobilenet_v3_large") (kw !! "backbone_name")).
  assert (merge_keywords "ssdlite320_mobilenet_v3_large"
            [("backbone_name", bn);
             ("weights_name", PyFunc "ssdlite_mobilenet_v3_large")]
            (delete "backbone_name" kw)
          = inr (list_to_map
                   [("backbone_name", bn);
                    ("weights_name", PyFunc "ssdlite_mobilenet_v3_large")]
                 ∪ delete "backbone_name" kw)) as ->.
  { unfold merge_keywords. rewrite BackboneFacts.find_all_false; [done|].
    intros p Hp. apply bool_decide_eq_false_2.
    rewrite !elem_of_cons in Hp.
    destruct Hp as [->|[->|Hp]]; [| |by apply elem_of_nil in Hp]; simpl.
    - rewrite lookup_delete_eq. by intros [? ?].
    - rewrite lookup_delete_ne, Hw by done. by intros [? ?]. }
  rewrite lift_bind.
  set (ckw := _ ∪ delete "backbone_name" kw).
  set (ikw := <["backbone_name" := bn]> kw).
  assert (forall name, name <> "weights_name" -> ckw !! name = ikw !! name)
    as Hagree.
  { intros name Hne. unfold ckw, ikw.
    destruct (decide (name = "backbone_name")) as [->|Hnb].
    - rewrite lookup_insert_eq. by apply lookup_union_Some_l.
    - rewrite lookup_insert_ne by done.
      rewrite lookup_union_r, lookup_delete_ne; [done..|].
      apply not_elem_of_list_to_map_1. simpl. rewrite !elem_of_cons.
      intros [?|[?|Hn]]; [done..|by apply elem_of_nil in Hn]. }
  assert (ckw !! "backbone_name" = Some bn) as Hbn
    by (by apply lookup_union_Some_l).
  pose proof (bind_params_but_weights_name args ckw ikw Hagree
                ltac:(by rewrite Hbn)) as Hbind.
  unfold ssdlite320_mobilenet_v3_large. rewrite !lift_bind.
  destruct (bind_params _ _ args ckw) as [e1|[f1 x1]] eqn:H1,
           (bind_params _ _ args ikw) as [e2|[f2 x2]] eqn:H2;
    try done.
  { destruct (bind_params_TypeError _ _ _ _ _ H1) as (m1 & a1 & ->).
    destruct (bind_params_TypeError _ _ _ _ _ H2) as (m2 & a2 & ->).
    by exists m1, a1, m2, a2. }
  simpl in Hbind. subst x2. cbv zeta. cbn [fst snd].
  pose proof (CallFacts.bind_params_frame _ _ _ _ _ _ ssdlite320_params_NoDup H1)
    as Hf1.
  pose proof (CallFacts.bind_params_frame _ _ _ _ _ _ ssdlite320_params_NoDup H2)
    as Hf2.
  assert (forall i name d, ssdlite320_params !! i = Some (name, d) ->
            name <> "weights_name" -> f1 !!! name = f2 !!! name) as Hsame.
  { intros i name d Hi Hne.
    by rewrite !lookup_total_alt, (Hf1 i name d Hi), (Hf2 i name d Hi), Hagree. }
  rewrite (Hsame 0%nat "pretrained" _ eq_refl) by done.
  rewrite (Hsame 1%nat "progress" _ eq_refl) by done.
  rewrite (Hsame 2%nat "num_classes" _ eq_refl) by done.
  rewrite (Hsame 3%nat "pretrained_backbone" _ eq_refl) by done.
  rewrite (Hsame 4%nat "trainable_backbone_layers" _ eq_refl) by done.
  rewrite (Hsame 5%nat "norm_layer" _ eq_refl) by done.
  rewrite (Hsame 6%nat "size" _ eq_refl) by done.
  rewrite (Hsame 7%nat "backbone_name" _ eq_refl) by done.
  rewrite (Hsame 8%nat "reduce_tail" _ eq_refl) by done.
  apply body_ignores_weights_name.
  rewrite lookup_total_alt, (Hf2 0%nat _ _ eq_refl). simpl.
  unfold pretrained_argument in Hpre.
  destruct args as [|v args]; simpl; [|done].
  unfold ikw. by rewrite lookup_insert_ne.
Qed.

(** A call that binds, and one with a keyword for the first positional
    argument. *)
Lemma wrapper_is_direct_call_witness :
  ssdlite_mobilenet_v3_large demo_env [] {[ "num_classes" := PyInt 21 ]}
  = ssdlite320_mobilenet_v3_large demo_env []
      (<["backbone_name" := PyStr "mobilenet_v3_large"]>
         {[ "num_classes" := PyInt 21 ]})
  /\ exists m1 a1 m2 a2,
       ssdlite_mobilenet_v3_large demo_env [PyBool false]
         {[ "pretrained" := PyBool false ]}
       = ([], inl (Raise TypeError m1 a1))
       /\ ssdlite320_mobilenet_v3_large demo_env [PyBool false]
            (<["backbone_name" := PyStr "mobilenet_v3_large"]>
               {[ "pretrained" := PyBool false ]})
          = ([], inl (Raise TypeError m2 a2)).
Proof.
  split.
  - exact (wrapper_is_direct_call demo_env [] {[ "num_classes" := PyInt 21 ]}
             eq_refl ltac:(discriminate)).
  - exact (wrapper_is_direct_call demo_env [PyBool false]
             {[ "pretrained" := PyBool false ]} eq_refl ltac:(discriminate)).
Defined.

(** *** The keywords of the caller *)

Lemma extractor_receives_keywords env backbone_name progress pretrained
    trainable_layers norm_layer kw :
  Forall (receives_keywords kw)
    (events (_mobilenet_extractor env backbone_name progress pretrained
               trainable_layers norm_layer kw)).
Proof.
  unfold _mobilenet_extractor.
  trace_step; [trace_step|]. cbv zeta.
  match goal with H : outcome (lift (bind_params _ _ _ _)) = inr _ |- _ =>
    rename H into Hb end.
  rewrite outcome_lift in Hb.
  assert (a.2 = kw) as Hrest.
  { pose proof (CallFacts.bind_params_no_clash _ _ _ _ _ Hb) as Hclash.
    unfold bind_params in Hb. destruct (List.find _ _); [done|].
    case_bool_decide; [done|]. simplify_eq. cbn [snd].
    apply BackboneFacts.delete_absent_keys. intros p Hp.
    apply list_elem_of_lookup in Hp as [i Hi].
    destruct p as [name d].
    destruct ([backbone_name; progress; pretrained; PyInt trainable_layers;
               norm_layer] !! i) as [v|] eqn:Hv.
    - by apply (Hclash i name d v).
    - apply lookup_ge_None in Hv. apply lookup_lt_Some in Hi.
      simpl in *. lia. }
  rewrite Hrest.
  trace_step; [trace_step|].
  trace_step; [trace_step|].
  match goal with H : outcome (lift (merge_keywords _ _ _)) = inr _ |- _ =>
    rewrite outcome_lift in H; apply merge_keywords_inr in H as [-> Hm] end.
  trace_step.
  { trace_step. unfold receives_keywords. intros _ k v Hk.
    rewrite lookup_union_r; [done|].
    apply not_elem_of_list_to_map_1. simpl. rewrite !elem_of_cons.
    intros [->|[->|[->|Hn]]]; [| | |by apply elem_of_nil in Hn].
    - rewrite (Hm "pretrained" pretrained) in Hk; [done|]. rewrite !elem_of_cons. auto.
    - rewrite (Hm "progress" progress) in Hk; [done|]. rewrite !elem_of_cons. auto.
    - rewrite (Hm "norm_layer" norm_layer) in Hk; [done|]. rewrite !elem_of_cons. auto. }
  trace_step; [trace_step|].
  trace_step; [by destruct (trainable_layers =? 0)|].
  trace_step; [trace_step|].
  unfold SSDLiteFeatureExtractorMobileNet.
  trace_step; [trace_step|].
  trace_step; [trace_step|].
  destruct (blk_use_res_connect _); [|trace_step].
  trace_step; [trace_step|]. trace_step. simpl. auto.
Qed.

(** Every keyword the caller gives beyond the named parameters, the
    [image_mean] and [image_std] meant for [SSD] included, is passed on to
    the constructor of the backbone and to the feature extractor, together
    with [reduced_tail]. *)
Theorem keywords_reach_backbone env pretrained progress num_classes
    pretrained_backbone trainable_backbone_layers norm_layer size
    backbone_name reduce_tail kwargs :
  Forall (receives_keywords (<["reduced_tail" := reduce_tail]> kwargs))
    (events (build_model env pretrained progress num_classes pretrained_backbone
               trainable_backbone_layers norm_layer size backbone_name
               reduce_tail kwargs)).
Proof.
  unfold build_model.
  trace_step; [destruct (is_None size); repeat trace_step; trace_event|].
  trace_step; [trace_step; trace_event|]. cbv zeta.
  trace_step; [trace_step|].
  match goal with H : outcome (lift (merge_keywords _ _ _)) = inr _ |- _ =>
    rewrite outcome_lift in H; apply merge_keywords_inr in H as [-> Hm] end.
  trace_step.
  { replace (<["reduced_tail" := reduce_tail]> kwargs)
      with (list_to_map [("reduced_tail", reduce_tail)] ∪ kwargs).
    - apply extractor_receives_keywords.
    - rewrite (insert_union_singleton_l kwargs). reflexivity. }
  trace_step; [trace_step; trace_event|].
  trace_step; [trace_step|].
  trace_step; [destruct (as_int num_classes); trace_step|].
  trace_step; [trace_step|].
  trace_step; trace_event.
Qed.

End ModelFacts.

(** ** The split file of [DataListClassification] *)

Module SplitFileFacts.

Import Datalist SplitFile SsdliteFacts.
Local Open Scope py_scope.

Lemma py_split_fields s :
  exists f fs, py_split s = f :: fs
               /\ (has_space s = true <-> fs <> []).
Proof.
  induction s as [|c s (f & fs & IH & Hsp)]; simpl.
  - exists EmptyString, []. split; [done|]. split; [discriminate|done].
  - destruct (Ascii.eqb c (Ascii.ascii_of_nat 32)) eqn:Hc; simpl.
    + exists EmptyString, (py_split s). split; [done|].
      split; [|done]. intros _. by rewrite IH.
    + rewrite IH. exists (String c f), fs. split; [done|]. exact Hsp.
Qed.

Lemma second_field line :
  match py_index (py_split (py_strip line)) 1 with
  | inl e => has_label line = false /\ exn_cls e = IndexError
  | inr _ => has_label line = true
  end.
Proof.
  unfold has_label.
  destruct (py_split_fields (py_strip line)) as (f & fs & -> & Hsp).
  unfold py_index. simpl.
  destruct fs as [|g fs]; simpl.
  - split; [|done]. destruct (has_space _); [|done].
    by destruct (proj1 Hsp eq_refl).
  - apply Hsp. discriminate.
Qed.

Lemma labels_of_lines lines :
  match map_exn (fun split_line => py_index split_line 1)
          ((fun split_line => py_split (py_strip split_line)) <$> lines) with
  | inl e => forallb has_label lines = false /\ exn_cls e = IndexError
  | inr labels => forallb has_label lines = true
                  /\ length labels = length lines
  end.
Proof.
  induction lines as [|line lines IH]; csimpl; [done|].
  pose proof (second_field line) as Hline.
  destruct (py_index (py_split (py_strip line)) 1) as [e|label].
  - destruct Hline as [-> ?]. done.
  - rewrite Hline. simpl.
    destruct (map_exn _ _) as [e|labels]; [done|].
    destruct IH as [-> Hlen]. csimpl. by rewrite Hlen.
Qed.

(** On a split file of ASCII text, [find_classes] opens the file and then
    always raises: with a file of no lines [ValueError] (the maximum of no
    labels), with a line that has no second field [IndexError], and with a
    label on every line [TypeError] (a string plus one). *)
Theorem find_classes_exception env self files_path split_file lines :
  open_readlines env split_file = inr lines ->
  forallb is_ascii lines = true ->
  exists e,
    find_classes env self files_path split_file
    = ([EvCall "open" [split_file] ∅], inl e)
    /\ exn_cls e = find_classes_error lines.
Proof.
  intros Hopen _. unfold find_classes, call. rewrite Hopen.
  unfold find_classes_error. cbv zeta.
  pose proof (labels_of_lines lines) as Hl. simpl.
  destruct (map_exn _ _) as [e|labels]; simpl.
  - destruct Hl as [-> He]. eauto.
  - destruct Hl as [-> Hlen].
    destruct labels, lines; simpl in *; try done; eauto.
Qed.

Lemma find_classes_exception_witness :
  exists e,
    find_classes demo_env (PyObj 2) (PyStr "data") (PyStr "train.txt")
    = ([EvCall "open" [PyStr "train.txt"] ∅], inl e)
    /\ exn_cls e
       = find_classes_error ["images/cat_01.jpg 3"; "images/dog_07.jpg 5"].
Proof.
  apply (find_classes_exception demo_env (PyObj 2) (PyStr "data")
           (PyStr "train.txt")); reflexivity.
Defined.

(** When the initialisation of the base class returns, [__init__] ends
    with the exception of [find_classes]: [make_dataset] is not reached. *)
Theorem init_fails_in_find_classes env self files_path split_file loader
    extensions transform target_transform is_valid_file :
  vision_dataset_init env self files_path transform target_transform = inr tt ->
  exists e,
    outcome (find_classes env self files_path split_file) = inl e
    /\ __init__ env self files_path split_file loader extensions transform
         target_transform is_valid_file
       = (EvCall "VisionDataset.__init__"
            [self; files_path; transform; target_transform] ∅
          :: events (find_classes env self files_path split_file),
          inl e).
Proof.
  intros Hbase.
  destruct (DatalistFacts.find_classes_always_raises env self files_path
              split_file) as [e He].
  exists e. split; [done|]. unfold __init__, call. rewrite Hbase.
  destruct (find_classes env self files_path split_file) as [t [e'|cc]];
    simpl in *; by simplify_eq.
Qed.

Lemma init_fails_in_find_classes_witness :
  exists e,
    outcome (find_classes demo_env (PyObj 2) (PyStr "data") (PyStr "train.txt"))
    = inl e
    /\ __init__ demo_env (PyObj 2) (PyStr "data") (PyStr "train.txt")
         (PyFunc "default_loader") (PyTuple [PyStr ".jpg"]) PyNone PyNone PyNone
       = (EvCall "VisionDataset.__init__"
            [PyObj 2; PyStr "data"; PyNone; PyNone] ∅
          :: events (find_classes demo_env (PyObj 2) (PyStr "data")
                       (PyStr "train.txt")),
          inl e).
Proof.
  apply (init_fails_in_find_classes demo_env (PyObj 2) (PyStr "data")
           (PyStr "train.txt") (PyFunc "default_loader")
           (PyTuple [PyStr ".jpg"]) PyNone PyNone PyNone).
  reflexivity.
Defined.

End SplitFileFacts.

(** ** The two stages of the features *)

Module FeaturesFacts.

Import Features.

(** For a C4 position that is not negative, the two children of
    [self.features] hold the layers of the backbone once each and in
    order: the blocks before C4 and the first layer of C4, then the other
    layers of C4 and the blocks after it. *)
Theorem split_features_keeps_layers {L} (backbone : list (list L)) (c4_pos : Z)
    s1 s2 :
  0 <= c4_pos ->
  split_features backbone c4_pos = inr (s1, s2) ->
  concat s1 ++ concat s2 = concat backbone
  /\ length s1 = S (Z.to_nat c4_pos)
  /\ length s2 = (length backbone - Z.to_nat c4_pos)%nat.
Proof.
  intros Hpos. unfold split_features, py_index, py_slice_to, py_slice_from.
  destruct (c4_pos <? 0) eqn:Hneg; [lia|]. rewrite Hneg.
  destruct (c4_pos + 1 <? 0) eqn:Hneg1; [lia|].
  destruct (backbone !! Z.to_nat c4_pos) as [c4|] eqn:Hc4; [|done].
  simpl. destruct c4 as [|first rest]; [done|]. simpl.
  intros ?; simplify_eq.
  pose proof (lookup_lt_Some _ _ _ Hc4) as Hlt.
  split; [|split].
  - rewrite concat_app, drop_0.
    change (concat [[first]]) with [first].
    change (concat (rest :: ?k)) with (rest ++ concat k).
    rewrite <- (take_drop_middle backbone (Z.to_nat c4_pos) (first :: rest) Hc4)
      at 3.
    rewrite concat_app, concat_cons, <- app_assoc.
    replace (Z.to_nat (c4_pos + 1)) with (S (Z.to_nat c4_pos)) by lia.
    done.
  - rewrite length_app, length_take. simpl. lia.
  - simpl. rewrite length_drop. lia.
Qed.

Lemma split_features_keeps_layers_witness :
  concat ([[1]; [2; 3]] ++ [[4]]) ++ concat [[5; 6]; [7]]
  = concat [[1]; [2; 3]; [4; 5; 6]; [7]]
  /\ length ([[1]; [2; 3]] ++ [[4]]) = S (Z.to_nat 2)
  /\ length [[5; 6]; [7]]
     = (length [[1]; [2; 3]; [4; 5; 6]; [7]] - Z.to_nat 2)%nat.
Proof.
  apply (split_features_keeps_layers [[1]; [2; 3]; [4; 5; 6]; [7]] 2);
    [lia|reflexivity].
Defined.

End FeaturesFacts.
